(** * VmmSpdmVTpmCommunicator: the vTPM transport of a TDX guest

    A shallow embedding of [VTpmContextWrite], [VTpmContextRead], of the
    shared-buffer helpers [AllocateSharedBuffer] and [FreeSharedBuffer]
    and of the diagnostic dumps [InternalDumpData] and
    [VmmSpdmVTpmDumpHex], followed by the properties of the transport that
    the design document states and by further properties read off the
    code.

    Conventions of the embedding.
    - Guest memory is one flat byte-addressed store; a pointer is the
      address it holds (a [Z]), [NULL] is address 0.
    - The C integer types are [Z] with the truncation written where the C
      code truncates ([UINT32] casts and [UINT32] arithmetic).
    - The collaborators the file calls but does not define (page allocator,
      page-attribute setter, shared-mask provider, TDVMCALL primitive) are
      the fields of a [Platform] record over an abstract platform state.
      What the host writes to shared memory is modelled as happening
      during the TDVMCALL.
    - Every call of a collaborator is logged as an [Event], so that a
      statement can speak of the calls a run issued, their order and their
      arguments.
    - [*ResponseSize] is passed in and out by value.
    - A dump is the list of the [DEBUG] calls it makes, each with its
      format string and arguments. *)

From Stdlib Require Import String Ascii.
From Stdlib Require Import ZArith List Bool Lia Permutation.
Import ListNotations.
Local Open Scope Z_scope.

(** ** Flat memory *)

Definition Mem : Type := Z -> Z.

Definition NULL : Z := 0.

Definition UINT8 (v : Z) : Z := v mod 2 ^ 8.
Definition UINT32 (v : Z) : Z := v mod 2 ^ 32.

Definition ReadUint8 (m : Mem) (a : Z) : Z := UINT8 (m a).

Definition WriteUint8 (m : Mem) (a v : Z) : Mem :=
  fun x => if x =? a then UINT8 v else m x.

(** Little-endian 32-bit accesses (the target is x86-64). *)
Definition ReadUint32 (m : Mem) (a : Z) : Z :=
  ReadUint8 m a + 2 ^ 8 * ReadUint8 m (a + 1)
  + 2 ^ 16 * ReadUint8 m (a + 2) + 2 ^ 24 * ReadUint8 m (a + 3).

Definition WriteUint32 (m : Mem) (a v : Z) : Mem :=
  WriteUint8
    (WriteUint8
       (WriteUint8 (WriteUint8 m a v) (a + 1) (v / 2 ^ 8))
       (a + 2) (v / 2 ^ 16))
    (a + 3) (v / 2 ^ 24).

(** [CopyMem (Destination, Source, Length)]: the source bytes are those
    before the copy, as BaseMemoryLib guarantees for overlapping buffers. *)
Definition CopyMem (m : Mem) (Destination Source Length : Z) : Mem :=
  fun x =>
    if (Destination <=? x) && (x <? Destination + Length)
    then m (Source + (x - Destination))
    else m x.

(** [CopyMem] from a constant object given by its bytes. *)
Fixpoint CopyBytes (m : Mem) (Destination : Z) (bs : list Z) : Mem :=
  match bs with
  | [] => m
  | b :: bs' => CopyBytes (WriteUint8 m Destination b) (Destination + 1) bs'
  end.

Fixpoint ReadBytes (m : Mem) (a : Z) (n : nat) : list Z :=
  match n with
  | O => []
  | S n' => ReadUint8 m a :: ReadBytes m (a + 1) n'
  end.

Definition le16 (v : Z) : list Z := [UINT8 v; UINT8 (v / 2 ^ 8)].
Definition le32 (v : Z) : list Z :=
  [UINT8 v; UINT8 (v / 2 ^ 8); UINT8 (v / 2 ^ 16); UINT8 (v / 2 ^ 24)].

(** ** Constants *)

Definition SERVICE_VTPM_SEND_MESSAGE : Z := 1.
Definition SERVICE_VTPM_RECEIVE_MESSAGE : Z := 2.
Definition VMM_SPDM_TIMEOUT : Z := 2000.
Definition VTPM_DEFAULT_ALLOCATION_PAGE : Z := 1.
Definition VTPM_DEFAULT_MAX_BUFFER_SIZE : Z := 0x1000.

(** UEFI base definitions used by the file (64-bit build). *)
Definition EFI_PAGES_TO_SIZE (Pages : Z) : Z := Z.shiftl Pages 12.
Definition MAX_BIT : Z := 2 ^ 63.
Definition EFI_SUCCESS : Z := 0.
Definition EFI_INVALID_PARAMETER : Z := Z.lor MAX_BIT 2.
Definition EFI_UNSUPPORTED : Z := Z.lor MAX_BIT 3.
Definition EFI_BUFFER_TOO_SMALL : Z := Z.lor MAX_BIT 5.
Definition EFI_ABORTED : Z := Z.lor MAX_BIT 21.
Definition EFI_ERROR (StatusCode : Z) : bool := Z.testbit StatusCode 63.

(** ** Wire structures ([#pragma pack(1)]) *)

(** GHCI 2.0 Table 3-45 *)
Module TDVMCALL_SERVICE_COMMAND_HEADER.
Record t := mk { Guid : list Z; Length : Z; Reserved : Z }.
Definition sizeof : Z := 24.
Definition offset_Length : Z := 16.
Definition offset_Reserved : Z := 20.
Definition bytes (h : t) : list Z :=
  Guid h ++ le32 (Length h) ++ le32 (Reserved h).
End TDVMCALL_SERVICE_COMMAND_HEADER.

(** GHCI 2.0 Table 3-46 *)
Module TDVMCALL_SERVICE_RESPONSE_HEADER.
Record t := mk { Guid : list Z; Length : Z; Status : Z }.
Definition sizeof : Z := 24.
Definition offset_Length : Z := 16.
Definition offset_Status : Z := 20.
Definition bytes (h : t) : list Z :=
  Guid h ++ le32 (Length h) ++ le32 (Status h).
End TDVMCALL_SERVICE_RESPONSE_HEADER.

(** VTPM 0.6.5 Table 5-1 *)
Module SEND_MESSAGE_COMMAND_HEADER.
Record t := mk { Version : Z; Command : Z; Reserved : Z }.
Definition sizeof : Z := 4.
Definition bytes (h : t) : list Z :=
  [UINT8 (Version h); UINT8 (Command h)] ++ le16 (Reserved h).
End SEND_MESSAGE_COMMAND_HEADER.

(** VTPM 0.6.5 Table 5-2 *)
Module SEND_MESSAGE_RESPONSE_HEADER.
Record t := mk { Version : Z; Command : Z; Status : Z; Reserved : Z }.
Definition sizeof : Z := 4.
Definition offset_Status : Z := 2.
Definition bytes (h : t) : list Z :=
  [UINT8 (Version h); UINT8 (Command h); UINT8 (Status h);
   UINT8 (Reserved h)].
End SEND_MESSAGE_RESPONSE_HEADER.

(** VTPM 0.6.5 Table 5-3 *)
Module RECEIVE_MESSAGE_COMMAND_HEADER.
Record t := mk { Version : Z; Command : Z; Reserved : Z }.
Definition sizeof : Z := 4.
Definition bytes (h : t) : list Z :=
  [UINT8 (Version h); UINT8 (Command h)] ++ le16 (Reserved h).
End RECEIVE_MESSAGE_COMMAND_HEADER.

(** VTPM 0.6.5 Table 5-4 *)
Module RECEIVE_MESSAGE_RESPONSE_HEADER.
Record t := mk { Version : Z; Command : Z; Status : Z; Reserved : Z }.
Definition sizeof : Z := 4.
Definition offset_Status : Z := 2.
Definition bytes (h : t) : list Z :=
  [UINT8 (Version h); UINT8 (Command h); UINT8 (Status h);
   UINT8 (Reserved h)].
End RECEIVE_MESSAGE_RESPONSE_HEADER.

Definition VTPM_SERVICE_GUID : list Z :=
  [0x93; 0x07; 0x59; 0x64; 0x52; 0x78; 0x52; 0x4e;
   0xbe; 0x45; 0xcd; 0xbb; 0x11; 0x6f; 0x20; 0xf3].

Definition mTdvmcallServiceCommandHeaderTemplate
  : TDVMCALL_SERVICE_COMMAND_HEADER.t :=
  TDVMCALL_SERVICE_COMMAND_HEADER.mk VTPM_SERVICE_GUID 0 0.

(** Declared with the command header type in the source; the two layouts
    coincide. *)
Definition mTdvmcallServiceResponseHeaderTemplate
  : TDVMCALL_SERVICE_COMMAND_HEADER.t :=
  TDVMCALL_SERVICE_COMMAND_HEADER.mk VTPM_SERVICE_GUID 0 0.

Definition mSendMessageCommandHeaderTemplate
  : SEND_MESSAGE_COMMAND_HEADER.t :=
  SEND_MESSAGE_COMMAND_HEADER.mk 0 SERVICE_VTPM_SEND_MESSAGE 0.

Definition mSendMessageResponseHeaderTemplate
  : SEND_MESSAGE_RESPONSE_HEADER.t :=
  SEND_MESSAGE_RESPONSE_HEADER.mk 0 SERVICE_VTPM_SEND_MESSAGE 0 0.

Definition mReceiveMessageCommandHeaderTemplate
  : RECEIVE_MESSAGE_COMMAND_HEADER.t :=
  RECEIVE_MESSAGE_COMMAND_HEADER.mk 0 SERVICE_VTPM_RECEIVE_MESSAGE 0.

Definition mReceiveMessageResponseHeaderTemplate
  : RECEIVE_MESSAGE_RESPONSE_HEADER.t :=
  RECEIVE_MESSAGE_RESPONSE_HEADER.mk 0 SERVICE_VTPM_RECEIVE_MESSAGE 0 0.

(** ** The platform *)

(** The collaborators of the transport, over a platform state [P].
    [TdVmCall] also receives guest memory and returns it as the host left
    it, together with the return code and the value stored through its
    last argument. *)
Record Platform (P : Type) : Type := {
  TDVMCALL_SERVICE : Z;
  AllocatePages : Z -> P -> Z * P;
  FreePages : Z -> Z -> P -> P;
  MemEncryptTdxSetPageSharedBit : Z -> Z -> Z -> P -> Z * P;
  TdSharedPageMask : P -> Z * P;
  TdVmCall : Z -> Z -> Z -> Z -> Z -> Mem -> P -> Z * Z * Mem * P
}.

Arguments TDVMCALL_SERVICE {P} _.
Arguments AllocatePages {P} _ _ _.
Arguments FreePages {P} _ _ _ _.
Arguments MemEncryptTdxSetPageSharedBit {P} _ _ _ _ _.
Arguments TdSharedPageMask {P} _ _.
Arguments TdVmCall {P} _ _ _ _ _ _ _ _.

(** Modelled from the spec: the declaration of
    [MemEncryptTdxSetPageSharedBit] is not among the sources. Following the
    design document (a page-attribute setter that marks a region shared or
    private; Release clears the shared attribute), its first argument
    selects the attribute: 0 marks the region shared, 1 reverts it to
    private. *)
Definition MARK_SHARED : Z := 0.
Definition CLEAR_SHARED : Z := 1.

Inductive Event : Type :=
| EvAllocatePages (Pages Buffer : Z)
| EvFreePages (Buffer Pages : Z)
| EvSetPageSharedBit (Mode Address Pages Status : Z)
| EvTdSharedPageMask (Mask : Z)
| EvTdVmCall (Leaf Arg1 Arg2 Arg3 Arg4 : Z) (Seen : Mem)
             (RetCode RetValue : Z) (Left : Mem).

Record World (P : Type) : Type := mkWorld { mem : Mem; plat : P }.
Arguments mkWorld {P} _ _.
Arguments mem {P} _ _.
Arguments plat {P} _.

(** The result of running a piece of the program: its value, the world it
    leaves and the collaborator calls it issued, oldest first. *)
Record Run (P A : Type) : Type :=
  mkRun { value : A; world : World P; events : list Event }.
Arguments mkRun {P A} _ _ _.
Arguments value {P A} _.
Arguments world {P A} _.
Arguments events {P A} _.

Definition M (P A : Type) : Type := World P -> Run P A.

Definition ret {P A} (a : A) : M P A := fun w => mkRun a w [].

Definition bind {P A B} (c : M P A) (k : A -> M P B) : M P B :=
  fun w =>
    match c w with
    | mkRun a w1 e1 =>
        match k a w1 with
        | mkRun b w2 e2 => mkRun b w2 (e1 ++ e2)
        end
    end.

Notation "x <- c ;; k" := (bind c (fun x => k))
  (at level 61, c at next level, right associativity).
Notation "c ;;; k" := (bind c (fun _ => k))
  (at level 61, right associativity).

(** ** The program *)

Section Transport.

Context {P : Type} (pf : Platform P).

(** *** Collaborator calls and memory accesses as actions *)

Definition callAllocatePages (Pages : Z) : M P Z :=
  fun w =>
    let r := AllocatePages pf Pages (plat w) in
    mkRun (fst r) (mkWorld (mem w) (snd r)) [EvAllocatePages Pages (fst r)].

Definition callFreePages (Buffer Pages : Z) : M P unit :=
  fun w =>
    mkRun tt (mkWorld (mem w) (FreePages pf Buffer Pages (plat w)))
          [EvFreePages Buffer Pages].

Definition callMemEncryptTdxSetPageSharedBit (Mode Address Pages : Z)
  : M P Z :=
  fun w =>
    let r := MemEncryptTdxSetPageSharedBit pf Mode Address Pages (plat w) in
    mkRun (fst r) (mkWorld (mem w) (snd r))
          [EvSetPageSharedBit Mode Address Pages (fst r)].

Definition callTdSharedPageMask : M P Z :=
  fun w =>
    let r := TdSharedPageMask pf (plat w) in
    mkRun (fst r) (mkWorld (mem w) (snd r)) [EvTdSharedPageMask (fst r)].

(** Returns [(RetCode, RetValue)]. *)
Definition callTdVmCall (Leaf Arg1 Arg2 Arg3 Arg4 : Z) : M P (Z * Z) :=
  fun w =>
    let r := TdVmCall pf Leaf Arg1 Arg2 Arg3 Arg4 (mem w) (plat w) in
    let RetCode := fst (fst (fst r)) in
    let RetValue := snd (fst (fst r)) in
    let m' := snd (fst r) in
    mkRun (RetCode, RetValue) (mkWorld m' (snd r))
          [EvTdVmCall Leaf Arg1 Arg2 Arg3 Arg4 (mem w) RetCode RetValue m'].

Definition store (f : Mem -> Mem) : M P unit :=
  fun w => mkRun tt (mkWorld (f (mem w)) (plat w)) [].

Definition load {A} (f : Mem -> A) : M P A :=
  fun w => mkRun (f (mem w)) w [].

(** *** AllocateSharedBuffer *)

Definition AllocateSharedBuffer (Pages : Z) : M P Z :=
  Buffer <- callAllocatePages Pages ;;
  if Buffer =? NULL then ret NULL
  else
    Status <- callMemEncryptTdxSetPageSharedBit MARK_SHARED Buffer Pages ;;
    if EFI_ERROR Status
    then callFreePages Buffer Pages ;;; ret NULL
    else ret Buffer.

(** *** FreeSharedBuffer *)

Definition FreeSharedBuffer (Buffer Pages : Z) : M P Z :=
  if (Buffer =? NULL) || (Pages =? 0) then ret EFI_INVALID_PARAMETER
  else
    Status <- callMemEncryptTdxSetPageSharedBit CLEAR_SHARED Buffer Pages ;;
    (if negb (EFI_ERROR Status) then callFreePages Buffer Pages
     else ret tt) ;;;
    ret Status.

(** *** VTpmContextWrite *)

(** The code at label [QuitVTPMContextWrite], entered with the values the
    locals [CmdBuffer], [RspBuffer] and [Status] hold at the jump. The
    value of [FreeSharedBuffer] is dropped, as in the source. *)
Definition QuitVTPMContextWrite (CmdBuffer RspBuffer Status : Z) : M P Z :=
  (if CmdBuffer =? NULL then ret tt
   else FreeSharedBuffer CmdBuffer VTPM_DEFAULT_ALLOCATION_PAGE ;;; ret tt) ;;;
  (if RspBuffer =? NULL then ret tt
   else FreeSharedBuffer RspBuffer VTPM_DEFAULT_ALLOCATION_PAGE ;;; ret tt) ;;;
  ret Status.

(** The function up to the label: it yields [(CmdBuffer, RspBuffer,
    Status)] as they are when control reaches [QuitVTPMContextWrite],
    by a [goto] or by falling through. *)
Definition VTpmContextWrite_body (RequestSize Request Timeout : Z)
  : M P (Z * Z * Z) :=
  (* Allocate CmdBuffer and RspBuffer *)
  CmdBuffer <- AllocateSharedBuffer VTPM_DEFAULT_ALLOCATION_PAGE ;;
  if CmdBuffer =? NULL then ret (CmdBuffer, NULL, EFI_UNSUPPORTED)
  else
  RspBuffer <- AllocateSharedBuffer VTPM_DEFAULT_ALLOCATION_PAGE ;;
  if RspBuffer =? NULL then ret (CmdBuffer, RspBuffer, EFI_UNSUPPORTED)
  else
  (* Build send_message cmd packet *)
  let Ptr := CmdBuffer + TDVMCALL_SERVICE_COMMAND_HEADER.sizeof in
  store (fun m => CopyBytes m Ptr
           (SEND_MESSAGE_COMMAND_HEADER.bytes
              mSendMessageCommandHeaderTemplate)) ;;;
  let Ptr := Ptr + SEND_MESSAGE_COMMAND_HEADER.sizeof in
  store (fun m => CopyMem m Ptr Request RequestSize) ;;;
  let Ptr := Ptr + RequestSize in
  let DataLen := UINT32 (Ptr - CmdBuffer) in
  (* Build tdvmcall_service cmd packet *)
  let Ptr := CmdBuffer in
  store (fun m => CopyBytes m Ptr
           (TDVMCALL_SERVICE_COMMAND_HEADER.bytes
              mTdvmcallServiceCommandHeaderTemplate)) ;;;
  store (fun m => WriteUint32 m
           (Ptr + TDVMCALL_SERVICE_COMMAND_HEADER.offset_Length) DataLen) ;;;
  (* Build send_message rsp packet *)
  let Ptr := RspBuffer + TDVMCALL_SERVICE_RESPONSE_HEADER.sizeof in
  store (fun m => CopyBytes m Ptr
           (SEND_MESSAGE_RESPONSE_HEADER.bytes
              mSendMessageResponseHeaderTemplate)) ;;;
  let Ptr := Ptr + SEND_MESSAGE_RESPONSE_HEADER.sizeof in
  let DataLen := UINT32 (Ptr - RspBuffer) in
  (* Build tdvmcall_service rsp packet *)
  let Ptr := RspBuffer in
  store (fun m => CopyBytes m Ptr
           (TDVMCALL_SERVICE_COMMAND_HEADER.bytes
              mTdvmcallServiceResponseHeaderTemplate)) ;;;
  store (fun m => WriteUint32 m
           (Ptr + TDVMCALL_SERVICE_RESPONSE_HEADER.offset_Length) DataLen) ;;;
  (* Call tdvmcall service to send cmd. *)
  TdxSharedBit <- callTdSharedPageMask ;;
  if TdxSharedBit =? 0 then ret (CmdBuffer, RspBuffer, EFI_ABORTED)
  else
  Ret <- callTdVmCall (TDVMCALL_SERVICE pf)
                      (Z.lor CmdBuffer TdxSharedBit)
                      (Z.lor RspBuffer TdxSharedBit)
                      0
                      VMM_SPDM_TIMEOUT ;;
  let RetCode := fst Ret in
  let RetValue := snd Ret in
  if negb (RetCode =? 0) || negb (RetValue =? 0)
  then ret (CmdBuffer, RspBuffer, EFI_ABORTED)
  else
  (* Check the status in TDVMCALL_SERVICE *)
  let TdvmcallRspHeader := RspBuffer in
  RspStatus <- load (fun m => ReadUint32 m
                       (TdvmcallRspHeader
                        + TDVMCALL_SERVICE_RESPONSE_HEADER.offset_Status)) ;;
  if negb (RspStatus =? 0) then ret (CmdBuffer, RspBuffer, EFI_ABORTED)
  else
  (* Check the status in SEND_MESSAGE_RESPONSE *)
  let SendMessageRspHeader :=
    RspBuffer + TDVMCALL_SERVICE_RESPONSE_HEADER.sizeof in
  MsgStatus <- load (fun m => ReadUint8 m
                       (SendMessageRspHeader
                        + SEND_MESSAGE_RESPONSE_HEADER.offset_Status)) ;;
  if negb (MsgStatus =? 0) then ret (CmdBuffer, RspBuffer, EFI_ABORTED)
  else ret (CmdBuffer, RspBuffer, EFI_SUCCESS).

Definition VTpmContextWrite (RequestSize Request Timeout : Z) : M P Z :=
  L <- VTpmContextWrite_body RequestSize Request Timeout ;;
  let '(CmdBuffer, RspBuffer, Status) := L in
  QuitVTPMContextWrite CmdBuffer RspBuffer Status.

(** *** VTpmContextRead *)

Definition QuitVTPMContextRead (CmdBuffer RspBuffer Status : Z) : M P Z :=
  (if CmdBuffer =? NULL then ret tt
   else FreeSharedBuffer CmdBuffer VTPM_DEFAULT_ALLOCATION_PAGE ;;; ret tt) ;;;
  (if RspBuffer =? NULL then ret tt
   else FreeSharedBuffer RspBuffer VTPM_DEFAULT_ALLOCATION_PAGE ;;; ret tt) ;;;
  ret Status.

(** The function up to the label: it yields [(CmdBuffer, RspBuffer,
    Status, *ResponseSize)] as they are when control reaches
    [QuitVTPMContextRead]. [ResponseSize] is the value of [*ResponseSize]
    at entry. *)
Definition VTpmContextRead_body (ResponseSize Response Timeout : Z)
  : M P (Z * Z * Z * Z) :=
  (* Allocate CmdBuffer and RspBuffer *)
  let BufferSize := UINT32 (EFI_PAGES_TO_SIZE VTPM_DEFAULT_ALLOCATION_PAGE) in
  CmdBuffer <- AllocateSharedBuffer VTPM_DEFAULT_ALLOCATION_PAGE ;;
  if CmdBuffer =? NULL
  then ret (CmdBuffer, NULL, EFI_UNSUPPORTED, ResponseSize)
  else
  RspBuffer <- AllocateSharedBuffer VTPM_DEFAULT_ALLOCATION_PAGE ;;
  if RspBuffer =? NULL
  then ret (CmdBuffer, RspBuffer, EFI_UNSUPPORTED, ResponseSize)
  else
  (* Build send_message cmd packet *)
  let Ptr := CmdBuffer + TDVMCALL_SERVICE_COMMAND_HEADER.sizeof in
  store (fun m => CopyBytes m Ptr
           (RECEIVE_MESSAGE_COMMAND_HEADER.bytes
              mReceiveMessageCommandHeaderTemplate)) ;;;
  let Ptr := Ptr + RECEIVE_MESSAGE_COMMAND_HEADER.sizeof in
  let DataLen := UINT32 (Ptr - CmdBuffer) in
  let Ptr := CmdBuffer in
  store (fun m => CopyBytes m Ptr
           (TDVMCALL_SERVICE_COMMAND_HEADER.bytes
              mTdvmcallServiceCommandHeaderTemplate)) ;;;
  store (fun m => WriteUint32 m
           (Ptr + TDVMCALL_SERVICE_COMMAND_HEADER.offset_Length) DataLen) ;;;
  (* Build recieve_message rsp packet *)
  let Ptr := RspBuffer + TDVMCALL_SERVICE_RESPONSE_HEADER.sizeof in
  store (fun m => CopyBytes m Ptr
           (RECEIVE_MESSAGE_RESPONSE_HEADER.bytes
              mReceiveMessageResponseHeaderTemplate)) ;;;
  let DataLen := BufferSize in
  (* Build tdvmcall_service rsp packet *)
  let Ptr := RspBuffer in
  store (fun m => CopyBytes m Ptr
           (TDVMCALL_SERVICE_COMMAND_HEADER.bytes
              mTdvmcallServiceResponseHeaderTemplate)) ;;;
  store (fun m => WriteUint32 m
           (Ptr + TDVMCALL_SERVICE_RESPONSE_HEADER.offset_Length) DataLen) ;;;
  (* step c. call tdvmcall service to send command. *)
  TdxSharedBit <- callTdSharedPageMask ;;
  if TdxSharedBit =? 0
  then ret (CmdBuffer, RspBuffer, EFI_ABORTED, ResponseSize)
  else
  Ret <- callTdVmCall (TDVMCALL_SERVICE pf)
                      (Z.lor CmdBuffer TdxSharedBit)
                      (Z.lor RspBuffer TdxSharedBit)
                      0
                      VMM_SPDM_TIMEOUT ;;
  let RetCode := fst Ret in
  let RetValue := snd Ret in
  if negb (RetCode =? 0) || negb (RetValue =? 0)
  then ret (CmdBuffer, RspBuffer, EFI_ABORTED, ResponseSize)
  else
  (* Check the status in TDVMCALL_SERVICE *)
  let TdvmcallRspHeader := RspBuffer in
  RspStatus <- load (fun m => ReadUint32 m
                       (TdvmcallRspHeader
                        + TDVMCALL_SERVICE_RESPONSE_HEADER.offset_Status)) ;;
  if negb (RspStatus =? 0)
  then ret (CmdBuffer, RspBuffer, EFI_ABORTED, ResponseSize)
  else
  (* Check the status in RECEIVE_MESSAGE_RESPONSE *)
  let ReceiveMessageRspHeader :=
    RspBuffer + TDVMCALL_SERVICE_RESPONSE_HEADER.sizeof in
  MsgStatus <- load (fun m => ReadUint8 m
                       (ReceiveMessageRspHeader
                        + RECEIVE_MESSAGE_RESPONSE_HEADER.offset_Status)) ;;
  if negb (MsgStatus =? 0)
  then ret (CmdBuffer, RspBuffer, EFI_ABORTED, ResponseSize)
  else
  (* Process the data received *)
  let HeaderLen :=
    UINT32 (TDVMCALL_SERVICE_RESPONSE_HEADER.sizeof
            + RECEIVE_MESSAGE_RESPONSE_HEADER.sizeof) in
  RspLength <- load (fun m => ReadUint32 m
                       (TdvmcallRspHeader
                        + TDVMCALL_SERVICE_RESPONSE_HEADER.offset_Length)) ;;
  let DataLen := UINT32 (RspLength - HeaderLen) in
  if ResponseSize <? DataLen
  then ret (CmdBuffer, RspBuffer, EFI_BUFFER_TOO_SMALL, DataLen)
  else
  let ResponseSize := DataLen in
  let Ptr := RspBuffer + HeaderLen in
  store (fun m => CopyMem m Response Ptr DataLen) ;;;
  ret (CmdBuffer, RspBuffer, EFI_SUCCESS, ResponseSize).

(** Returns [(Status, *ResponseSize)]. *)
Definition VTpmContextRead (ResponseSize Response Timeout : Z)
  : M P (Z * Z) :=
  L <- VTpmContextRead_body ResponseSize Response Timeout ;;
  let '(CmdBuffer, RspBuffer, Status, ResponseSize') := L in
  Status <- QuitVTPMContextRead CmdBuffer RspBuffer Status ;;
  ret (Status, ResponseSize').

End Transport.

(** ** A mock platform

    A bump allocator over a bounded pool of pages, a page-attribute setter
    that answers with fixed statuses, and a host that answers every
    TDVMCALL by storing the same reply at the response address. It is used
    to run the transport on concrete inputs. *)

Record MockConfig : Type := {
  mc_free_pages : list Z;
  mc_share_status : Z;
  mc_unshare_status : Z;
  mc_mask : Z;
  mc_ret_code : Z;
  mc_ret_value : Z;
  mc_reply : list Z
}.

(** Platform state of the mock: the pages not handed out, and those handed
    out and not yet returned. *)
Record MockState : Type := { ms_free : list Z; ms_live : list Z }.

Definition mock_remove (a : Z) (l : list Z) : list Z :=
  filter (fun x => negb (x =? a)) l.

Definition MockPlatform (c : MockConfig) : Platform MockState := {|
  TDVMCALL_SERVICE := 0x10005;
  AllocatePages := fun _ s =>
    match ms_free s with
    | [] => (NULL, s)
    | a :: rest => (a, {| ms_free := rest; ms_live := a :: ms_live s |})
    end;
  FreePages := fun Buffer _ s =>
    {| ms_free := ms_free s; ms_live := mock_remove Buffer (ms_live s) |};
  MemEncryptTdxSetPageSharedBit := fun Mode _ _ s =>
    (if Mode =? MARK_SHARED then mc_share_status c else mc_unshare_status c, s);
  TdSharedPageMask := fun s => (mc_mask c, s);
  TdVmCall := fun _ _ Arg2 _ _ m s =>
    (mc_ret_code c, mc_ret_value c,
     CopyBytes m (Z.ldiff Arg2 (mc_mask c)) (mc_reply c), s)
|}.

Definition mock_world (c : MockConfig) (m : Mem) : World MockState :=
  mkWorld m {| ms_free := mc_free_pages c; ms_live := [] |}.

(** The host's reply frame: outer header with the given length and status,
    inner header with the given operation code and status, then a payload. *)
Definition mock_frame (Length Status Command MsgStatus : Z)
  (payload : list Z) : list Z :=
  VTPM_SERVICE_GUID ++ le32 Length ++ le32 Status
  ++ [0; Command; MsgStatus; 0] ++ payload.

Definition cooperative (reply : list Z) : MockConfig := {|
  mc_free_pages := [0x100000; 0x200000];
  mc_share_status := EFI_SUCCESS;
  mc_unshare_status := EFI_SUCCESS;
  mc_mask := 2 ^ 47;
  mc_ret_code := 0;
  mc_ret_value := 0;
  mc_reply := reply
|}.

Definition zero_mem : Mem := fun _ => 0.

(** ** Reading a run's log *)

Definition is_TdVmCall (e : Event) : bool :=
  match e with EvTdVmCall _ _ _ _ _ _ _ _ _ => true | _ => false end.

(** The buffers a run acquired: those it marked shared with success, which
    are the non-null results of [AllocateSharedBuffer]. *)
Definition acquired (evs : list Event) : list Z :=
  flat_map
    (fun e =>
       match e with
       | EvSetPageSharedBit Mode Address _ Status =>
           if (Mode =? MARK_SHARED) && negb (EFI_ERROR Status)
           then [Address] else []
       | _ => []
       end) evs.

(** The buffers a run handed to [FreeSharedBuffer]: every such call on a
    non-null buffer starts by clearing the shared attribute. *)
Definition released (evs : list Event) : list Z :=
  flat_map
    (fun e =>
       match e with
       | EvSetPageSharedBit Mode Address _ _ =>
           if Mode =? CLEAR_SHARED then [Address] else []
       | _ => []
       end) evs.

(** The timeouts of the hypercalls of a run. *)
Definition call_timeouts (evs : list Event) : list Z :=
  flat_map
    (fun e =>
       match e with
       | EvTdVmCall _ _ _ _ Arg4 _ _ _ _ => [Arg4]
       | _ => []
       end) evs.

(** The log of a run that acquired [CmdBuffer] and [RspBuffer], obtained
    the shared mask and issued the hypercall; the host saw memory [Seen],
    answered [(RetCode, RetValue)] and left memory [Left]. *)
Definition begins_with_call (evs : list Event) (CmdBuffer RspBuffer : Z)
  (Seen : Mem) (RetCode RetValue : Z) (Left : Mem) : Prop :=
  exists s1 s2 Mask Leaf Arg1 Arg2 Arg3 Arg4 rest,
    evs =
    [EvAllocatePages VTPM_DEFAULT_ALLOCATION_PAGE CmdBuffer;
     EvSetPageSharedBit MARK_SHARED CmdBuffer VTPM_DEFAULT_ALLOCATION_PAGE s1;
     EvAllocatePages VTPM_DEFAULT_ALLOCATION_PAGE RspBuffer;
     EvSetPageSharedBit MARK_SHARED RspBuffer VTPM_DEFAULT_ALLOCATION_PAGE s2;
     EvTdSharedPageMask Mask;
     EvTdVmCall Leaf Arg1 Arg2 Arg3 Arg4 Seen RetCode RetValue Left]
    ++ rest.

(** Address [a] lies in no page of [Buffer]'s allocation. *)
Definition outside_buffer (a Buffer : Z) : Prop :=
  a < Buffer
  \/ Buffer + EFI_PAGES_TO_SIZE VTPM_DEFAULT_ALLOCATION_PAGE <= a.

(** Address [a] stays the caller's during a run: it is in no page the run
    allocated, and no hypercall of the run changed it. *)
Definition caller_owned (evs : list Event) (a : Z) : Prop :=
  (forall Pages Buffer,
     In (EvAllocatePages Pages Buffer) evs -> outside_buffer a Buffer)
  /\ (forall Leaf Arg1 Arg2 Arg3 Arg4 Seen RetCode RetValue Left,
        In (EvTdVmCall Leaf Arg1 Arg2 Arg3 Arg4 Seen RetCode RetValue Left) evs ->
        Left a = Seen a).

(** The length [VTpmContextRead] computes for the payload, [DataLen], from
    the outer [Length] field: a [UINT32] subtraction of the header size. *)
Definition payload_length (Length : Z) : Z :=
  UINT32 (Length
          - UINT32 (TDVMCALL_SERVICE_RESPONSE_HEADER.sizeof
                    + RECEIVE_MESSAGE_RESPONSE_HEADER.sizeof)).

(** The memory the host sees in [VTpmContextWrite], as the stores of the
    function build it over the memory [m] at entry. *)
Definition Write_frames (m : Mem) (CmdBuffer RspBuffer : Z)
  (RequestSize Request : Z) : Mem :=
  WriteUint32
    (CopyBytes
       (CopyBytes
          (WriteUint32
             (CopyBytes
                (CopyMem
                   (CopyBytes m
                      (CmdBuffer + TDVMCALL_SERVICE_COMMAND_HEADER.sizeof)
                      (SEND_MESSAGE_COMMAND_HEADER.bytes
                         mSendMessageCommandHeaderTemplate))
                   (CmdBuffer + TDVMCALL_SERVICE_COMMAND_HEADER.sizeof
                    + SEND_MESSAGE_COMMAND_HEADER.sizeof)
                   Request RequestSize)
                CmdBuffer
                (TDVMCALL_SERVICE_COMMAND_HEADER.bytes
                   mTdvmcallServiceCommandHeaderTemplate))
             (CmdBuffer + TDVMCALL_SERVICE_COMMAND_HEADER.offset_Length)
             (UINT32
                (CmdBuffer + TDVMCALL_SERVICE_COMMAND_HEADER.sizeof
                 + SEND_MESSAGE_COMMAND_HEADER.sizeof + RequestSize
                 - CmdBuffer)))
          (RspBuffer + TDVMCALL_SERVICE_RESPONSE_HEADER.sizeof)
          (SEND_MESSAGE_RESPONSE_HEADER.bytes
             mSendMessageResponseHeaderTemplate))
       RspBuffer
       (TDVMCALL_SERVICE_COMMAND_HEADER.bytes
          mTdvmcallServiceResponseHeaderTemplate))
    (RspBuffer + TDVMCALL_SERVICE_RESPONSE_HEADER.offset_Length)
    (UINT32
       (RspBuffer + TDVMCALL_SERVICE_RESPONSE_HEADER.sizeof
        + SEND_MESSAGE_RESPONSE_HEADER.sizeof - RspBuffer)).

Definition buffers_disjoint (CmdBuffer RspBuffer : Z) : Prop :=
  outside_buffer CmdBuffer RspBuffer /\ outside_buffer RspBuffer CmdBuffer.

(** The memory the host sees in [VTpmContextRead], as the stores of the
    function build it over the memory [m] at entry. *)
Definition Read_frames (m : Mem) (CmdBuffer RspBuffer : Z) : Mem :=
  WriteUint32
    (CopyBytes
       (CopyBytes
          (WriteUint32
             (CopyBytes
                (CopyBytes m
                   (CmdBuffer + TDVMCALL_SERVICE_COMMAND_HEADER.sizeof)
                   (RECEIVE_MESSAGE_COMMAND_HEADER.bytes
                      mReceiveMessageCommandHeaderTemplate))
                CmdBuffer
                (TDVMCALL_SERVICE_COMMAND_HEADER.bytes
                   mTdvmcallServiceCommandHeaderTemplate))
             (CmdBuffer + TDVMCALL_SERVICE_COMMAND_HEADER.offset_Length)
             (UINT32
                (CmdBuffer + TDVMCALL_SERVICE_COMMAND_HEADER.sizeof
                 + RECEIVE_MESSAGE_COMMAND_HEADER.sizeof - CmdBuffer)))
          (RspBuffer + TDVMCALL_SERVICE_RESPONSE_HEADER.sizeof)
          (RECEIVE_MESSAGE_RESPONSE_HEADER.bytes
             mReceiveMessageResponseHeaderTemplate))
       RspBuffer
       (TDVMCALL_SERVICE_COMMAND_HEADER.bytes
          mTdvmcallServiceResponseHeaderTemplate))
    (RspBuffer + TDVMCALL_SERVICE_RESPONSE_HEADER.offset_Length)
    (UINT32 (EFI_PAGES_TO_SIZE VTPM_DEFAULT_ALLOCATION_PAGE)).

(** Mock configurations and memories used in the examples. *)
Definition acknowledging_host : MockConfig :=
  cooperative (mock_frame 28 0 SERVICE_VTPM_SEND_MESSAGE 0 []).

Definition payload_DEADBEEF : Mem :=
  CopyBytes zero_mem 0x5000 [0xDE; 0xAD; 0xBE; 0xEF].

(** A host that answers a receive with both statuses 0 and an outer
    [Length] of 0, less than the 28 bytes of the two headers. *)
Definition short_length_host : MockConfig :=
  cooperative (mock_frame 0 0 SERVICE_VTPM_RECEIVE_MESSAGE 0 []).

(** Guest memory holding one marked byte just after the page that will
    serve as response buffer. *)
Definition marked_mem : Mem := CopyBytes zero_mem (0x200000 + 0x1000) [0xAA].

Definition stubborn_host : MockConfig := {|
  mc_free_pages := [0x100000; 0x200000];
  mc_share_status := EFI_SUCCESS;
  mc_unshare_status := EFI_ABORTED;
  mc_mask := 2 ^ 47;
  mc_ret_code := 0;
  mc_ret_value := 0;
  mc_reply := mock_frame 28 0 SERVICE_VTPM_SEND_MESSAGE 0 []
|}.

Definition maskless_host : MockConfig := {|
  mc_free_pages := [0x100000; 0x200000];
  mc_share_status := EFI_SUCCESS;
  mc_unshare_status := EFI_SUCCESS;
  mc_mask := 0;
  mc_ret_code := 0;
  mc_ret_value := 0;
  mc_reply := []
|}.

Definition replying_host : MockConfig :=
  cooperative (mock_frame 32 0 SERVICE_VTPM_RECEIVE_MESSAGE 0 [1; 2; 3; 4]).

Definition rejecting_host : MockConfig :=
  cooperative (mock_frame 28 1 SERVICE_VTPM_RECEIVE_MESSAGE 0 []).

(** What the mock host leaves in memory when it answers a call that saw
    [Seen]: its reply stored at the response buffer. *)
Definition mock_Left (c : MockConfig) (Seen : Mem) (RspBuffer : Z) : Mem :=
  CopyBytes Seen RspBuffer (mc_reply c).

(** The release calls that end a run on a mock whose two pages were
    acquired, when clearing the shared attribute succeeds. *)
Definition mock_release : list Event :=
  [EvSetPageSharedBit CLEAR_SHARED 0x100000 VTPM_DEFAULT_ALLOCATION_PAGE
     EFI_SUCCESS;
   EvFreePages 0x100000 VTPM_DEFAULT_ALLOCATION_PAGE;
   EvSetPageSharedBit CLEAR_SHARED 0x200000 VTPM_DEFAULT_ALLOCATION_PAGE
     EFI_SUCCESS;
   EvFreePages 0x200000 VTPM_DEFAULT_ALLOCATION_PAGE].

(** Concrete runs on the mock platform. *)
Definition stubborn_release_null : Run MockState Z :=
  FreeSharedBuffer (MockPlatform stubborn_host) NULL 1
    (mock_world stubborn_host zero_mem).

Definition stubborn_release : Run MockState Z :=
  FreeSharedBuffer (MockPlatform stubborn_host) 0x100000 1
    (mock_world stubborn_host zero_mem).

Definition maskless_Write : Run MockState Z :=
  VTpmContextWrite (MockPlatform maskless_host) 4 0x5000 VMM_SPDM_TIMEOUT
    (mock_world maskless_host zero_mem).

Definition maskless_Read : Run MockState (Z * Z) :=
  VTpmContextRead (MockPlatform maskless_host) 16 0x5000 VMM_SPDM_TIMEOUT
    (mock_world maskless_host zero_mem).

Definition replying_Read (ResponseSize : Z) : Run MockState (Z * Z) :=
  VTpmContextRead (MockPlatform replying_host) ResponseSize 0x5000
    VMM_SPDM_TIMEOUT (mock_world replying_host zero_mem).

Definition rejecting_Read : Run MockState (Z * Z) :=
  VTpmContextRead (MockPlatform rejecting_host) 16 0x5000 VMM_SPDM_TIMEOUT
    (mock_world rejecting_host payload_DEADBEEF).

Definition acknowledged_Write : Run MockState Z :=
  VTpmContextWrite (MockPlatform acknowledging_host) 4 0x5000
    VMM_SPDM_TIMEOUT (mock_world acknowledging_host payload_DEADBEEF).

Definition acknowledged_Read : Run MockState (Z * Z) :=
  VTpmContextRead (MockPlatform acknowledging_host) 16 0x6000
    VMM_SPDM_TIMEOUT (mock_world acknowledging_host payload_DEADBEEF).

(** ** Diagnostic dumps

    [InternalDumpData] and [VmmSpdmVTpmDumpHex] read memory and print
    through [DEBUG]. A dump is modelled by the list of its [DEBUG] calls,
    oldest first. *)

(** One [DEBUG ((DEBUG_INFO, Format, ...))]: the format string and the
    arguments passed with it. *)
Definition DebugCall : Type := string * list Z.

(** The C string ["\n"]. *)
Definition LF : string := String "010"%char EmptyString.

(** [for (Index = i; Index < Limit; Index++) Body] with [n = Limit - i]
    iterations to go and [Index] at [i]: what the iterations print, and
    the value [Index] holds when the loop is left. *)
Fixpoint for_Index (n : nat) (Index : Z) (Body : Z -> list DebugCall)
  : list DebugCall * Z :=
  match n with
  | O => ([], Index)
  | S n' =>
      let r := for_Index n' (Index + 1) Body in
      (Body Index ++ fst r, snd r)
  end.

(** [Size] is a [UINTN]; the loop runs [Index] from 0 to [Size] - 1. *)
Definition InternalDumpData (m : Mem) (Data Size : Z) : list DebugCall :=
  fst (for_Index (Z.to_nat Size) 0
         (fun Index =>
            [("%02x "%string, [ReadUint8 m (Data + Index)])]
            ++ (if Index =? 15 then [("|"%string, [])] else []))).

Definition COLUME_SIZE : Z := 16 * 2.

(** [Count] full rows, then the [Left] remaining bytes; after the loop
    [Index] holds [Count]. *)
Definition VmmSpdmVTpmDumpHex (m : Mem) (Data Size : Z) : list DebugCall :=
  let Count := Size / COLUME_SIZE in
  let Left := Size mod COLUME_SIZE in
  let rows :=
    for_Index (Z.to_nat Count) 0
      (fun Index =>
         [("%04x: "%string, [Index * COLUME_SIZE])]
         ++ InternalDumpData m (Data + Index * COLUME_SIZE) COLUME_SIZE
         ++ [(LF, [])]) in
  let Index := snd rows in
  fst rows
  ++ (if negb (Left =? 0)
      then [("%04x: "%string, [Index * COLUME_SIZE])]
           ++ InternalDumpData m (Data + Index * COLUME_SIZE) Left
           ++ [(LF, [])]
      else []).

(** The bytes a dump shows: the arguments of its ["%02x "] calls. *)
Definition dumped_bytes (out : list DebugCall) : list Z :=
  flat_map (fun c => if String.eqb (fst c) "%02x " then snd c else []) out.

(** The offsets that label the rows of a dump. *)
Definition row_labels (out : list DebugCall) : list Z :=
  flat_map (fun c => if String.eqb (fst c) "%04x: " then snd c else []) out.

(** The number of calls of a dump made with format [f]. *)
Definition count_format (f : string) (out : list DebugCall) : nat :=
  List.length (filter (fun c => String.eqb (fst c) f) out).

(** ** Reading a run's log, continued *)

(** The pages a run obtained from the page allocator. *)
Definition allocated (evs : list Event) : list Z :=
  flat_map
    (fun e =>
       match e with
       | EvAllocatePages _ Buffer => if Buffer =? NULL then [] else [Buffer]
       | _ => []
       end) evs.

(** The pages a run returned to the page allocator. *)
Definition freed (evs : list Event) : list Z :=
  flat_map
    (fun e =>
       match e with
       | EvFreePages Buffer _ => [Buffer]
       | _ => []
       end) evs.

(** The buffers a run has no reason to hold shared: those it failed to
    mark shared, and those whose shared attribute it cleared with
    success. *)
Definition unshared (evs : list Event) : list Z :=
  flat_map
    (fun e =>
       match e with
       | EvSetPageSharedBit Mode Address _ Status =>
           if (Mode =? MARK_SHARED) && EFI_ERROR Status
              || (Mode =? CLEAR_SHARED) && negb (EFI_ERROR Status)
           then [Address] else []
       | _ => []
       end) evs.

(** Every request of the run to clear a shared attribute was granted. *)
Definition clears_granted (evs : list Event) : Prop :=
  forall Address Pages Status,
    In (EvSetPageSharedBit CLEAR_SHARED Address Pages Status) evs ->
    EFI_ERROR Status = false.

(** The events that release a buffer. *)
Definition is_release (e : Event) : bool :=
  match e with
  | EvSetPageSharedBit Mode _ _ _ => Mode =? CLEAR_SHARED
  | EvFreePages _ _ => true
  | _ => false
  end.

(** The buffers whose shared attribute a run cleared with success. *)
Definition cleared (evs : list Event) : list Z :=
  flat_map
    (fun e =>
       match e with
       | EvSetPageSharedBit Mode Address _ Status =>
           if (Mode =? CLEAR_SHARED) && negb (EFI_ERROR Status)
           then [Address] else []
       | _ => []
       end) evs.

(** The releases a run was refused: the buffer and the status of every
    request to clear a shared attribute that failed. *)
Definition refused_releases (evs : list Event) : list (Z * Z) :=
  flat_map
    (fun e =>
       match e with
       | EvSetPageSharedBit Mode Address _ Status =>
           if (Mode =? CLEAR_SHARED) && EFI_ERROR Status
           then [(Address, Status)] else []
       | _ => []
       end) evs.

(** [evs], the log of a whole call, is [body], the log of the function up
    to its exit label, followed by the calls of the code at the label.
    These only release: nothing was released before the label, every
    buffer acquired before it is handed to [FreeSharedBuffer] once, in
    the order of acquisition, and the pages given back to the allocator
    are those of the buffers whose shared attribute was cleared with
    success. *)
Definition exit_releases (body evs : list Event) : Prop :=
  exists exit,
    evs = body ++ exit
    /\ forallb is_release exit = true
    /\ released body = []
    /\ released exit = acquired body
    /\ freed exit = cleared exit.

(** The response the host left at [RspBuffer] reports success at both
    layers: the outer [Status] and the [Status] of the message header
    (at the same offset in the send and in the receive response). *)
Definition both_statuses_zero (Left : Mem) (RspBuffer : Z) : Prop :=
  ReadUint32 Left (RspBuffer + TDVMCALL_SERVICE_RESPONSE_HEADER.offset_Status) = 0
  /\ ReadUint8 Left (RspBuffer + TDVMCALL_SERVICE_RESPONSE_HEADER.sizeof
                     + SEND_MESSAGE_RESPONSE_HEADER.offset_Status) = 0.

(** The hypercalls of [evs] are at most one, issued as the source issues
    it: after both buffers were allocated and marked shared with success
    and a nonzero mask was obtained, on the service leaf, with the two
    buffer addresses tagged with the mask, 0 as third argument and the
    fixed timeout; what follows the call in the log only releases
    buffers. *)
Definition one_tagged_call {P} (pf : Platform P) (evs : list Event) : Prop :=
  forall Leaf Arg1 Arg2 Arg3 Arg4 Seen RetCode RetValue Left,
    In (EvTdVmCall Leaf Arg1 Arg2 Arg3 Arg4 Seen RetCode RetValue Left) evs ->
    exists CmdBuffer RspBuffer Mask s1 s2 rest,
      evs =
      [EvAllocatePages VTPM_DEFAULT_ALLOCATION_PAGE CmdBuffer;
       EvSetPageSharedBit MARK_SHARED CmdBuffer VTPM_DEFAULT_ALLOCATION_PAGE s1;
       EvAllocatePages VTPM_DEFAULT_ALLOCATION_PAGE RspBuffer;
       EvSetPageSharedBit MARK_SHARED RspBuffer VTPM_DEFAULT_ALLOCATION_PAGE s2;
       EvTdSharedPageMask Mask;
       EvTdVmCall Leaf Arg1 Arg2 Arg3 Arg4 Seen RetCode RetValue Left]
      ++ rest
      /\ forallb is_release rest = true
      /\ CmdBuffer <> NULL /\ RspBuffer <> NULL
      /\ EFI_ERROR s1 = false /\ EFI_ERROR s2 = false
      /\ Mask <> 0
      /\ Leaf = TDVMCALL_SERVICE pf
      /\ Arg1 = Z.lor CmdBuffer Mask
      /\ Arg2 = Z.lor RspBuffer Mask
      /\ Arg3 = 0
      /\ Arg4 = VMM_SPDM_TIMEOUT.

(** The events by which a run talks to the host: the query of the shared
    mask and the hypercall. *)
Definition is_exchange (e : Event) : bool :=
  match e with
  | EvTdSharedPageMask _ => true
  | EvTdVmCall _ _ _ _ _ _ _ _ _ => true
  | _ => false
  end.

(** The run issued the hypercall, the host answered it 0/0 and left a
    response whose two status fields are 0. *)
Definition exchange_accepted (evs : list Event) (RspBuffer : Z) (Left : Mem)
  : Prop :=
  exists CmdBuffer Seen,
    begins_with_call evs CmdBuffer RspBuffer Seen 0 0 Left
    /\ both_statuses_zero Left RspBuffer.

(** ** A host that hands back what it was sent

    A platform for running a write and then a read: its allocator serves
    the pages 0x100000 and 0x200000 again and again, every change of
    attribute is granted, the mask is 2^47, and the host keeps the
    payload of the last send command and answers a receive command with
    it. *)

Record LoopbackState : Type := {
  lb_free : list Z;
  lb_message : list Z
}.

Definition loopback_mask : Z := 2 ^ 47.

Definition LoopbackPlatform : Platform LoopbackState := {|
  TDVMCALL_SERVICE := 0x10005;
  AllocatePages := fun _ s =>
    match lb_free s with
    | [] => (NULL, s)
    | a :: rest => (a, {| lb_free := rest; lb_message := lb_message s |})
    end;
  FreePages := fun Buffer _ s =>
    {| lb_free := lb_free s ++ [Buffer]; lb_message := lb_message s |};
  MemEncryptTdxSetPageSharedBit := fun _ _ _ s => (EFI_SUCCESS, s);
  TdSharedPageMask := fun s => (loopback_mask, s);
  TdVmCall := fun _ Arg1 Arg2 _ _ m s =>
    let Cmd := Z.ldiff Arg1 loopback_mask in
    let Rsp := Z.ldiff Arg2 loopback_mask in
    let Length :=
      ReadUint32 m (Cmd + TDVMCALL_SERVICE_COMMAND_HEADER.offset_Length) in
    let Command := ReadUint8 m (Cmd + 25) in
    if Command =? SERVICE_VTPM_SEND_MESSAGE
    then (0, 0,
          CopyBytes m Rsp (mock_frame 28 0 SERVICE_VTPM_SEND_MESSAGE 0 []),
          {| lb_free := lb_free s;
             lb_message := ReadBytes m (Cmd + 28) (Z.to_nat (Length - 28)) |})
    else (0, 0,
          CopyBytes m Rsp
            (mock_frame (28 + Z.of_nat (length (lb_message s))) 0
               SERVICE_VTPM_RECEIVE_MESSAGE 0 (lb_message s)),
          s)
|}.

Definition loopback_world (m : Mem) : World LoopbackState :=
  mkWorld m {| lb_free := [0x100000; 0x200000]; lb_message := [] |}.

(** ** More of the mock platform *)

(** The log of a run on the mock that acquires both pages and reaches the
    hypercall, the host seeing memory [Seen]. *)
Definition mock_log (c : MockConfig) (Seen : Mem) : list Event :=
  [EvAllocatePages VTPM_DEFAULT_ALLOCATION_PAGE 0x100000;
   EvSetPageSharedBit MARK_SHARED 0x100000 VTPM_DEFAULT_ALLOCATION_PAGE
     (mc_share_status c);
   EvAllocatePages VTPM_DEFAULT_ALLOCATION_PAGE 0x200000;
   EvSetPageSharedBit MARK_SHARED 0x200000 VTPM_DEFAULT_ALLOCATION_PAGE
     (mc_share_status c);
   EvTdSharedPageMask (mc_mask c);
   EvTdVmCall 0x10005 (Z.lor 0x100000 (mc_mask c))
     (Z.lor 0x200000 (mc_mask c)) 0 VMM_SPDM_TIMEOUT Seen
     (mc_ret_code c) (mc_ret_value c) (mock_Left c Seen 0x200000)]
  ++ mock_release.

(** A platform that refuses to mark pages shared. *)
Definition refusing_host : MockConfig := {|
  mc_free_pages := [0x100000; 0x200000];
  mc_share_status := EFI_ABORTED;
  mc_unshare_status := EFI_SUCCESS;
  mc_mask := 2 ^ 47;
  mc_ret_code := 0;
  mc_ret_value := 0;
  mc_reply := []
|}.

(** A platform with a single free page. *)
Definition exhausted_host : MockConfig := {|
  mc_free_pages := [0x100000];
  mc_share_status := EFI_SUCCESS;
  mc_unshare_status := EFI_SUCCESS;
  mc_mask := 2 ^ 47;
  mc_ret_code := 0;
  mc_ret_value := 0;
  mc_reply := []
|}.

(** Guest memory holding a request of 4069 bytes at 0x5000 whose last byte
    is marked. *)
Definition long_request : Mem := CopyBytes zero_mem (0x5000 + 4068) [0xAA].

(** A host that answers a receive with both statuses 0 and an outer
    [Length] of 4097, one byte more than the response buffer holds. *)
Definition long_length_host : MockConfig :=
  cooperative (mock_frame 4097 0 SERVICE_VTPM_RECEIVE_MESSAGE 0 []).

(** ** Symbolic execution

    [explore_run c] runs the program term [c] of the goal along every
    path: it names the answer of each collaborator call and splits on each
    test the code makes. *)

Ltac unfold_program H :=
  unfold VTpmContextWrite, VTpmContextRead,
    VTpmContextWrite_body, VTpmContextRead_body,
    QuitVTPMContextWrite, QuitVTPMContextRead,
    AllocateSharedBuffer, FreeSharedBuffer,
    callAllocatePages, callFreePages, callMemEncryptTdxSetPageSharedBit,
    callTdSharedPageMask, callTdVmCall, store, load, bind, ret in H.

Ltac reduce_run H :=
  cbn [value world events mem plat fst snd app negb orb andb] in H;
  repeat (progress (change (NULL =? NULL) with true in H;
                    change (VTPM_DEFAULT_ALLOCATION_PAGE =? 0) with false in H);
          cbn [value world events mem plat fst snd app negb orb andb] in H).

Ltac ready s := first [ is_var s | match s with plat _ => idtac end ].

Ltac name_call H :=
  match type of H with
  | context [AllocatePages ?pf ?n ?s] =>
      ready s; destruct (AllocatePages pf n s) as [? ?] eqn:?
  | context [MemEncryptTdxSetPageSharedBit ?pf ?a ?b ?c ?s] =>
      ready s;
      destruct (MemEncryptTdxSetPageSharedBit pf a b c s) as [? ?] eqn:?
  | context [TdSharedPageMask ?pf ?s] =>
      ready s; destruct (TdSharedPageMask pf s) as [? ?] eqn:?
  | context [TdVmCall ?pf ?l ?a ?b ?c ?d ?m ?s] =>
      ready s; destruct (TdVmCall pf l a b c d m s) as [[[? ?] ?] ?] eqn:?
  | context [FreePages ?pf ?a ?b ?s] =>
      ready s;
      let p := fresh "p" in remember (FreePages pf a b s) as p
  end; reduce_run H.

Ltac fork_path H :=
  match type of H with
  | context [if ?b then _ else _] =>
      match goal with E : b = _ |- _ => rewrite E in H end
  | context [if negb ?b || _ then _ else _] => destruct b eqn:?
  | context [if negb ?b then _ else _] => destruct b eqn:?
  | context [if ?b || false then _ else _] => destruct b eqn:?
  | context [if ?b then _ else _] => destruct b eqn:?
  end; reduce_run H.

Ltac explore H :=
  unfold_program H; reduce_run H;
  repeat first [ name_call H | fork_path H ].

Ltac explore_run c :=
  let r := fresh "r" in
  let E := fresh "E" in
  remember c as r eqn:E; explore E; subst r;
  cbn [value world events mem plat fst snd] in *.

(** A concrete run on the mock starts with the exchange of its log. *)
Ltac mock_exchange c rest :=
  unfold begins_with_call;
  exists (mc_share_status c), (mc_share_status c), (mc_mask c), 0x10005,
    (Z.lor 0x100000 (mc_mask c)), (Z.lor 0x200000 (mc_mask c)), 0,
    VMM_SPDM_TIMEOUT, rest;
  reflexivity.

(** Membership in an explicit log. *)
Ltac in_log :=
  cbn [In]; repeat (first [ left; reflexivity | right ]).


Ltac norm_sizes :=
  repeat match goal with
    | |- context [Z.of_nat (length ?l)] =>
        let v := eval vm_compute in (Z.of_nat (length l)) in
        change (Z.of_nat (length l)) with v
    end;
  unfold outside_buffer,
    TDVMCALL_SERVICE_COMMAND_HEADER.sizeof,
    TDVMCALL_SERVICE_COMMAND_HEADER.offset_Length,
    TDVMCALL_SERVICE_RESPONSE_HEADER.sizeof,
    TDVMCALL_SERVICE_RESPONSE_HEADER.offset_Length,
    TDVMCALL_SERVICE_RESPONSE_HEADER.offset_Status,
    SEND_MESSAGE_COMMAND_HEADER.sizeof,
    SEND_MESSAGE_RESPONSE_HEADER.sizeof,
    SEND_MESSAGE_RESPONSE_HEADER.offset_Status,
    RECEIVE_MESSAGE_COMMAND_HEADER.sizeof,
    RECEIVE_MESSAGE_RESPONSE_HEADER.sizeof,
    RECEIVE_MESSAGE_RESPONSE_HEADER.offset_Status in *;
  change (EFI_PAGES_TO_SIZE VTPM_DEFAULT_ALLOCATION_PAGE) with 4096 in *.

Ltac sizes := norm_sizes; lia.

(** ** Reasoning about memory *)

Lemma UINT8_idem (v : Z) : UINT8 (UINT8 v) = UINT8 v.
Proof. unfold UINT8. apply Z.mod_mod. lia. Qed.

Lemma UINT8_range (v : Z) : 0 <= UINT8 v < 256.
Proof. unfold UINT8. apply Z.mod_pos_bound. lia. Qed.

Lemma UINT32_small (v : Z) : 0 <= v < 2 ^ 32 -> UINT32 v = v.
Proof. intros H. unfold UINT32. apply Z.mod_small. exact H. Qed.

Lemma WriteUint8_get (m : Mem) (a v x : Z) :
  WriteUint8 m a v x = if x =? a then UINT8 v else m x.
Proof. reflexivity. Qed.

Lemma WriteUint8_other (m : Mem) (a v x : Z) :
  x <> a -> WriteUint8 m a v x = m x.
Proof.
  intros H. unfold WriteUint8. destruct (Z.eqb_spec x a); [contradiction | reflexivity].
Qed.

Lemma WriteUint8_same (m : Mem) (a v : Z) : WriteUint8 m a v a = UINT8 v.
Proof. unfold WriteUint8. now rewrite Z.eqb_refl. Qed.

Lemma CopyBytes_outside (bs : list Z) :
  forall (m : Mem) (d x : Z),
    x < d \/ d + Z.of_nat (length bs) <= x -> CopyBytes m d bs x = m x.
Proof.
  induction bs as [|b bs IH]; intros m d x H; cbn [CopyBytes]; [reflexivity|].
  cbn [length] in H. rewrite IH by lia. apply WriteUint8_other. lia.
Qed.

Lemma CopyBytes_inside (bs : list Z) :
  forall (m : Mem) (d : Z) (k : nat),
    (k < length bs)%nat ->
    CopyBytes m d bs (d + Z.of_nat k) = UINT8 (nth k bs 0).
Proof.
  induction bs as [|b bs IH]; intros m d k H; cbn [length] in H; [lia|].
  cbn [CopyBytes]. destruct k as [|k].
  - rewrite CopyBytes_outside by lia. cbn [nth].
    replace (d + Z.of_nat 0) with d by lia. apply WriteUint8_same.
  - cbn [nth]. replace (d + Z.of_nat (S k)) with (d + 1 + Z.of_nat k) by lia.
    apply IH. lia.
Qed.

Lemma WriteUint32_outside (m : Mem) (a v x : Z) :
  x < a \/ a + 4 <= x -> WriteUint32 m a v x = m x.
Proof.
  intros H. unfold WriteUint32. rewrite !WriteUint8_other by lia. reflexivity.
Qed.

Lemma WriteUint32_bytes (m : Mem) (a v : Z) :
  ReadBytes (WriteUint32 m a v) a 4 = le32 v.
Proof.
  unfold WriteUint32, le32. cbn [ReadBytes]. unfold ReadUint8.
  replace (a + 1 + 1) with (a + 2) by lia.
  replace (a + 2 + 1) with (a + 3) by lia.
  rewrite (WriteUint8_other _ (a + 3) _ a) by lia.
  rewrite (WriteUint8_other _ (a + 2) _ a) by lia.
  rewrite (WriteUint8_other _ (a + 1) _ a) by lia.
  rewrite (WriteUint8_other _ (a + 3) _ (a + 1)) by lia.
  rewrite (WriteUint8_other _ (a + 2) _ (a + 1)) by lia.
  rewrite (WriteUint8_other _ (a + 3) _ (a + 2)) by lia.
  rewrite !WriteUint8_same, !UINT8_idem. reflexivity.
Qed.

Lemma le32_value (v : Z) :
  UINT8 v + 2 ^ 8 * UINT8 (v / 2 ^ 8) + 2 ^ 16 * UINT8 (v / 2 ^ 16)
  + 2 ^ 24 * UINT8 (v / 2 ^ 24) = UINT32 v.
Proof.
  unfold UINT8, UINT32.
  change (2 ^ 8) with 256. change (2 ^ 16) with 65536.
  change (2 ^ 24) with 16777216. change (2 ^ 32) with 4294967296.
  Z.div_mod_to_equations. lia.
Qed.

Lemma ReadUint32_bytes (m : Mem) (a : Z) (b0 b1 b2 b3 : Z) :
  ReadBytes m a 4 = [b0; b1; b2; b3] ->
  ReadUint32 m a = b0 + 2 ^ 8 * b1 + 2 ^ 16 * b2 + 2 ^ 24 * b3.
Proof.
  cbn [ReadBytes]. unfold ReadUint32.
  replace (a + 1 + 1) with (a + 2) by lia.
  replace (a + 2 + 1) with (a + 3) by lia.
  intros H. injection H as -> -> -> ->. reflexivity.
Qed.

Lemma ReadUint32_WriteUint32 (m : Mem) (a v : Z) :
  ReadUint32 (WriteUint32 m a v) a = UINT32 v.
Proof.
  rewrite (ReadUint32_bytes _ _ _ _ _ _ (WriteUint32_bytes m a v)).
  apply le32_value.
Qed.

Lemma CopyMem_inside (m : Mem) (d s n x : Z) :
  d <= x < d + n -> CopyMem m d s n x = m (s + (x - d)).
Proof.
  intros H. unfold CopyMem.
  destruct (Z.leb_spec d x); destruct (Z.ltb_spec x (d + n)); cbn [andb];
    try lia; reflexivity.
Qed.

Lemma CopyMem_outside (m : Mem) (d s n x : Z) :
  x < d \/ d + n <= x -> CopyMem m d s n x = m x.
Proof.
  intros H. unfold CopyMem.
  destruct (Z.leb_spec d x); destruct (Z.ltb_spec x (d + n)); cbn [andb];
    try lia; reflexivity.
Qed.

Lemma ReadBytes_ext (n : nat) :
  forall (m m' : Mem) (a b : Z),
    (forall i, 0 <= i < Z.of_nat n -> m (a + i) = m' (b + i)) ->
    ReadBytes m a n = ReadBytes m' b n.
Proof.
  induction n as [|n IH]; intros m m' a b H; cbn [ReadBytes]; [reflexivity|].
  f_equal.
  - unfold ReadUint8. specialize (H 0). rewrite !Z.add_0_r in H.
    rewrite H by lia. reflexivity.
  - apply IH. intros i Hi. specialize (H (1 + i)).
    rewrite !Z.add_assoc in H. apply H. lia.
Qed.

Lemma ReadBytes_app (n1 n2 : nat) :
  forall (m : Mem) (a : Z),
    ReadBytes m a (n1 + n2) =
    ReadBytes m a n1 ++ ReadBytes m (a + Z.of_nat n1) n2.
Proof.
  induction n1 as [|n1 IH]; intros m a.
  - cbn. now rewrite Z.add_0_r.
  - cbn [ReadBytes Nat.add app]. rewrite IH. do 3 f_equal. lia.
Qed.

Lemma ReadBytes_CopyBytes (bs : list Z) :
  forall (m : Mem) (d : Z),
    ReadBytes (CopyBytes m d bs) d (length bs) = map UINT8 bs.
Proof.
  induction bs as [|b bs IH]; intros m d; [reflexivity|].
  cbn [CopyBytes length ReadBytes map]. f_equal.
  - unfold ReadUint8. rewrite CopyBytes_outside by lia.
    rewrite WriteUint8_same. apply UINT8_idem.
  - apply IH.
Qed.

Lemma status_codes_distinct :
  EFI_SUCCESS <> EFI_UNSUPPORTED /\ EFI_SUCCESS <> EFI_ABORTED
  /\ EFI_BUFFER_TOO_SMALL <> EFI_UNSUPPORTED
  /\ EFI_BUFFER_TOO_SMALL <> EFI_ABORTED
  /\ EFI_UNSUPPORTED <> EFI_ABORTED.
Proof. repeat split; discriminate. Qed.

(** Peel the frames a run stored in its own buffers off a read at an
    address outside those buffers. *)
Ltac peel_frames :=
  repeat first
    [ rewrite WriteUint32_outside by sizes
    | rewrite CopyBytes_outside by sizes ].

Lemma cons_eq_inv {A} (x y : A) (l l' : list A) :
  x :: l = y :: l' -> x = y /\ l = l'.
Proof. intros H. injection H as -> ->. split; reflexivity. Qed.

Lemma EvTdVmCall_inv l a b c d s rc rv lf l' a' b' c' d' s' rc' rv' lf' :
  EvTdVmCall l a b c d s rc rv lf = EvTdVmCall l' a' b' c' d' s' rc' rv' lf' ->
  l = l' /\ a = a' /\ b = b' /\ c = c' /\ d = d' /\ s = s' /\ rc = rc'
  /\ rv = rv' /\ lf = lf'.
Proof. intros H. injection H as -> -> -> -> -> -> -> -> ->. repeat split. Qed.

Ltac invert_event H :=
  first [ apply EvTdVmCall_inv in H;
          destruct H as (? & ? & ? & ? & ? & ? & ? & ? & ?)
        | injection H; intros ].

(** Decide a log equation against the log of the current path. *)
Ltac match_log H :=
  cbn [app] in H;
  first
    [ discriminate H
    | repeat match type of H with
        | _ :: _ = _ :: _ =>
            let Hh := fresh "Hh" in
            apply cons_eq_inv in H; destruct H as [Hh H]; invert_event Hh
        end ];
  subst.

(** Bring the path conditions in line with what the statement assumes of
    the response, and close the paths that contradict it. *)
Ltac settle_tests :=
  repeat match goal with
    | H : ?x = _, T : context [?x =? _] |- _ => rewrite H in T
    | T : (?x =? ?x) = false |- _ => rewrite Z.eqb_refl in T; discriminate T
    | T : (0 =? 0) = false |- _ => discriminate T
    end.

(** ** Release of a shared buffer *)

(** C8. [FreeSharedBuffer] fails with [EFI_INVALID_PARAMETER], calling
    nothing, when the buffer is null or the page count is 0. Otherwise it
    first asks the page-attribute setter to clear the shared attribute of
    the region and returns the status of that call; it frees the pages after
    it when the status is not an error, and when it is an error it makes no
    further call, so the pages stay allocated. *)
Theorem FreeSharedBuffer_contract {P} (pf : Platform P)
  (Buffer Pages : Z) (w : World P) :
  let r := FreeSharedBuffer pf Buffer Pages w in
  let c := MemEncryptTdxSetPageSharedBit pf CLEAR_SHARED Buffer Pages (plat w) in
  (Buffer = NULL \/ Pages = 0 ->
   value r = EFI_INVALID_PARAMETER /\ events r = [] /\ world r = w)
  /\ (Buffer <> NULL -> Pages <> 0 ->
      value r = fst c
      /\ (EFI_ERROR (fst c) = false ->
          events r = [EvSetPageSharedBit CLEAR_SHARED Buffer Pages (fst c);
                      EvFreePages Buffer Pages]
          /\ plat (world r) = FreePages pf Buffer Pages (snd c))
      /\ (EFI_ERROR (fst c) = true ->
          events r = [EvSetPageSharedBit CLEAR_SHARED Buffer Pages (fst c)]
          /\ plat (world r) = snd c)).
Proof.
  intros r c. subst r c. unfold FreeSharedBuffer.
  split.
  - intros H.
    assert (E : (Buffer =? NULL) || (Pages =? 0) = true).
    { destruct H as [-> | ->]; [reflexivity | apply orb_true_r]. }
    rewrite E. cbn. auto.
  - intros HB HP.
    apply Z.eqb_neq in HB. apply Z.eqb_neq in HP. rewrite HB, HP.
    unfold bind, callMemEncryptTdxSetPageSharedBit, callFreePages, ret.
    cbn [orb value world events mem plat fst snd].
    destruct (MemEncryptTdxSetPageSharedBit pf CLEAR_SHARED Buffer Pages (plat w))
      as [Status p] eqn:Ec.
    cbn [fst snd].
    destruct (EFI_ERROR Status) eqn:Eerr; cbn [negb value world events plat app];
      repeat split; intros; try discriminate; reflexivity.
Qed.

(** ** The shared-address mask *)

(** C5. When the shared-mask provider answers 0 during [VTpmContextWrite]
    or [VTpmContextRead], the function returns [EFI_ABORTED] and its log
    holds no TDVMCALL. *)
Theorem mask_zero_aborts_before_call {P} (pf : Platform P)
  (RequestSize Request ResponseSize Response Timeout : Z) (w : World P) :
  let wr := VTpmContextWrite pf RequestSize Request Timeout w in
  let rd := VTpmContextRead pf ResponseSize Response Timeout w in
  (In (EvTdSharedPageMask 0) (events wr) ->
   value wr = EFI_ABORTED /\ existsb is_TdVmCall (events wr) = false)
  /\ (In (EvTdSharedPageMask 0) (events rd) ->
      fst (value rd) = EFI_ABORTED
      /\ existsb is_TdVmCall (events rd) = false).
Proof.
  intros wr rd; subst wr rd. split.
  - explore_run (VTpmContextWrite pf RequestSize Request Timeout w).
    all: intros HIn; cbn [In] in HIn.
    all: repeat (destruct HIn as [HIn | HIn]; try discriminate HIn);
      try contradiction.
    all: injection HIn as ->.
    all: try discriminate.
    all: split; reflexivity.
  - explore_run (VTpmContextRead pf ResponseSize Response Timeout w).
    all: intros HIn; cbn [In] in HIn.
    all: repeat (destruct HIn as [HIn | HIn]; try discriminate HIn);
      try contradiction.
    all: injection HIn as ->.
    all: try discriminate.
    all: split; reflexivity.
Qed.

(** ** The timeout argument *)

(** C9. Two calls of [VTpmContextWrite], or of [VTpmContextRead], that
    differ only in the [Timeout] argument run identically: same value, same
    final world, same log. Every TDVMCALL they issue carries the constant
    [VMM_SPDM_TIMEOUT] (2000 ms). *)
Theorem Timeout_is_not_observable {P} (pf : Platform P)
  (RequestSize Request ResponseSize Response Timeout1 Timeout2 : Z)
  (w : World P) :
  VTpmContextWrite pf RequestSize Request Timeout1 w
  = VTpmContextWrite pf RequestSize Request Timeout2 w
  /\ VTpmContextRead pf ResponseSize Response Timeout1 w
     = VTpmContextRead pf ResponseSize Response Timeout2 w
  /\ Forall (eq VMM_SPDM_TIMEOUT)
       (call_timeouts
          (events (VTpmContextWrite pf RequestSize Request Timeout1 w)))
  /\ Forall (eq VMM_SPDM_TIMEOUT)
       (call_timeouts
          (events (VTpmContextRead pf ResponseSize Response Timeout1 w))).
Proof.
  split; [reflexivity|]. split; [reflexivity|]. split.
  - explore_run (VTpmContextWrite pf RequestSize Request Timeout1 w).
    all: cbn [call_timeouts flat_map app]; repeat constructor.
  - explore_run (VTpmContextRead pf ResponseSize Response Timeout1 w).
    all: cbn [call_timeouts flat_map app]; repeat constructor.
Qed.

(** ** Failure before the capacity comparison *)

(** C10. When [VTpmContextRead] returns [EFI_UNSUPPORTED] or [EFI_ABORTED],
    the statuses of the failures that precede the capacity comparison
    (allocation failure; mask 0, failed hypercall and nonzero status at
    either layer), [*ResponseSize] keeps its value and every address that
    stays the caller's holds on return what it held at entry: the function
    has stored nothing outside the pages it allocated. *)
Theorem Read_early_failure_keeps_outputs {P} (pf : Platform P)
  (ResponseSize Response Timeout : Z) (w : World P) :
  let r := VTpmContextRead pf ResponseSize Response Timeout w in
  fst (value r) = EFI_UNSUPPORTED \/ fst (value r) = EFI_ABORTED ->
  snd (value r) = ResponseSize
  /\ forall a, caller_owned (events r) a -> mem (world r) a = mem w a.
Proof.
  intros r; subst r.
  explore_run (VTpmContextRead pf ResponseSize Response Timeout w).
  all: intros [Hst | Hst]; try discriminate Hst.
  all: split; [reflexivity|].
  all: intros a [Hpages Hhost]; try reflexivity.
  all: try (erewrite Hhost by in_log).
  all: match goal with
       | |- context [CopyBytes (mem _) (?c + _) _] =>
           assert (Hc : outside_buffer a c) by (eapply Hpages; in_log)
       end.
  all: match goal with
       | |- context [WriteUint32 _ (?c + _) (UINT32 (EFI_PAGES_TO_SIZE _))] =>
           assert (Hr : outside_buffer a c) by (eapply Hpages; in_log)
       end.
  all: clear Hpages Hhost.
  all: peel_frames; reflexivity.
Qed.

(** ** The capacity comparison *)

Lemma payload_length_exact (Length : Z) :
  28 <= Length < 2 ^ 32 -> payload_length Length = Length - 28.
Proof.
  intros H. unfold payload_length.
  change (UINT32 (TDVMCALL_SERVICE_RESPONSE_HEADER.sizeof
                  + RECEIVE_MESSAGE_RESPONSE_HEADER.sizeof)) with 28.
  apply UINT32_small. lia.
Qed.

Lemma ReadUint32_range (m : Mem) (a : Z) : 0 <= ReadUint32 m a < 2 ^ 32.
Proof.
  unfold ReadUint32, ReadUint8.
  pose proof (UINT8_range (m a)). pose proof (UINT8_range (m (a + 1))).
  pose proof (UINT8_range (m (a + 2))). pose proof (UINT8_range (m (a + 3))).
  lia.
Qed.

(** C1. In a run of [VTpmContextRead] where both buffers were acquired, the
    hypercall answered 0/0 and both status fields of the response are 0,
    if the payload length R (the outer [Length] minus the 28 header bytes)
    exceeds the capacity passed in [*ResponseSize], the function returns
    [EFI_BUFFER_TOO_SMALL] with [*ResponseSize] set to R, and memory on
    return is exactly as the hypercall left it: nothing was copied. *)
Theorem Read_capacity_error {P} (pf : Platform P)
  (ResponseSize Response Timeout : Z) (w : World P)
  (CmdBuffer RspBuffer : Z) (Seen Left : Mem) :
  let r := VTpmContextRead pf ResponseSize Response Timeout w in
  let Length :=
    ReadUint32 Left (RspBuffer + TDVMCALL_SERVICE_RESPONSE_HEADER.offset_Length) in
  let R := payload_length Length in
  begins_with_call (events r) CmdBuffer RspBuffer Seen 0 0 Left ->
  ReadUint32 Left (RspBuffer + TDVMCALL_SERVICE_RESPONSE_HEADER.offset_Status)
  = 0 ->
  ReadUint8 Left (RspBuffer + TDVMCALL_SERVICE_RESPONSE_HEADER.sizeof
                  + RECEIVE_MESSAGE_RESPONSE_HEADER.offset_Status) = 0 ->
  ResponseSize < R ->
  value r = (EFI_BUFFER_TOO_SMALL, R)
  /\ mem (world r) = Left
  /\ (28 <= Length -> R = Length - 28).
Proof.
  intros r Length R; subst r Length R.
  explore_run (VTpmContextRead pf ResponseSize Response Timeout w).
  all: intros (s1 & s2 & Mask & Leaf & A1 & A2 & A3 & A4 & rest & Hlog)
         HSt HMsg Hlt.
  all: match_log Hlog.
  all: settle_tests.
  all: try (unfold payload_length in Hlt;
            match goal with T : (_ <? _) = false |- _ =>
              apply Z.ltb_ge in T; lia end).
  all: split; [reflexivity|]; split; [reflexivity|].
  all: intros; apply payload_length_exact;
    match goal with |- context [ReadUint32 ?m ?a] =>
      pose proof (ReadUint32_range m a) end; lia.
Qed.

(** C4. In a run of [VTpmContextRead] where both buffers were acquired, the
    hypercall answered 0/0 and both status fields of the response are 0,
    if the payload length R (the outer [Length] minus the 28 header bytes)
    is at most the capacity passed in [*ResponseSize], the function
    returns [EFI_SUCCESS] with [*ResponseSize] set to R, and memory on
    return is the memory the hypercall left with the R bytes at offset 28
    of the response buffer copied to [Response]: byte [i < R] of
    [Response] is byte [28 + i] of the response buffer, and no address
    outside these R bytes is changed. *)
Theorem Read_copies_payload {P} (pf : Platform P)
  (ResponseSize Response Timeout : Z) (w : World P)
  (CmdBuffer RspBuffer : Z) (Seen Left : Mem) :
  let r := VTpmContextRead pf ResponseSize Response Timeout w in
  let Length :=
    ReadUint32 Left (RspBuffer + TDVMCALL_SERVICE_RESPONSE_HEADER.offset_Length) in
  let R := payload_length Length in
  begins_with_call (events r) CmdBuffer RspBuffer Seen 0 0 Left ->
  ReadUint32 Left (RspBuffer + TDVMCALL_SERVICE_RESPONSE_HEADER.offset_Status)
  = 0 ->
  ReadUint8 Left (RspBuffer + TDVMCALL_SERVICE_RESPONSE_HEADER.sizeof
                  + RECEIVE_MESSAGE_RESPONSE_HEADER.offset_Status) = 0 ->
  R <= ResponseSize ->
  value r = (EFI_SUCCESS, R)
  /\ mem (world r) = CopyMem Left Response (RspBuffer + 28) R
  /\ (forall i, 0 <= i < R ->
      mem (world r) (Response + i) = Left (RspBuffer + 28 + i))
  /\ (forall a, a < Response \/ Response + R <= a ->
      mem (world r) a = Left a)
  /\ (28 <= Length -> R = Length - 28).
Proof.
  intros r Length R; subst r Length R.
  explore_run (VTpmContextRead pf ResponseSize Response Timeout w).
  all: intros (s1 & s2 & Mask & Leaf & A1 & A2 & A3 & A4 & rest & Hlog)
         HSt HMsg Hle.
  all: match_log Hlog.
  all: settle_tests.
  all: try (unfold payload_length in Hle;
            match goal with T : (_ <? _) = true |- _ =>
              apply Z.ltb_lt in T; lia end).
  all: split; [reflexivity|]; split; [reflexivity|].
  all: fold (payload_length
               (ReadUint32 Left
                  (RspBuffer + TDVMCALL_SERVICE_RESPONSE_HEADER.offset_Length))).
  all: change (UINT32 (TDVMCALL_SERVICE_RESPONSE_HEADER.sizeof
                       + RECEIVE_MESSAGE_RESPONSE_HEADER.sizeof)) with 28.
  all: split; [intros i Hi; rewrite CopyMem_inside by lia; f_equal; lia|].
  all: split; [intros a Ha; apply CopyMem_outside; exact Ha|].
  all: intros; apply payload_length_exact;
    match goal with |- context [ReadUint32 ?m ?a] =>
      pose proof (ReadUint32_range m a) end; lia.
Qed.

(** ** The frames in memory *)

Lemma CopyBytes_app (l1 l2 : list Z) :
  forall (m : Mem) (d : Z),
    CopyBytes m d (l1 ++ l2)
    = CopyBytes (CopyBytes m d l1) (d + Z.of_nat (length l1)) l2.
Proof.
  induction l1 as [|b l1 IH]; intros m d; cbn [app CopyBytes length].
  - now rewrite Z.add_0_r.
  - rewrite IH. f_equal. lia.
Qed.

Lemma ReadBytes_CopyBytes_skip (m : Mem) (d : Z) (bs : list Z) (a : Z) (n : nat) :
  a + Z.of_nat n <= d \/ d + Z.of_nat (length bs) <= a ->
  ReadBytes (CopyBytes m d bs) a n = ReadBytes m a n.
Proof.
  intros H. apply ReadBytes_ext. intros i Hi. apply CopyBytes_outside. lia.
Qed.

Lemma ReadBytes_WriteUint32_skip (m : Mem) (d v a : Z) (n : nat) :
  a + Z.of_nat n <= d \/ d + 4 <= a ->
  ReadBytes (WriteUint32 m d v) a n = ReadBytes m a n.
Proof.
  intros H. apply ReadBytes_ext. intros i Hi. apply WriteUint32_outside. lia.
Qed.

Lemma ReadBytes_CopyMem_skip (m : Mem) (d s len a : Z) (n : nat) :
  a + Z.of_nat n <= d \/ d + len <= a ->
  ReadBytes (CopyMem m d s len) a n = ReadBytes m a n.
Proof.
  intros H. apply ReadBytes_ext. intros i Hi. apply CopyMem_outside. lia.
Qed.

Lemma UINT8_shift_UINT32 (v d e : Z) :
  0 < d -> 4294967296 = 256 * e * d ->
  UINT8 (UINT32 v / d) = UINT8 (v / d).
Proof.
  intros Hd He. unfold UINT8, UINT32.
  change (2 ^ 8) with 256. change (2 ^ 32) with 4294967296.
  rewrite (Z.div_mod v 4294967296) at 2 by lia.
  replace (4294967296 * (v / 4294967296) + v mod 4294967296)
    with (v mod 4294967296 + (v / 4294967296 * e * 256) * d)
    by (rewrite He; ring).
  rewrite Z.div_add by lia.
  rewrite Z_mod_plus_full. reflexivity.
Qed.

Lemma le32_UINT32 (v : Z) : le32 (UINT32 v) = le32 v.
Proof.
  unfold le32.
  assert (H0 : UINT8 (UINT32 v) = UINT8 v).
  { pose proof (UINT8_shift_UINT32 v 1 16777216) as H.
    rewrite !Z.div_1_r in H. apply H; reflexivity. }
  rewrite H0.
  rewrite (UINT8_shift_UINT32 v (2 ^ 8) 65536) by reflexivity.
  rewrite (UINT8_shift_UINT32 v (2 ^ 16) 256) by reflexivity.
  rewrite (UINT8_shift_UINT32 v (2 ^ 24) 1) by reflexivity.
  reflexivity.
Qed.

Lemma Write_frames_header (m : Mem) (CmdBuffer RspBuffer RequestSize Request : Z) :
  buffers_disjoint CmdBuffer RspBuffer ->
  0 <= RequestSize ->
  ReadBytes (Write_frames m CmdBuffer RspBuffer RequestSize Request) CmdBuffer 28
  = VTPM_SERVICE_GUID ++ le32 (28 + RequestSize) ++ [0; 0; 0; 0]
    ++ [0; SERVICE_VTPM_SEND_MESSAGE; 0; 0].
Proof.
  intros [D1 D2] Hn. unfold Write_frames.
  rewrite ReadBytes_WriteUint32_skip by sizes.
  rewrite !ReadBytes_CopyBytes_skip with (d := RspBuffer) by sizes.
  rewrite ReadBytes_CopyBytes_skip
    with (d := RspBuffer + TDVMCALL_SERVICE_RESPONSE_HEADER.sizeof) by sizes.
  replace (CmdBuffer + TDVMCALL_SERVICE_COMMAND_HEADER.sizeof
           + SEND_MESSAGE_COMMAND_HEADER.sizeof + RequestSize - CmdBuffer)
    with (28 + RequestSize) by sizes.
  change 28%nat with (16 + (4 + (4 + 4)))%nat.
  rewrite !ReadBytes_app.
  f_equal; [|f_equal; [|f_equal]].
  - rewrite ReadBytes_WriteUint32_skip by sizes.
    unfold TDVMCALL_SERVICE_COMMAND_HEADER.bytes.
    rewrite CopyBytes_app, ReadBytes_CopyBytes_skip by sizes.
    apply (ReadBytes_CopyBytes VTPM_SERVICE_GUID).
  - rewrite <- le32_UINT32. apply WriteUint32_bytes.
  - rewrite ReadBytes_WriteUint32_skip by sizes.
    unfold TDVMCALL_SERVICE_COMMAND_HEADER.bytes.
    rewrite app_assoc, CopyBytes_app. norm_sizes.
    replace (CmdBuffer + Z.of_nat 16 + Z.of_nat 4) with (CmdBuffer + 20) by lia.
    apply (ReadBytes_CopyBytes (le32 0)).
  - rewrite ReadBytes_WriteUint32_skip by sizes.
    rewrite ReadBytes_CopyBytes_skip by sizes.
    rewrite ReadBytes_CopyMem_skip by sizes.
    replace (CmdBuffer + Z.of_nat 16 + Z.of_nat 4 + Z.of_nat 4)
      with (CmdBuffer + TDVMCALL_SERVICE_COMMAND_HEADER.sizeof) by sizes.
    apply (ReadBytes_CopyBytes
             (SEND_MESSAGE_COMMAND_HEADER.bytes
                mSendMessageCommandHeaderTemplate)).
Qed.

Lemma Write_frames_command_Length (m : Mem)
  (CmdBuffer RspBuffer RequestSize Request : Z) :
  buffers_disjoint CmdBuffer RspBuffer ->
  0 <= RequestSize < 2 ^ 32 - 28 ->
  ReadUint32 (Write_frames m CmdBuffer RspBuffer RequestSize Request)
    (CmdBuffer + TDVMCALL_SERVICE_COMMAND_HEADER.offset_Length)
  = 28 + RequestSize.
Proof.
  intros [D1 D2] Hn.
  assert (E : ReadBytes (Write_frames m CmdBuffer RspBuffer RequestSize Request)
                (CmdBuffer + TDVMCALL_SERVICE_COMMAND_HEADER.offset_Length) 4
              = le32 (28 + RequestSize)).
  { unfold Write_frames.
    rewrite ReadBytes_WriteUint32_skip by sizes.
    rewrite !ReadBytes_CopyBytes_skip with (d := RspBuffer) by sizes.
    rewrite ReadBytes_CopyBytes_skip
      with (d := RspBuffer + TDVMCALL_SERVICE_RESPONSE_HEADER.sizeof) by sizes.
    replace (CmdBuffer + TDVMCALL_SERVICE_COMMAND_HEADER.sizeof
             + SEND_MESSAGE_COMMAND_HEADER.sizeof + RequestSize - CmdBuffer)
      with (28 + RequestSize) by sizes.
    rewrite <- le32_UINT32. apply WriteUint32_bytes. }
  rewrite (ReadUint32_bytes _ _ _ _ _ _ E), le32_value.
  apply UINT32_small. lia.
Qed.

Lemma Write_frames_payload (m : Mem)
  (CmdBuffer RspBuffer RequestSize Request i : Z) :
  buffers_disjoint CmdBuffer RspBuffer ->
  RequestSize <= VTPM_DEFAULT_MAX_BUFFER_SIZE - 28 ->
  0 <= i < RequestSize ->
  outside_buffer (Request + i) CmdBuffer ->
  Write_frames m CmdBuffer RspBuffer RequestSize Request (CmdBuffer + 28 + i)
  = m (Request + i).
Proof.
  intros [D1 D2] Hfit Hi Hsrc. unfold Write_frames.
  unfold VTPM_DEFAULT_MAX_BUFFER_SIZE in Hfit.
  peel_frames.
  rewrite CopyMem_inside by sizes.
  rewrite CopyBytes_outside by sizes.
  f_equal. sizes.
Qed.

Lemma Write_frames_response_Length (m : Mem)
  (CmdBuffer RspBuffer RequestSize Request : Z) :
  ReadUint32 (Write_frames m CmdBuffer RspBuffer RequestSize Request)
    (RspBuffer + TDVMCALL_SERVICE_RESPONSE_HEADER.offset_Length)
  = 28.
Proof.
  unfold Write_frames. rewrite ReadUint32_WriteUint32.
  replace (RspBuffer + TDVMCALL_SERVICE_RESPONSE_HEADER.sizeof
           + SEND_MESSAGE_RESPONSE_HEADER.sizeof - RspBuffer)
    with 28 by sizes.
  reflexivity.
Qed.

(** ** The command frame of a write *)

(** C6. In a run of [VTpmContextWrite] that reaches the hypercall with
    distinct buffers, the command buffer the host sees starts with the 16
    bytes of the service identifier, the outer length 28 + RequestSize in
    little-endian order, four zero bytes, and the inner header {0, 1, 0,
    0}; its [Length] field reads 28 + RequestSize, the number of bytes
    written. When the payload fits the page and the request lies outside
    the command buffer, the payload bytes follow at offset 28; for the
    4-byte payload {0xDE, 0xAD, 0xBE, 0xEF} the first 32 bytes are the
    identifier, 32 0 0 0, 0 0 0 0, 0 1 0 0 and the payload. *)
Theorem Write_command_frame {P} (pf : Platform P)
  (RequestSize Request Timeout : Z) (w : World P)
  (CmdBuffer RspBuffer : Z) (Seen : Mem) (RetCode RetValue : Z) (Left : Mem) :
  let r := VTpmContextWrite pf RequestSize Request Timeout w in
  begins_with_call (events r) CmdBuffer RspBuffer Seen RetCode RetValue Left ->
  buffers_disjoint CmdBuffer RspBuffer ->
  0 <= RequestSize < 2 ^ 32 - 28 ->
  ReadBytes Seen CmdBuffer 28
  = VTPM_SERVICE_GUID ++ le32 (28 + RequestSize) ++ [0; 0; 0; 0]
    ++ [0; SERVICE_VTPM_SEND_MESSAGE; 0; 0]
  /\ ReadUint32 Seen (CmdBuffer + TDVMCALL_SERVICE_COMMAND_HEADER.offset_Length)
     = 28 + RequestSize
  /\ (RequestSize <= VTPM_DEFAULT_MAX_BUFFER_SIZE - 28 ->
      (forall i, 0 <= i < RequestSize -> outside_buffer (Request + i) CmdBuffer) ->
      (forall i, 0 <= i < RequestSize ->
         Seen (CmdBuffer + 28 + i) = mem w (Request + i))
      /\ (RequestSize = 4 ->
          ReadBytes (mem w) Request 4 = [0xDE; 0xAD; 0xBE; 0xEF] ->
          ReadBytes Seen CmdBuffer 32
          = [0x93; 0x07; 0x59; 0x64; 0x52; 0x78; 0x52; 0x4e;
             0xbe; 0x45; 0xcd; 0xbb; 0x11; 0x6f; 0x20; 0xf3;
             32; 0; 0; 0;  0; 0; 0; 0;  0; 1; 0; 0;
             0xDE; 0xAD; 0xBE; 0xEF])).
Proof.
  intros r; subst r.
  explore_run (VTpmContextWrite pf RequestSize Request Timeout w).
  all: intros (s1 & s2 & Mask & Leaf & A1 & A2 & A3 & A4 & rest & Hlog)
         Hdis Hn.
  all: match_log Hlog.
  all: fold (Write_frames (mem w) CmdBuffer RspBuffer RequestSize Request).
  all: split; [apply Write_frames_header; [exact Hdis | lia]|].
  all: split; [apply Write_frames_command_Length; assumption|].
  all: intros Hfit Hsrc.
  all: assert (Hpay : forall i, 0 <= i < RequestSize ->
                 Write_frames (mem w) CmdBuffer RspBuffer RequestSize Request
                   (CmdBuffer + 28 + i) = mem w (Request + i))
         by (intros i Hi; apply Write_frames_payload; auto).
  all: split; [exact Hpay|].
  all: intros -> Hreq.
  all: change 32%nat with (28 + 4)%nat.
  all: rewrite ReadBytes_app, Write_frames_header by (auto; lia).
  all: rewrite (ReadBytes_ext 4 _ (mem w) _ Request)
         by (intros i Hi; replace (CmdBuffer + Z.of_nat 28 + i)
               with (CmdBuffer + 28 + i) by lia; apply Hpay; lia).
  all: rewrite Hreq; reflexivity.
Qed.

(** ** The response skeleton *)

(** C3 (amended). In a run that reaches the hypercall, the response
    skeleton the host sees carries in its outer [Length] field: for
    [VTpmContextRead], the size of the response buffer
    ([EFI_PAGES_TO_SIZE (VTPM_DEFAULT_ALLOCATION_PAGE)], 4096 bytes); for
    [VTpmContextWrite], the size of the two response headers, 28 bytes. *)
Theorem response_skeleton_Length {P} (pf : Platform P)
  (RequestSize Request ResponseSize Response Timeout : Z) (w : World P)
  (CmdBuffer RspBuffer : Z) (Seen : Mem) (RetCode RetValue : Z) (Left : Mem) :
  (begins_with_call
     (events (VTpmContextRead pf ResponseSize Response Timeout w))
     CmdBuffer RspBuffer Seen RetCode RetValue Left ->
   ReadUint32 Seen (RspBuffer + TDVMCALL_SERVICE_RESPONSE_HEADER.offset_Length)
   = EFI_PAGES_TO_SIZE VTPM_DEFAULT_ALLOCATION_PAGE
   /\ EFI_PAGES_TO_SIZE VTPM_DEFAULT_ALLOCATION_PAGE = 4096)
  /\ (begins_with_call
        (events (VTpmContextWrite pf RequestSize Request Timeout w))
        CmdBuffer RspBuffer Seen RetCode RetValue Left ->
      ReadUint32 Seen (RspBuffer + TDVMCALL_SERVICE_RESPONSE_HEADER.offset_Length)
      = TDVMCALL_SERVICE_RESPONSE_HEADER.sizeof
        + SEND_MESSAGE_RESPONSE_HEADER.sizeof
      /\ TDVMCALL_SERVICE_RESPONSE_HEADER.sizeof
         + SEND_MESSAGE_RESPONSE_HEADER.sizeof = 28).
Proof.
  split.
  - explore_run (VTpmContextRead pf ResponseSize Response Timeout w).
    all: intros (s1 & s2 & Mask & Leaf & A1 & A2 & A3 & A4 & rest & Hlog).
    all: match_log Hlog.
    all: split; [|reflexivity].
    all: rewrite ReadUint32_WriteUint32; reflexivity.
  - explore_run (VTpmContextWrite pf RequestSize Request Timeout w).
    all: intros (s1 & s2 & Mask & Leaf & A1 & A2 & A3 & A4 & rest & Hlog).
    all: match_log Hlog.
    all: split; [|reflexivity].
    all: apply Write_frames_response_Length.
Qed.

(** C3, counterexample. On the mock platform, [VTpmContextWrite] of a
    4-byte payload reaches the hypercall with response buffer 0x200000,
    and the [Length] field of the skeleton the host sees is not the buffer
    capacity 4096: the claim fails for this call. *)
Lemma Write_skeleton_Length_not_capacity :
  let r := VTpmContextWrite (MockPlatform acknowledging_host) 4 0x5000
             VMM_SPDM_TIMEOUT (mock_world acknowledging_host payload_DEADBEEF) in
  ~ (forall CmdBuffer RspBuffer Seen RetCode RetValue Left,
       begins_with_call (events r) CmdBuffer RspBuffer Seen RetCode RetValue Left ->
       ReadUint32 Seen (RspBuffer + TDVMCALL_SERVICE_RESPONSE_HEADER.offset_Length)
       = VTPM_DEFAULT_MAX_BUFFER_SIZE).
Proof.
  intros r H.
  pose (Seen := Write_frames payload_DEADBEEF 0x100000 0x200000 4 0x5000).
  assert (Hrun : begins_with_call (events r) 0x100000 0x200000 Seen 0 0
                   (mock_Left acknowledging_host Seen 0x200000))
    by (mock_exchange acknowledging_host mock_release).
  apply H in Hrun. lazy in Hrun. discriminate Hrun.
Qed.

(** ** A response shorter than its headers *)

(** C2. The code does not reject an outer [Length] below the header size.
    With [Length] = 0 and both statuses 0, [DataLen] wraps around to
    2^32 - 28. With capacity 16, [VTpmContextRead] returns
    [EFI_BUFFER_TOO_SMALL] (not [EFI_ABORTED]) and asks the caller for
    4294967268 bytes. With capacity 2^32 it returns [EFI_SUCCESS] and
    copies 4294967268 bytes from offset 28 of the one-page response
    buffer, among them the marked byte that lies beyond the page. *)
Theorem Read_accepts_Length_below_headers :
  let pf := MockPlatform short_length_host in
  let small := VTpmContextRead pf 16 0x5000 VMM_SPDM_TIMEOUT
                 (mock_world short_length_host marked_mem) in
  let large := VTpmContextRead pf (2 ^ 32) 0x10000000 VMM_SPDM_TIMEOUT
                 (mock_world short_length_host marked_mem) in
  (exists Seen Left,
      begins_with_call (events small) 0x100000 0x200000 Seen 0 0 Left
      /\ ReadUint32 Left (0x200000 + TDVMCALL_SERVICE_RESPONSE_HEADER.offset_Length)
         = 0
      /\ ReadUint32 Left (0x200000 + TDVMCALL_SERVICE_RESPONSE_HEADER.offset_Status)
         = 0
      /\ ReadUint8 Left (0x200000 + TDVMCALL_SERVICE_RESPONSE_HEADER.sizeof
                         + RECEIVE_MESSAGE_RESPONSE_HEADER.offset_Status) = 0)
  /\ value small = (EFI_BUFFER_TOO_SMALL, 2 ^ 32 - 28)
  /\ fst (value small) <> EFI_ABORTED
  /\ value large = (EFI_SUCCESS, 2 ^ 32 - 28)
  /\ mem (world large) (0x10000000 + (0x1000 - 28)) = 0xAA
  /\ marked_mem (0x200000 + 0x1000) = 0xAA.
Proof.
  intros pf small large. split.
  - pose (Seen := Read_frames marked_mem 0x100000 0x200000).
    exists Seen, (mock_Left short_length_host Seen 0x200000). split.
    + mock_exchange short_length_host mock_release.
    + repeat split; reflexivity.
  - repeat split; try reflexivity. discriminate.
Qed.

(** ** The statements at work on the mock platform *)

Lemma FreeSharedBuffer_contract_witness :
  (NULL = NULL \/ 1 = 0)
  /\ value stubborn_release_null = EFI_INVALID_PARAMETER
  /\ 0x100000 <> NULL /\ 1 <> 0
  /\ value stubborn_release = EFI_ABORTED
  /\ events stubborn_release
     = [EvSetPageSharedBit CLEAR_SHARED 0x100000 1 EFI_ABORTED].
Proof.
  pose proof (FreeSharedBuffer_contract (MockPlatform stubborn_host) NULL 1
                (mock_world stubborn_host zero_mem)) as Cnull.
  pose proof (FreeSharedBuffer_contract (MockPlatform stubborn_host) 0x100000 1
                (mock_world stubborn_host zero_mem)) as Cfree.
  assert (H1 : NULL = NULL \/ 1 = 0) by (left; reflexivity).
  assert (H2 : 0x100000 <> NULL) by discriminate.
  assert (H3 : 1 <> 0) by discriminate.
  exact (conj H1
           (conj (proj1 (proj1 Cnull H1))
              (conj H2
                 (conj H3
                    (conj (proj1 (proj2 Cfree H2 H3))
                       (proj1 (proj2 (proj2 (proj2 Cfree H2 H3)) eq_refl))))))).
Defined.

Lemma mask_zero_aborts_before_call_witness :
  In (EvTdSharedPageMask 0) (events maskless_Write)
  /\ value maskless_Write = EFI_ABORTED
  /\ existsb is_TdVmCall (events maskless_Write) = false
  /\ In (EvTdSharedPageMask 0) (events maskless_Read)
  /\ fst (value maskless_Read) = EFI_ABORTED
  /\ existsb is_TdVmCall (events maskless_Read) = false.
Proof.
  pose proof (mask_zero_aborts_before_call (MockPlatform maskless_host)
                4 0x5000 16 0x5000 VMM_SPDM_TIMEOUT
                (mock_world maskless_host zero_mem)) as C.
  assert (Hw : In (EvTdSharedPageMask 0) (events maskless_Write))
    by (lazy; in_log).
  assert (Hr : In (EvTdSharedPageMask 0) (events maskless_Read))
    by (lazy; in_log).
  exact (conj Hw
           (conj (proj1 (proj1 C Hw))
              (conj (proj2 (proj1 C Hw))
                 (conj Hr
                    (conj (proj1 (proj2 C Hr)) (proj2 (proj2 C Hr))))))).
Defined.

Lemma Read_capacity_error_witness :
  let r := replying_Read 2 in
  let Seen := Read_frames zero_mem 0x100000 0x200000 in
  let Left := mock_Left replying_host Seen 0x200000 in
  begins_with_call (events r) 0x100000 0x200000 Seen 0 0 Left
  /\ ReadUint32 Left (0x200000 + 20) = 0
  /\ ReadUint8 Left (0x200000 + 24 + 2) = 0
  /\ 2 < payload_length (ReadUint32 Left (0x200000 + 16))
  /\ value r = (EFI_BUFFER_TOO_SMALL, 4)
  /\ mem (world r) = Left.
Proof.
  intros r Seen Left.
  assert (Hrun : begins_with_call (events r) 0x100000 0x200000 Seen 0 0 Left)
    by (mock_exchange replying_host mock_release).
  assert (Hst : ReadUint32 Left (0x200000 + 20) = 0) by reflexivity.
  assert (Hmsg : ReadUint8 Left (0x200000 + 24 + 2) = 0) by reflexivity.
  assert (Hlt : 2 < payload_length (ReadUint32 Left (0x200000 + 16)))
    by reflexivity.
  pose proof (Read_capacity_error (MockPlatform replying_host) 2 0x5000
                VMM_SPDM_TIMEOUT (mock_world replying_host zero_mem)
                0x100000 0x200000 Seen Left Hrun Hst Hmsg Hlt) as C.
  exact (conj Hrun
           (conj Hst
              (conj Hmsg (conj Hlt (conj (proj1 C) (proj1 (proj2 C))))))).
Defined.

Lemma Read_copies_payload_witness :
  let r := replying_Read 16 in
  let Seen := Read_frames zero_mem 0x100000 0x200000 in
  let Left := mock_Left replying_host Seen 0x200000 in
  begins_with_call (events r) 0x100000 0x200000 Seen 0 0 Left
  /\ ReadUint32 Left (0x200000 + 20) = 0
  /\ ReadUint8 Left (0x200000 + 24 + 2) = 0
  /\ payload_length (ReadUint32 Left (0x200000 + 16)) <= 16
  /\ value r = (EFI_SUCCESS, 4)
  /\ mem (world r) = CopyMem Left 0x5000 (0x200000 + 28) 4
  /\ ReadBytes (mem (world r)) 0x5000 6 = [1; 2; 3; 4; 0; 0].
Proof.
  intros r Seen Left.
  assert (Hrun : begins_with_call (events r) 0x100000 0x200000 Seen 0 0 Left)
    by (mock_exchange replying_host mock_release).
  assert (Hst : ReadUint32 Left (0x200000 + 20) = 0) by reflexivity.
  assert (Hmsg : ReadUint8 Left (0x200000 + 24 + 2) = 0) by reflexivity.
  assert (Hle : payload_length (ReadUint32 Left (0x200000 + 16)) <= 16)
    by (lazy; discriminate).
  pose proof (Read_copies_payload (MockPlatform replying_host) 16 0x5000
                VMM_SPDM_TIMEOUT (mock_world replying_host zero_mem)
                0x100000 0x200000 Seen Left Hrun Hst Hmsg Hle) as C.
  assert (Hbytes : ReadBytes (mem (world r)) 0x5000 6 = [1; 2; 3; 4; 0; 0])
    by reflexivity.
  exact (conj Hrun
           (conj Hst
              (conj Hmsg
                 (conj Hle
                    (conj (proj1 C) (conj (proj1 (proj2 C)) Hbytes)))))).
Defined.

Lemma Read_early_failure_keeps_outputs_witness :
  let r := rejecting_Read in
  (fst (value r) = EFI_UNSUPPORTED \/ fst (value r) = EFI_ABORTED)
  /\ caller_owned (events r) 0x5000
  /\ snd (value r) = 16
  /\ mem (world r) 0x5000 = 0xDE.
Proof.
  intros r.
  assert (Hst : fst (value r) = EFI_UNSUPPORTED \/ fst (value r) = EFI_ABORTED)
    by (right; reflexivity).
  pose (Seen := Read_frames payload_DEADBEEF 0x100000 0x200000).
  assert (Hev : events r
                = [EvAllocatePages 1 0x100000;
                   EvSetPageSharedBit MARK_SHARED 0x100000 1 EFI_SUCCESS;
                   EvAllocatePages 1 0x200000;
                   EvSetPageSharedBit MARK_SHARED 0x200000 1 EFI_SUCCESS;
                   EvTdSharedPageMask (2 ^ 47);
                   EvTdVmCall 0x10005 (Z.lor 0x100000 (2 ^ 47))
                     (Z.lor 0x200000 (2 ^ 47)) 0 VMM_SPDM_TIMEOUT Seen 0 0
                     (mock_Left rejecting_host Seen 0x200000)]
                  ++ mock_release) by reflexivity.
  assert (Hown : caller_owned (events r) 0x5000).
  { rewrite Hev. split.
    - intros Pages Buffer HIn. cbn [In app mock_release] in HIn.
      repeat (destruct HIn as [HIn | HIn]; try discriminate HIn);
        try contradiction.
      + injection HIn as _ <-. left. reflexivity.
      + injection HIn as _ <-. left. reflexivity.
    - intros Leaf A1 A2 A3 A4 S RC RV L HIn. cbn [In app mock_release] in HIn.
      repeat (destruct HIn as [HIn | HIn]; try discriminate HIn);
        try contradiction.
      apply EvTdVmCall_inv in HIn.
      destruct HIn as (_ & _ & _ & _ & _ & <- & _ & _ & <-).
      reflexivity. }
  pose proof (Read_early_failure_keeps_outputs (MockPlatform rejecting_host)
                16 0x5000 VMM_SPDM_TIMEOUT
                (mock_world rejecting_host payload_DEADBEEF) Hst) as C.
  exact (conj Hst (conj Hown (conj (proj1 C) (proj2 C 0x5000 Hown)))).
Defined.

Lemma Write_command_frame_witness :
  let r := acknowledged_Write in
  let Seen := Write_frames payload_DEADBEEF 0x100000 0x200000 4 0x5000 in
  let Left := mock_Left acknowledging_host Seen 0x200000 in
  begins_with_call (events r) 0x100000 0x200000 Seen 0 0 Left
  /\ buffers_disjoint 0x100000 0x200000
  /\ 0 <= 4 < 2 ^ 32 - 28
  /\ ReadBytes payload_DEADBEEF 0x5000 4 = [0xDE; 0xAD; 0xBE; 0xEF]
  /\ ReadUint32 Seen (0x100000 + 16) = 28 + 4
  /\ ReadBytes Seen 0x100000 32
     = [0x93; 0x07; 0x59; 0x64; 0x52; 0x78; 0x52; 0x4e;
        0xbe; 0x45; 0xcd; 0xbb; 0x11; 0x6f; 0x20; 0xf3;
        32; 0; 0; 0;  0; 0; 0; 0;  0; 1; 0; 0;
        0xDE; 0xAD; 0xBE; 0xEF].
Proof.
  intros r Seen Left.
  assert (Hrun : begins_with_call (events r) 0x100000 0x200000 Seen 0 0 Left)
    by (mock_exchange acknowledging_host mock_release).
  assert (Hdis : buffers_disjoint 0x100000 0x200000)
    by (split; [left; reflexivity | right; lazy; discriminate]).
  assert (Hn : 0 <= 4 < 2 ^ 32 - 28) by (split; [discriminate | reflexivity]).
  assert (Hreq : ReadBytes payload_DEADBEEF 0x5000 4 = [0xDE; 0xAD; 0xBE; 0xEF])
    by reflexivity.
  assert (Hfit : 4 <= VTPM_DEFAULT_MAX_BUFFER_SIZE - 28) by discriminate.
  assert (Hsrc : forall i, 0 <= i < 4 -> outside_buffer (0x5000 + i) 0x100000)
    by (intros i Hi; left; lia).
  pose proof (Write_command_frame (MockPlatform acknowledging_host) 4 0x5000
                VMM_SPDM_TIMEOUT
                (mock_world acknowledging_host payload_DEADBEEF)
                0x100000 0x200000 Seen 0 0 Left Hrun Hdis Hn) as C.
  exact (conj Hrun
           (conj Hdis
              (conj Hn
                 (conj Hreq
                    (conj (proj1 (proj2 C))
                       (proj2 (proj2 (proj2 C) Hfit Hsrc) eq_refl Hreq)))))).
Defined.

Lemma response_skeleton_Length_witness :
  let SeenR := Read_frames payload_DEADBEEF 0x100000 0x200000 in
  let SeenW := Write_frames payload_DEADBEEF 0x100000 0x200000 4 0x5000 in
  begins_with_call (events acknowledged_Read) 0x100000 0x200000 SeenR 0 0
    (mock_Left acknowledging_host SeenR 0x200000)
  /\ begins_with_call (events acknowledged_Write) 0x100000 0x200000 SeenW 0 0
       (mock_Left acknowledging_host SeenW 0x200000)
  /\ ReadUint32 SeenR (0x200000 + 16) = EFI_PAGES_TO_SIZE 1
  /\ ReadUint32 SeenW (0x200000 + 16) = 24 + 4.
Proof.
  intros SeenR SeenW.
  assert (HR : begins_with_call (events acknowledged_Read) 0x100000 0x200000
                 SeenR 0 0 (mock_Left acknowledging_host SeenR 0x200000))
    by (mock_exchange acknowledging_host mock_release).
  assert (HW : begins_with_call (events acknowledged_Write) 0x100000 0x200000
                 SeenW 0 0 (mock_Left acknowledging_host SeenW 0x200000))
    by (mock_exchange acknowledging_host mock_release).
  pose proof (response_skeleton_Length (MockPlatform acknowledging_host)
                4 0x5000 16 0x6000 VMM_SPDM_TIMEOUT
                (mock_world acknowledging_host payload_DEADBEEF)
                0x100000 0x200000 SeenR 0 0
                (mock_Left acknowledging_host SeenR 0x200000)) as CR.
  pose proof (response_skeleton_Length (MockPlatform acknowledging_host)
                4 0x5000 16 0x6000 VMM_SPDM_TIMEOUT
                (mock_world acknowledging_host payload_DEADBEEF)
                0x100000 0x200000 SeenW 0 0
                (mock_Left acknowledging_host SeenW 0x200000)) as CW.
  exact (conj HR
           (conj HW
              (conj (proj1 (proj1 CR HR)) (proj1 (proj2 CW HW))))).
Defined.

(** * Further properties of the code *)

Ltac read_log :=
  unfold allocated, freed, unshared, acquired, released; cbn [flat_map app];
  change (MARK_SHARED =? MARK_SHARED) with true;
  change (CLEAR_SHARED =? CLEAR_SHARED) with true;
  change (MARK_SHARED =? CLEAR_SHARED) with false;
  change (CLEAR_SHARED =? MARK_SHARED) with false;
  repeat match goal with
    | H : EFI_ERROR _ = _ |- _ => rewrite H
    | H : (_ =? NULL) = _ |- _ => rewrite H
    end;
  cbn [andb orb negb app].

(** A path on which a request to clear the shared attribute was refused
    contradicts [clears_granted]. *)
Ltac refused_clear :=
  match goal with
  | E : EFI_ERROR ?s = true, H : clears_granted ?l |- _ =>
      match l with
      | context [EvSetPageSharedBit CLEAR_SHARED ?a ?p s] =>
          rewrite (H a p s) in E by in_log; discriminate E
      end
  end.

(** ** Acquisition of a shared buffer *)

(** X1. [AllocateSharedBuffer] is all or nothing. A non-null result is a
    buffer the allocator handed out and the page-attribute setter marked
    shared with success, and these two calls are all the function did.
    With a null result no page is left allocated (a buffer whose marking
    failed has been freed) and no buffer is left marked. Guest memory is
    not touched. *)
Theorem AllocateSharedBuffer_all_or_nothing {P} (pf : Platform P)
  (Pages : Z) (w : World P) :
  let r := AllocateSharedBuffer pf Pages w in
  mem (world r) = mem w
  /\ (value r <> NULL ->
      exists Status,
        EFI_ERROR Status = false
        /\ events r = [EvAllocatePages Pages (value r);
                       EvSetPageSharedBit MARK_SHARED (value r) Pages Status])
  /\ (value r = NULL ->
      freed (events r) = allocated (events r)
      /\ acquired (events r) = []
      /\ Forall (fun e => match e with
                          | EvFreePages _ Pages' => Pages' = Pages
                          | _ => True
                          end) (events r)).
Proof.
  intros r; subst r.
  explore_run (AllocateSharedBuffer pf Pages w).
  all: split; [reflexivity|]; split.
  all: try (intros H; exfalso; apply H; reflexivity).
  all: try (intros _; eexists; split; [eassumption | reflexivity]).
  all: intros HNull; try (apply Z.eqb_neq in HNull; [contradiction | eassumption]).
  all: try (exfalso; match goal with E : (?z =? NULL) = false |- _ =>
              rewrite HNull in E; discriminate E end).
  all: split; [read_log; reflexivity|]; split; [read_log; reflexivity|].
  all: repeat constructor.
Qed.

(** ** Pages and their shared attribute over a whole call *)

(** X2. Over a whole run of [VTpmContextWrite] or [VTpmContextRead], the
    buffers returned to the page allocator are, in this order, the buffers
    the run failed to mark shared and the buffers whose shared attribute it
    cleared with success. A buffer that was marked shared is therefore never
    freed before its attribute is cleared, and a buffer whose clearing was
    refused is never freed. *)
Theorem pages_freed_when_unshared {P} (pf : Platform P)
  (RequestSize Request ResponseSize Response Timeout : Z) (w : World P) :
  let wr := VTpmContextWrite pf RequestSize Request Timeout w in
  let rd := VTpmContextRead pf ResponseSize Response Timeout w in
  freed (events wr) = unshared (events wr)
  /\ freed (events rd) = unshared (events rd).
Proof.
  intros wr rd; subst wr rd. split.
  - explore_run (VTpmContextWrite pf RequestSize Request Timeout w).
    all: read_log; reflexivity.
  - explore_run (VTpmContextRead pf ResponseSize Response Timeout w).
    all: read_log; reflexivity.
Qed.

(** X3. A run of [VTpmContextWrite] or [VTpmContextRead] in which the
    platform grants every request to clear a shared attribute leaks no
    page: the pages it returns to the allocator are the pages it obtained
    from it, whatever the outcome of the call. *)
Theorem no_page_leaked {P} (pf : Platform P)
  (RequestSize Request ResponseSize Response Timeout : Z) (w : World P) :
  let wr := VTpmContextWrite pf RequestSize Request Timeout w in
  let rd := VTpmContextRead pf ResponseSize Response Timeout w in
  (clears_granted (events wr) ->
   Permutation (freed (events wr)) (allocated (events wr)))
  /\ (clears_granted (events rd) ->
      Permutation (freed (events rd)) (allocated (events rd))).
Proof.
  intros wr rd; subst wr rd. split.
  - explore_run (VTpmContextWrite pf RequestSize Request Timeout w).
    all: intros Hgranted; try refused_clear.
    all: read_log; first [reflexivity | apply perm_swap].
  - explore_run (VTpmContextRead pf ResponseSize Response Timeout w).
    all: intros Hgranted; try refused_clear.
    all: read_log; first [reflexivity | apply perm_swap].
Qed.

(** ** The hypercall *)

(** Find the hypercall named by a membership hypothesis in the log of the
    current path. *)
Ltac find_call HIn :=
  cbn [In app] in HIn;
  repeat (destruct HIn as [HIn | HIn]; try discriminate HIn);
  try contradiction;
  apply EvTdVmCall_inv in HIn;
  destruct HIn as (? & ? & ? & ? & ? & ? & ? & ? & ?); subst.

Ltac call_shape :=
  do 6 eexists;
  split; [reflexivity|];
  split; [reflexivity|];
  split; [apply Z.eqb_neq; assumption|];
  split; [apply Z.eqb_neq; assumption|];
  split; [assumption|];
  split; [assumption|];
  split; [apply Z.eqb_neq; assumption|];
  repeat split.

(** X4. [VTpmContextWrite] and [VTpmContextRead] issue at most one
    TDVMCALL. It is issued when both buffers have been allocated and
    marked shared with success and the mask is not 0, on the leaf
    [TDVMCALL_SERVICE], with the command and the response address each
    or-ed with the mask, 0 as third argument and the timeout
    [VMM_SPDM_TIMEOUT]; after it the function only releases buffers. *)
Theorem one_tagged_hypercall {P} (pf : Platform P)
  (RequestSize Request ResponseSize Response Timeout : Z) (w : World P) :
  one_tagged_call pf (events (VTpmContextWrite pf RequestSize Request Timeout w))
  /\ one_tagged_call pf
       (events (VTpmContextRead pf ResponseSize Response Timeout w)).
Proof.
  unfold one_tagged_call. split.
  - explore_run (VTpmContextWrite pf RequestSize Request Timeout w).
    all: intros Leaf A1 A2 A3 A4 Seen RC RV Left HIn.
    all: find_call HIn.
    all: call_shape.
  - explore_run (VTpmContextRead pf ResponseSize Response Timeout w).
    all: intros Leaf A1 A2 A3 A4 Seen RC RV Left HIn.
    all: find_call HIn.
    all: call_shape.
Qed.

(** ** The status returned *)

(** The tests a path passed, read as the equations they decide. *)
Ltac tests_as_equations :=
  repeat match goal with
    | T : (_ =? _) = true |- _ => apply Z.eqb_eq in T
    | T : (_ =? _) = false |- _ => apply Z.eqb_neq in T
    | T : (_ <? _) = true |- _ => apply Z.ltb_lt in T
    | T : (_ <? _) = false |- _ => apply Z.ltb_ge in T
    end.

(** X5. [VTpmContextWrite] and [VTpmContextRead] return [EFI_UNSUPPORTED]
    exactly when they could not acquire their two shared buffers (the
    allocator had no page, or marking a page shared was refused). In that
    case they have not queried the shared mask nor issued the hypercall,
    and guest memory is as it was at entry. *)
Theorem allocation_failure_is_unsupported {P} (pf : Platform P)
  (RequestSize Request ResponseSize Response Timeout : Z) (w : World P) :
  let wr := VTpmContextWrite pf RequestSize Request Timeout w in
  let rd := VTpmContextRead pf ResponseSize Response Timeout w in
  (value wr = EFI_UNSUPPORTED <-> (length (acquired (events wr)) < 2)%nat)
  /\ (value wr = EFI_UNSUPPORTED ->
      existsb is_exchange (events wr) = false /\ mem (world wr) = mem w)
  /\ (fst (value rd) = EFI_UNSUPPORTED
      <-> (length (acquired (events rd)) < 2)%nat)
  /\ (fst (value rd) = EFI_UNSUPPORTED ->
      existsb is_exchange (events rd) = false /\ mem (world rd) = mem w).
Proof.
  intros wr rd; subst wr rd.
  split; [|split; [|split]].
  - explore_run (VTpmContextWrite pf RequestSize Request Timeout w).
    all: read_log; cbn [length]; split; intros H;
      first [reflexivity | discriminate H | lia].
  - explore_run (VTpmContextWrite pf RequestSize Request Timeout w).
    all: intros H; try discriminate H.
    all: split; reflexivity.
  - explore_run (VTpmContextRead pf ResponseSize Response Timeout w).
    all: read_log; cbn [length]; split; intros H;
      first [reflexivity | discriminate H | lia].
  - explore_run (VTpmContextRead pf ResponseSize Response Timeout w).
    all: intros H; try discriminate H.
    all: split; reflexivity.
Qed.

Ltac open_call Hrun Hlog :=
  destruct Hrun as (?s1 & ?s2 & ?Mask & ?Leaf & ?A1 & ?A2 & ?A3 & ?A4 & ?rest
                    & Hlog);
  match_log Hlog.

Ltac refuted_exchange Hbad :=
  exfalso; tests_as_equations;
  destruct Hbad as [Hbad | [Hbad | Hbad]];
  [ contradiction | contradiction
  | apply Hbad; split; assumption ].

(** X6. Once the hypercall is issued, anything but full success of the
    exchange makes [VTpmContextWrite] and [VTpmContextRead] return
    [EFI_ABORTED]: a nonzero return code, a nonzero return value, or a
    nonzero status in the outer or in the message header of the response.
    Memory on return is as the host left it. *)
Theorem failed_exchange_aborts {P} (pf : Platform P)
  (RequestSize Request ResponseSize Response Timeout : Z) (w : World P)
  (CmdBuffer RspBuffer : Z) (Seen : Mem) (RetCode RetValue : Z) (Left : Mem) :
  let wr := VTpmContextWrite pf RequestSize Request Timeout w in
  let rd := VTpmContextRead pf ResponseSize Response Timeout w in
  RetCode <> 0 \/ RetValue <> 0 \/ ~ both_statuses_zero Left RspBuffer ->
  (begins_with_call (events wr) CmdBuffer RspBuffer Seen RetCode RetValue Left ->
   value wr = EFI_ABORTED /\ mem (world wr) = Left)
  /\ (begins_with_call (events rd) CmdBuffer RspBuffer Seen RetCode RetValue Left ->
      value rd = (EFI_ABORTED, ResponseSize) /\ mem (world rd) = Left).
Proof.
  intros wr rd Hbad; subst wr rd. unfold both_statuses_zero in Hbad. split.
  - explore_run (VTpmContextWrite pf RequestSize Request Timeout w).
    all: intros Hrun; open_call Hrun Hlog.
    all: first [split; reflexivity | refuted_exchange Hbad].
  - explore_run (VTpmContextRead pf ResponseSize Response Timeout w).
    all: intros Hrun; open_call Hrun Hlog.
    all: first [split; reflexivity | refuted_exchange Hbad].
Qed.

Ltac accepted_exchange :=
  tests_as_equations; subst;
  do 2 eexists; split;
  [ unfold begins_with_call; do 9 eexists; reflexivity
  | split; assumption ].

(** X7. [VTpmContextWrite] returns [EFI_SUCCESS] exactly when it issued the
    hypercall, the host answered it with return code and value 0, and the
    response the host left carries status 0 in the outer header and in the
    message header. The statuses are read from the response as the host
    left it, not from the skeleton the function wrote. *)
Theorem Write_succeeds_iff {P} (pf : Platform P)
  (RequestSize Request Timeout : Z) (w : World P) :
  let r := VTpmContextWrite pf RequestSize Request Timeout w in
  value r = EFI_SUCCESS
  <-> exists RspBuffer Left, exchange_accepted (events r) RspBuffer Left.
Proof.
  intros r; subst r. unfold exchange_accepted, both_statuses_zero.
  explore_run (VTpmContextWrite pf RequestSize Request Timeout w).
  all: split.
  all: try (intros H; discriminate H).
  all: try (intros _; do 2 eexists; accepted_exchange).
  all: intros (Rsp & Left & Cmd & Seen & Hrun & HSt & HMsg).
  all: open_call Hrun Hlog.
  all: first [reflexivity | exfalso; tests_as_equations; contradiction].
Qed.

(** X8. The two outcomes of [VTpmContextRead] that report a payload length.
    It returns [EFI_SUCCESS] exactly when the exchange was accepted and the
    payload length computed from the response is at most the capacity
    passed in; it returns [EFI_BUFFER_TOO_SMALL] exactly when the exchange
    was accepted and that length exceeds the capacity. *)
Theorem Read_status_meaning {P} (pf : Platform P)
  (ResponseSize Response Timeout : Z) (w : World P) :
  let r := VTpmContextRead pf ResponseSize Response Timeout w in
  let R := fun (Left : Mem) (RspBuffer : Z) =>
    payload_length
      (ReadUint32 Left
         (RspBuffer + TDVMCALL_SERVICE_RESPONSE_HEADER.offset_Length)) in
  (fst (value r) = EFI_SUCCESS
   <-> exists RspBuffer Left,
         exchange_accepted (events r) RspBuffer Left
         /\ R Left RspBuffer <= ResponseSize)
  /\ (fst (value r) = EFI_BUFFER_TOO_SMALL
      <-> exists RspBuffer Left,
            exchange_accepted (events r) RspBuffer Left
            /\ ResponseSize < R Left RspBuffer).
Proof.
  intros r R; subst r R. unfold exchange_accepted, both_statuses_zero.
  split.
  - explore_run (VTpmContextRead pf ResponseSize Response Timeout w).
    all: split.
    all: try (intros H; discriminate H).
    all: try (intros _; do 2 eexists; split;
              [accepted_exchange | tests_as_equations; assumption]).
    all: intros (Rsp & Left & (Cmd & Seen & Hrun & HSt & HMsg) & Hcap).
    all: open_call Hrun Hlog.
    all: first [ reflexivity
               | exfalso; tests_as_equations; unfold payload_length in Hcap;
                 first [contradiction | lia] ].
  - explore_run (VTpmContextRead pf ResponseSize Response Timeout w).
    all: split.
    all: try (intros H; discriminate H).
    all: try (intros _; do 2 eexists; split;
              [accepted_exchange | tests_as_equations; assumption]).
    all: intros (Rsp & Left & (Cmd & Seen & Hrun & HSt & HMsg) & Hcap).
    all: open_call Hrun Hlog.
    all: first [ reflexivity
               | exfalso; tests_as_equations; unfold payload_length in Hcap;
                 first [contradiction | lia] ].
Qed.

(** X9. The statuses the two entry points can return. [VTpmContextWrite]
    returns [EFI_SUCCESS], [EFI_UNSUPPORTED] or [EFI_ABORTED];
    [VTpmContextRead] returns one of these or [EFI_BUFFER_TOO_SMALL]. The
    status of a failed release ([EFI_INVALID_PARAMETER] or the platform's)
    is never what they return. When [VTpmContextRead] changes
    [*ResponseSize], the new value is a 32-bit length. *)
Theorem transport_status_codes {P} (pf : Platform P)
  (RequestSize Request ResponseSize Response Timeout : Z) (w : World P) :
  let wr := VTpmContextWrite pf RequestSize Request Timeout w in
  let rd := VTpmContextRead pf ResponseSize Response Timeout w in
  In (value wr) [EFI_SUCCESS; EFI_UNSUPPORTED; EFI_ABORTED]
  /\ In (fst (value rd))
        [EFI_SUCCESS; EFI_UNSUPPORTED; EFI_ABORTED; EFI_BUFFER_TOO_SMALL]
  /\ (snd (value rd) = ResponseSize \/ 0 <= snd (value rd) < 2 ^ 32).
Proof.
  intros wr rd; subst wr rd. split; [|split].
  - explore_run (VTpmContextWrite pf RequestSize Request Timeout w).
    all: in_log.
  - explore_run (VTpmContextRead pf ResponseSize Response Timeout w).
    all: in_log.
  - explore_run (VTpmContextRead pf ResponseSize Response Timeout w).
    all: first [left; reflexivity
               | right; unfold UINT32; apply Z.mod_pos_bound; reflexivity].
Qed.

(** ** What a write leaves in memory *)

(** X10. A [VTpmContextWrite] whose request fits the command buffer
    (at most 4096 - 28 bytes) stores nothing outside the pages it
    allocated: on every path, every address that stays the caller's holds
    on return what it held at entry. In particular the request is left as
    it was. *)
Theorem Write_keeps_caller_memory {P} (pf : Platform P)
  (RequestSize Request Timeout : Z) (w : World P) :
  let r := VTpmContextWrite pf RequestSize Request Timeout w in
  RequestSize <= VTPM_DEFAULT_MAX_BUFFER_SIZE - 28 ->
  forall a, caller_owned (events r) a -> mem (world r) a = mem w a.
Proof.
  intros r; subst r.
  explore_run (VTpmContextWrite pf RequestSize Request Timeout w).
  all: intros Hfit a [Hpages Hhost]; try reflexivity.
  all: unfold VTPM_DEFAULT_MAX_BUFFER_SIZE in Hfit.
  all: try (erewrite Hhost by in_log).
  all: match goal with
       | |- context [CopyMem _ (?c + _ + _) _ _] =>
           assert (Hc : outside_buffer a c) by (eapply Hpages; in_log)
       end.
  all: match goal with
       | |- context [WriteUint32 _ (?c + _) (UINT32 (?c + _ + _ - ?c))] =>
           assert (Hr : outside_buffer a c) by (eapply Hpages; in_log)
       end.
  all: clear Hpages Hhost.
  all: peel_frames.
  all: rewrite CopyMem_outside by sizes.
  all: peel_frames; reflexivity.
Qed.

(** ** The frames of a read, and the response skeletons *)

Lemma outer_header_bytes (m : Mem) (a v : Z) :
  ReadBytes
    (WriteUint32
       (CopyBytes m a
          (TDVMCALL_SERVICE_COMMAND_HEADER.bytes
             mTdvmcallServiceCommandHeaderTemplate))
       (a + TDVMCALL_SERVICE_COMMAND_HEADER.offset_Length) v) a 24
  = VTPM_SERVICE_GUID ++ le32 v ++ [0; 0; 0; 0].
Proof.
  change 24%nat with (16 + (4 + 4))%nat. rewrite !ReadBytes_app.
  f_equal; [|f_equal].
  - rewrite ReadBytes_WriteUint32_skip by sizes.
    unfold TDVMCALL_SERVICE_COMMAND_HEADER.bytes.
    rewrite CopyBytes_app, ReadBytes_CopyBytes_skip by sizes.
    apply (ReadBytes_CopyBytes VTPM_SERVICE_GUID).
  - apply WriteUint32_bytes.
  - rewrite ReadBytes_WriteUint32_skip by sizes.
    unfold TDVMCALL_SERVICE_COMMAND_HEADER.bytes.
    rewrite app_assoc, CopyBytes_app. norm_sizes.
    replace (a + Z.of_nat 16 + Z.of_nat 4) with (a + 20) by lia.
    apply (ReadBytes_CopyBytes (le32 0)).
Qed.

Lemma framed_bytes (m : Mem) (a v : Z) :
  ReadBytes
    (WriteUint32
       (CopyBytes m a
          (TDVMCALL_SERVICE_COMMAND_HEADER.bytes
             mTdvmcallServiceCommandHeaderTemplate))
       (a + TDVMCALL_SERVICE_COMMAND_HEADER.offset_Length) v) a 28
  = VTPM_SERVICE_GUID ++ le32 v ++ [0; 0; 0; 0] ++ ReadBytes m (a + 24) 4.
Proof.
  change 28%nat with (24 + 4)%nat.
  rewrite ReadBytes_app, outer_header_bytes, <- !app_assoc.
  do 3 f_equal.
  rewrite ReadBytes_WriteUint32_skip by sizes.
  apply ReadBytes_CopyBytes_skip.
  right. change (Z.of_nat (length (TDVMCALL_SERVICE_COMMAND_HEADER.bytes
                                     mTdvmcallServiceCommandHeaderTemplate)))
    with 24. lia.
Qed.

Lemma Read_frames_command (m : Mem) (CmdBuffer RspBuffer : Z) :
  buffers_disjoint CmdBuffer RspBuffer ->
  ReadBytes (Read_frames m CmdBuffer RspBuffer) CmdBuffer 28
  = VTPM_SERVICE_GUID ++ le32 28 ++ [0; 0; 0; 0]
    ++ [0; SERVICE_VTPM_RECEIVE_MESSAGE; 0; 0].
Proof.
  intros [D1 D2]. unfold Read_frames.
  rewrite ReadBytes_WriteUint32_skip by sizes.
  rewrite !ReadBytes_CopyBytes_skip with (d := RspBuffer) by sizes.
  rewrite ReadBytes_CopyBytes_skip
    with (d := RspBuffer + TDVMCALL_SERVICE_RESPONSE_HEADER.sizeof) by sizes.
  replace (CmdBuffer + TDVMCALL_SERVICE_COMMAND_HEADER.sizeof
           + RECEIVE_MESSAGE_COMMAND_HEADER.sizeof - CmdBuffer)
    with 28 by sizes.
  rewrite framed_bytes, le32_UINT32. do 3 f_equal.
  apply (ReadBytes_CopyBytes
           (RECEIVE_MESSAGE_COMMAND_HEADER.bytes
              mReceiveMessageCommandHeaderTemplate)).
Qed.

Lemma Read_frames_response (m : Mem) (CmdBuffer RspBuffer : Z) :
  ReadBytes (Read_frames m CmdBuffer RspBuffer) RspBuffer 28
  = VTPM_SERVICE_GUID
    ++ le32 (EFI_PAGES_TO_SIZE VTPM_DEFAULT_ALLOCATION_PAGE)
    ++ [0; 0; 0; 0] ++ [0; SERVICE_VTPM_RECEIVE_MESSAGE; 0; 0].
Proof.
  unfold Read_frames.
  rewrite (framed_bytes _ RspBuffer), le32_UINT32. do 3 f_equal.
  apply (ReadBytes_CopyBytes
           (RECEIVE_MESSAGE_RESPONSE_HEADER.bytes
              mReceiveMessageResponseHeaderTemplate)).
Qed.

Lemma Write_frames_response (m : Mem)
  (CmdBuffer RspBuffer RequestSize Request : Z) :
  ReadBytes (Write_frames m CmdBuffer RspBuffer RequestSize Request)
    RspBuffer 28
  = VTPM_SERVICE_GUID ++ le32 28 ++ [0; 0; 0; 0]
    ++ [0; SERVICE_VTPM_SEND_MESSAGE; 0; 0].
Proof.
  unfold Write_frames.
  replace (RspBuffer + TDVMCALL_SERVICE_RESPONSE_HEADER.sizeof
           + SEND_MESSAGE_RESPONSE_HEADER.sizeof - RspBuffer)
    with 28 by sizes.
  rewrite (framed_bytes _ RspBuffer), le32_UINT32. do 3 f_equal.
  apply (ReadBytes_CopyBytes
           (SEND_MESSAGE_RESPONSE_HEADER.bytes
              mSendMessageResponseHeaderTemplate)).
Qed.

Lemma Read_frames_command_Length (m : Mem) (CmdBuffer RspBuffer : Z) :
  buffers_disjoint CmdBuffer RspBuffer ->
  ReadUint32 (Read_frames m CmdBuffer RspBuffer)
    (CmdBuffer + TDVMCALL_SERVICE_COMMAND_HEADER.offset_Length)
  = 28.
Proof.
  intros [D1 D2].
  assert (E : ReadBytes (Read_frames m CmdBuffer RspBuffer)
                (CmdBuffer + TDVMCALL_SERVICE_COMMAND_HEADER.offset_Length) 4
              = le32 28).
  { unfold Read_frames.
    rewrite ReadBytes_WriteUint32_skip by sizes.
    rewrite !ReadBytes_CopyBytes_skip with (d := RspBuffer) by sizes.
    rewrite ReadBytes_CopyBytes_skip
      with (d := RspBuffer + TDVMCALL_SERVICE_RESPONSE_HEADER.sizeof) by sizes.
    replace (CmdBuffer + TDVMCALL_SERVICE_COMMAND_HEADER.sizeof
             + RECEIVE_MESSAGE_COMMAND_HEADER.sizeof - CmdBuffer)
      with 28 by sizes.
    rewrite <- le32_UINT32. apply WriteUint32_bytes. }
  rewrite (ReadUint32_bytes _ _ _ _ _ _ E), le32_value. reflexivity.
Qed.

(** X11. In a run of [VTpmContextRead] that reaches the hypercall with
    buffers on distinct pages, the command buffer the host sees holds the
    28 bytes of a receive command without payload: the service identifier,
    the outer length 28 in little-endian order, four zero bytes and the
    message header {0, 2, 0, 0}. *)
Theorem Read_command_frame {P} (pf : Platform P)
  (ResponseSize Response Timeout : Z) (w : World P)
  (CmdBuffer RspBuffer : Z) (Seen : Mem) (RetCode RetValue : Z) (Left : Mem) :
  let r := VTpmContextRead pf ResponseSize Response Timeout w in
  begins_with_call (events r) CmdBuffer RspBuffer Seen RetCode RetValue Left ->
  buffers_disjoint CmdBuffer RspBuffer ->
  ReadBytes Seen CmdBuffer 28
  = [0x93; 0x07; 0x59; 0x64; 0x52; 0x78; 0x52; 0x4e;
     0xbe; 0x45; 0xcd; 0xbb; 0x11; 0x6f; 0x20; 0xf3;
     28; 0; 0; 0;  0; 0; 0; 0;  0; 2; 0; 0]
  /\ ReadUint32 Seen (CmdBuffer + TDVMCALL_SERVICE_COMMAND_HEADER.offset_Length)
     = TDVMCALL_SERVICE_COMMAND_HEADER.sizeof
       + RECEIVE_MESSAGE_COMMAND_HEADER.sizeof.
Proof.
  intros r; subst r.
  explore_run (VTpmContextRead pf ResponseSize Response Timeout w).
  all: intros Hrun Hdis; open_call Hrun Hlog.
  all: fold (Read_frames (mem w) CmdBuffer RspBuffer).
  all: split;
    [ exact (Read_frames_command (mem w) CmdBuffer RspBuffer Hdis)
    | exact (Read_frames_command_Length (mem w) CmdBuffer RspBuffer Hdis) ].
Qed.

(** X12. The response skeleton the host sees is complete in both functions:
    the service identifier, the outer length (28 in a write, the buffer
    size 4096 in a read), a zero outer status, and the message header with
    version 0, the operation code of the function (1 in a write, 2 in a
    read), status 0 and a zero reserved byte. *)
Theorem response_skeleton_bytes {P} (pf : Platform P)
  (RequestSize Request ResponseSize Response Timeout : Z) (w : World P)
  (CmdBuffer RspBuffer : Z) (Seen : Mem) (RetCode RetValue : Z) (Left : Mem) :
  (begins_with_call
     (events (VTpmContextWrite pf RequestSize Request Timeout w))
     CmdBuffer RspBuffer Seen RetCode RetValue Left ->
   ReadBytes Seen RspBuffer 28
   = [0x93; 0x07; 0x59; 0x64; 0x52; 0x78; 0x52; 0x4e;
      0xbe; 0x45; 0xcd; 0xbb; 0x11; 0x6f; 0x20; 0xf3;
      28; 0; 0; 0;  0; 0; 0; 0;  0; 1; 0; 0])
  /\ (begins_with_call
        (events (VTpmContextRead pf ResponseSize Response Timeout w))
        CmdBuffer RspBuffer Seen RetCode RetValue Left ->
      ReadBytes Seen RspBuffer 28
      = [0x93; 0x07; 0x59; 0x64; 0x52; 0x78; 0x52; 0x4e;
         0xbe; 0x45; 0xcd; 0xbb; 0x11; 0x6f; 0x20; 0xf3;
         0; 16; 0; 0;  0; 0; 0; 0;  0; 2; 0; 0]).
Proof.
  split.
  - explore_run (VTpmContextWrite pf RequestSize Request Timeout w).
    all: intros Hrun; open_call Hrun Hlog.
    all: exact (Write_frames_response (mem w) CmdBuffer RspBuffer
                  RequestSize Request).
  - explore_run (VTpmContextRead pf ResponseSize Response Timeout w).
    all: intros Hrun; open_call Hrun Hlog.
    all: exact (Read_frames_response (mem w) CmdBuffer RspBuffer).
Qed.

(** ** A request larger than the command buffer *)

Lemma Write_frames_payload_unbounded (m : Mem)
  (CmdBuffer RspBuffer RequestSize Request i : Z) :
  0 <= i < RequestSize ->
  Request + i < CmdBuffer + 24 \/ CmdBuffer + 28 <= Request + i ->
  CmdBuffer + 28 + i < RspBuffer \/ RspBuffer + 28 <= CmdBuffer + 28 + i ->
  Write_frames m CmdBuffer RspBuffer RequestSize Request (CmdBuffer + 28 + i)
  = m (Request + i).
Proof.
  intros Hi Hsrc Hdst. unfold Write_frames.
  peel_frames.
  rewrite CopyMem_inside by sizes.
  rewrite CopyBytes_outside by sizes.
  f_equal. sizes.
Qed.

Lemma Write_frames_command_Length_wraps (m : Mem)
  (CmdBuffer RspBuffer RequestSize Request : Z) :
  buffers_disjoint CmdBuffer RspBuffer ->
  ReadUint32 (Write_frames m CmdBuffer RspBuffer RequestSize Request)
    (CmdBuffer + TDVMCALL_SERVICE_COMMAND_HEADER.offset_Length)
  = UINT32 (28 + RequestSize).
Proof.
  intros [D1 D2].
  assert (E : ReadBytes (Write_frames m CmdBuffer RspBuffer RequestSize Request)
                (CmdBuffer + TDVMCALL_SERVICE_COMMAND_HEADER.offset_Length) 4
              = le32 (28 + RequestSize)).
  { unfold Write_frames.
    rewrite ReadBytes_WriteUint32_skip by sizes.
    rewrite !ReadBytes_CopyBytes_skip with (d := RspBuffer) by sizes.
    rewrite ReadBytes_CopyBytes_skip
      with (d := RspBuffer + TDVMCALL_SERVICE_RESPONSE_HEADER.sizeof) by sizes.
    replace (CmdBuffer + TDVMCALL_SERVICE_COMMAND_HEADER.sizeof
             + SEND_MESSAGE_COMMAND_HEADER.sizeof + RequestSize - CmdBuffer)
      with (28 + RequestSize) by sizes.
    rewrite <- le32_UINT32. apply WriteUint32_bytes. }
  rewrite (ReadUint32_bytes _ _ _ _ _ _ E). apply le32_value.
Qed.

(** X13. [VTpmContextWrite] does not compare [RequestSize] with the size of
    the command buffer. Whatever [RequestSize] is, byte [i] of the request
    is stored at offset 28 + i of the command buffer (where the response
    skeleton does not cover it), and the outer [Length] field holds 28 +
    [RequestSize] truncated to 32 bits. For a request of more than 4096 -
    28 bytes the store runs past the one page of the buffer: the byte at
    [CmdBuffer] + 4096, the first address after the page, receives byte
    4068 of the request. *)
Theorem Write_copies_without_bound {P} (pf : Platform P)
  (RequestSize Request Timeout : Z) (w : World P)
  (CmdBuffer RspBuffer : Z) (Seen : Mem) (RetCode RetValue : Z) (Left : Mem) :
  let r := VTpmContextWrite pf RequestSize Request Timeout w in
  let past := CmdBuffer + EFI_PAGES_TO_SIZE VTPM_DEFAULT_ALLOCATION_PAGE in
  begins_with_call (events r) CmdBuffer RspBuffer Seen RetCode RetValue Left ->
  buffers_disjoint CmdBuffer RspBuffer ->
  ReadUint32 Seen (CmdBuffer + TDVMCALL_SERVICE_COMMAND_HEADER.offset_Length)
  = UINT32 (28 + RequestSize)
  /\ (forall i,
        0 <= i < RequestSize ->
        Request + i < CmdBuffer + 24 \/ CmdBuffer + 28 <= Request + i ->
        CmdBuffer + 28 + i < RspBuffer \/ RspBuffer + 28 <= CmdBuffer + 28 + i ->
        Seen (CmdBuffer + 28 + i) = mem w (Request + i))
  /\ (VTPM_DEFAULT_MAX_BUFFER_SIZE - 28 < RequestSize ->
      outside_buffer (Request + (VTPM_DEFAULT_MAX_BUFFER_SIZE - 28)) CmdBuffer ->
      past < RspBuffer \/ RspBuffer + 28 <= past ->
      outside_buffer past CmdBuffer
      /\ Seen past = mem w (Request + (VTPM_DEFAULT_MAX_BUFFER_SIZE - 28))).
Proof.
  intros r past; subst r past.
  explore_run (VTpmContextWrite pf RequestSize Request Timeout w).
  all: intros Hrun Hdis; open_call Hrun Hlog.
  all: fold (Write_frames (mem w) CmdBuffer RspBuffer RequestSize Request).
  all: split; [apply Write_frames_command_Length_wraps; exact Hdis|].
  all: split;
    [intros i Hi Hsrc Hdst; apply Write_frames_payload_unbounded; assumption|].
  all: unfold VTPM_DEFAULT_MAX_BUFFER_SIZE.
  all: intros Hbig Hsrc Hdst.
  all: split; [right; sizes|].
  all: replace (CmdBuffer + EFI_PAGES_TO_SIZE VTPM_DEFAULT_ALLOCATION_PAGE)
         with (CmdBuffer + 28 + (4096 - 28)) by sizes.
  all: apply Write_frames_payload_unbounded; [lia | sizes | sizes].
Qed.

(** ** A write followed by a read *)

(** What the host sees in a write, and the status of an accepted write. *)
Lemma Write_accepted_run {P} (pf : Platform P)
  (RequestSize Request Timeout : Z) (w : World P)
  (CmdBuffer RspBuffer : Z) (Seen Left : Mem) :
  let r := VTpmContextWrite pf RequestSize Request Timeout w in
  begins_with_call (events r) CmdBuffer RspBuffer Seen 0 0 Left ->
  both_statuses_zero Left RspBuffer ->
  value r = EFI_SUCCESS
  /\ Seen = Write_frames (mem w) CmdBuffer RspBuffer RequestSize Request.
Proof.
  intros r; subst r. unfold both_statuses_zero.
  explore_run (VTpmContextWrite pf RequestSize Request Timeout w).
  all: intros Hrun [HSt HMsg]; open_call Hrun Hlog.
  all: first [ split; reflexivity
             | exfalso; tests_as_equations; contradiction ].
Qed.

(** The outcome of an accepted read whose payload fits the capacity. *)
Lemma Read_accepted_run {P} (pf : Platform P)
  (ResponseSize Response Timeout : Z) (w : World P)
  (CmdBuffer RspBuffer : Z) (Seen Left : Mem) :
  let r := VTpmContextRead pf ResponseSize Response Timeout w in
  let R :=
    payload_length
      (ReadUint32 Left
         (RspBuffer + TDVMCALL_SERVICE_RESPONSE_HEADER.offset_Length)) in
  begins_with_call (events r) CmdBuffer RspBuffer Seen 0 0 Left ->
  both_statuses_zero Left RspBuffer ->
  R <= ResponseSize ->
  value r = (EFI_SUCCESS, R)
  /\ mem (world r) = CopyMem Left Response (RspBuffer + 28) R.
Proof.
  intros r R; subst r R. unfold both_statuses_zero.
  explore_run (VTpmContextRead pf ResponseSize Response Timeout w).
  all: intros Hrun [HSt HMsg] Hcap; open_call Hrun Hlog.
  all: first [ split; reflexivity
             | exfalso; tests_as_equations; unfold payload_length in Hcap;
               first [contradiction | lia] ].
Qed.

(** X14. Round trip. Take a [VTpmContextWrite] of a request that fits the
    command buffer, accepted by the host, and a [VTpmContextRead] that
    follows it and is accepted too. If the response the host leaves for the
    read carries the outer length and the payload bytes the host saw in
    the command buffer of the write, and the capacity is at least
    [RequestSize], then both calls return [EFI_SUCCESS], the read reports
    [RequestSize] bytes, and [Response] holds the bytes of the request,
    byte for byte. *)
Theorem Write_then_Read_round_trip {P} (pf : Platform P)
  (RequestSize Request ResponseSize Response Timeout : Z) (w : World P)
  (CmdW RspW : Z) (SeenW LeftW : Mem) (CmdR RspR : Z) (SeenR LeftR : Mem) :
  let wr := VTpmContextWrite pf RequestSize Request Timeout w in
  let rd := VTpmContextRead pf ResponseSize Response Timeout (world wr) in
  begins_with_call (events wr) CmdW RspW SeenW 0 0 LeftW ->
  both_statuses_zero LeftW RspW ->
  begins_with_call (events rd) CmdR RspR SeenR 0 0 LeftR ->
  both_statuses_zero LeftR RspR ->
  buffers_disjoint CmdW RspW ->
  0 <= RequestSize <= VTPM_DEFAULT_MAX_BUFFER_SIZE - 28 ->
  (forall i, 0 <= i < RequestSize -> outside_buffer (Request + i) CmdW) ->
  ReadUint32 LeftR (RspR + TDVMCALL_SERVICE_RESPONSE_HEADER.offset_Length)
  = ReadUint32 SeenW (CmdW + TDVMCALL_SERVICE_COMMAND_HEADER.offset_Length) ->
  (forall i, 0 <= i < RequestSize ->
     LeftR (RspR + 28 + i) = SeenW (CmdW + 28 + i)) ->
  RequestSize <= ResponseSize ->
  value wr = EFI_SUCCESS
  /\ value rd = (EFI_SUCCESS, RequestSize)
  /\ (forall i, 0 <= i < RequestSize ->
      mem (world rd) (Response + i) = mem w (Request + i)).
Proof.
  intros wr rd HW HWst HR HRst Hdis Hsize Hsrc HLen Hpay Hcap.
  destruct (Write_accepted_run pf RequestSize Request Timeout w
              CmdW RspW SeenW LeftW HW HWst) as [HWv HSeen].
  assert (HL : ReadUint32 LeftR
                 (RspR + TDVMCALL_SERVICE_RESPONSE_HEADER.offset_Length)
               = 28 + RequestSize).
  { rewrite HLen, HSeen. apply Write_frames_command_Length; [exact Hdis|].
    unfold VTPM_DEFAULT_MAX_BUFFER_SIZE in Hsize. lia. }
  assert (HR' : payload_length
                  (ReadUint32 LeftR
                     (RspR + TDVMCALL_SERVICE_RESPONSE_HEADER.offset_Length))
                = RequestSize).
  { rewrite HL, payload_length_exact; [lia|].
    unfold VTPM_DEFAULT_MAX_BUFFER_SIZE in Hsize. lia. }
  destruct (Read_accepted_run pf ResponseSize Response Timeout (world wr)
              CmdR RspR SeenR LeftR HR HRst) as [HRv HRm].
  { rewrite HR'. exact Hcap. }
  rewrite HR' in HRv, HRm.
  split; [exact HWv|]. split; [exact HRv|].
  intros i Hi. fold rd in HRm. rewrite HRm.
  rewrite CopyMem_inside by lia.
  replace (RspR + 28 + (Response + i - Response)) with (RspR + 28 + i) by lia.
  rewrite Hpay by exact Hi. rewrite HSeen.
  apply Write_frames_payload; auto. lia.
Qed.

(** ** A response longer than the response buffer *)

(** X15. [VTpmContextRead] does not compare the outer [Length] of the
    response with the size of the response buffer. When the exchange is
    accepted, the host reports a [Length] above 4096 and the capacity
    suffices, the function returns [EFI_SUCCESS] with [*ResponseSize] =
    [Length] - 28 and copies that many bytes from offset 28 of the
    response buffer: the bytes from offset 4096 on come from beyond the
    buffer's page. *)
Theorem Read_copies_past_the_buffer {P} (pf : Platform P)
  (ResponseSize Response Timeout : Z) (w : World P)
  (CmdBuffer RspBuffer : Z) (Seen Left : Mem) :
  let r := VTpmContextRead pf ResponseSize Response Timeout w in
  let Length :=
    ReadUint32 Left (RspBuffer + TDVMCALL_SERVICE_RESPONSE_HEADER.offset_Length) in
  let size := EFI_PAGES_TO_SIZE VTPM_DEFAULT_ALLOCATION_PAGE in
  begins_with_call (events r) CmdBuffer RspBuffer Seen 0 0 Left ->
  both_statuses_zero Left RspBuffer ->
  size < Length ->
  Length - 28 <= ResponseSize ->
  value r = (EFI_SUCCESS, Length - 28)
  /\ (forall i, size - 28 <= i < Length - 28 ->
      outside_buffer (RspBuffer + 28 + i) RspBuffer
      /\ mem (world r) (Response + i) = Left (RspBuffer + 28 + i)).
Proof.
  intros r Length size Hrun Hst Hlong Hcap. subst size.
  change (EFI_PAGES_TO_SIZE VTPM_DEFAULT_ALLOCATION_PAGE) with 4096 in *.
  assert (HR : payload_length Length = Length - 28).
  { apply payload_length_exact. subst Length.
    match goal with |- context [ReadUint32 ?m ?a] =>
      pose proof (ReadUint32_range m a) end. lia. }
  destruct (Read_accepted_run pf ResponseSize Response Timeout w
              CmdBuffer RspBuffer Seen Left Hrun Hst) as [Hv Hm].
  { fold Length. rewrite HR. exact Hcap. }
  fold Length in Hv, Hm. rewrite HR in Hv, Hm. fold r in Hv, Hm.
  split; [exact Hv|].
  intros i Hi. split; [right; sizes|].
  rewrite Hm, CopyMem_inside by lia. f_equal. lia.
Qed.


(** ** What the platform learns of a read *)

(** Run a second program term along the path of the first: the answers of
    the collaborators and the outcomes of the tests are those already
    named. *)
Ltac known_call H :=
  match type of H with
  | context [AllocatePages ?pf ?n ?s] =>
      match goal with E : AllocatePages pf n s = _ |- _ => rewrite E in H end
  | context [MemEncryptTdxSetPageSharedBit ?pf ?a ?b ?c ?s] =>
      match goal with
      | E : MemEncryptTdxSetPageSharedBit pf a b c s = _ |- _ => rewrite E in H
      end
  | context [TdSharedPageMask ?pf ?s] =>
      match goal with E : TdSharedPageMask pf s = _ |- _ => rewrite E in H end
  | context [TdVmCall ?pf ?l ?a ?b ?c ?d ?m ?s] =>
      match goal with
      | E : TdVmCall pf l a b c d m s = _ |- _ => rewrite E in H
      end
  | context [FreePages ?pf ?a ?b ?s] =>
      match goal with E : _ = FreePages pf a b s |- _ => rewrite <- E in H end
  end; reduce_run H.

Ltac replay H :=
  unfold_program H; reduce_run H;
  repeat first [ known_call H | fork_path H ].

Lemma Read_log_ignores_destination {P} (pf : Platform P)
  (ResponseSize Response Timeout : Z) (w : World P) :
  let r := VTpmContextRead pf ResponseSize Response Timeout w in
  let r0 := VTpmContextRead pf 0 0 0 w in
  events r = events r0 /\ plat (world r) = plat (world r0).
Proof.
  intros r r0; subst r.
  remember r0 as r' eqn:E0. subst r0.
  explore_run (VTpmContextRead pf ResponseSize Response Timeout w).
  all: replay E0; subst r'.
  all: try match goal with
       | H : false = true |- _ => discriminate H
       | H : true = false |- _ => discriminate H
       end.
  all: split; reflexivity.
Qed.

(** X19. What the platform and the host observe of a [VTpmContextRead]
    does not depend on the capacity and the destination the caller
    passes. Two reads from the same world that differ in [*ResponseSize],
    [Response] and [Timeout] issue the same collaborator calls with the
    same arguments and answers, show the host the same memory, and leave
    the platform in the same state. *)
Theorem Read_exchange_ignores_destination {P} (pf : Platform P)
  (ResponseSize1 Response1 Timeout1 ResponseSize2 Response2 Timeout2 : Z)
  (w : World P) :
  let r1 := VTpmContextRead pf ResponseSize1 Response1 Timeout1 w in
  let r2 := VTpmContextRead pf ResponseSize2 Response2 Timeout2 w in
  events r1 = events r2 /\ plat (world r1) = plat (world r2).
Proof.
  intros r1 r2; subst r1 r2.
  destruct (Read_log_ignores_destination pf ResponseSize1 Response1 Timeout1 w)
    as [E1 P1].
  destruct (Read_log_ignores_destination pf ResponseSize2 Response2 Timeout2 w)
    as [E2 P2].
  split; [rewrite E1, E2 | rewrite P1, P2]; reflexivity.
Qed.

(** ** Release on every path *)

Ltac read_exit :=
  unfold cleared; read_log.

Ltac impossible_path :=
  try match goal with
      | H : false = true |- _ => discriminate H
      | H : true = false |- _ => discriminate H
      end.

Ltac exit_shape :=
  unfold exit_releases; eexists;
  split; [cbn [app]; reflexivity|];
  split; [reflexivity|];
  split; [read_exit; reflexivity|];
  split; [read_exit; reflexivity|];
  read_exit; reflexivity.

(** C7 (amended). In every run of [VTpmContextWrite] and of
    [VTpmContextRead], the code at the exit label hands every buffer the
    run acquired to [FreeSharedBuffer], once and in the order of
    acquisition, and does nothing else; the pages of a buffer go back to
    the allocator exactly when its shared attribute was cleared with
    success, and stay allocated otherwise. The status returned is the one
    control reached the label with, whatever the releases answer, and
    memory is as it was at the label: the value of [FreeSharedBuffer] is
    dropped, so a failed release is not reported. *)
Theorem buffers_released_on_every_path {P} (pf : Platform P)
  (RequestSize Request ResponseSize Response Timeout : Z) (w : World P) :
  let wr := VTpmContextWrite pf RequestSize Request Timeout w in
  let wb := VTpmContextWrite_body pf RequestSize Request Timeout w in
  let rd := VTpmContextRead pf ResponseSize Response Timeout w in
  let rb := VTpmContextRead_body pf ResponseSize Response Timeout w in
  exit_releases (events wb) (events wr)
  /\ value wr = snd (value wb)
  /\ mem (world wr) = mem (world wb)
  /\ exit_releases (events rb) (events rd)
  /\ value rd = (snd (fst (value rb)), snd (value rb))
  /\ mem (world rd) = mem (world rb)
  /\ (forall CmdBuffer RspBuffer Status (w' : World P),
        value (QuitVTPMContextWrite pf CmdBuffer RspBuffer Status w') = Status
        /\ value (QuitVTPMContextRead pf CmdBuffer RspBuffer Status w') = Status).
Proof.
  intros wr wb rd rb; subst wr rd.
  assert (HW : exit_releases (events wb)
                 (events (VTpmContextWrite pf RequestSize Request Timeout w))
               /\ value (VTpmContextWrite pf RequestSize Request Timeout w)
                  = snd (value wb)
               /\ mem (world (VTpmContextWrite pf RequestSize Request Timeout w))
                  = mem (world wb)).
  { remember wb as b eqn:Eb. subst wb.
    explore_run (VTpmContextWrite pf RequestSize Request Timeout w).
    all: replay Eb; subst b; impossible_path.
    all: cbn [value world events mem fst snd].
    all: split; [exit_shape | split; reflexivity]. }
  assert (HR : exit_releases (events rb)
                 (events (VTpmContextRead pf ResponseSize Response Timeout w))
               /\ value (VTpmContextRead pf ResponseSize Response Timeout w)
                  = (snd (fst (value rb)), snd (value rb))
               /\ mem (world (VTpmContextRead pf ResponseSize Response Timeout w))
                  = mem (world rb)).
  { remember rb as b eqn:Eb. subst rb.
    explore_run (VTpmContextRead pf ResponseSize Response Timeout w).
    all: replay Eb; subst b; impossible_path.
    all: cbn [value world events mem fst snd].
    all: split; [exit_shape | split; reflexivity]. }
  destruct HW as (W1 & W2 & W3). destruct HR as (R1 & R2 & R3).
  split; [exact W1|]. split; [exact W2|]. split; [exact W3|].
  split; [exact R1|]. split; [exact R2|]. split; [exact R3|].
  intros CmdBuffer RspBuffer Status w'. split.
  - explore_run (QuitVTPMContextWrite pf CmdBuffer RspBuffer Status w').
    all: reflexivity.
  - explore_run (QuitVTPMContextRead pf CmdBuffer RspBuffer Status w').
    all: reflexivity.
Qed.

(** C7, counterexample. The same write on two platforms that differ only
    in the answer to the requests to clear the shared attribute: granted
    on one, refused with [EFI_ABORTED] on the other. On the second, both
    releases fail and neither page is given back, yet the call returns
    [EFI_SUCCESS] and leaves the memory the first leaves: no test on what
    the caller receives tells the failed release, which is not
    reported. *)
Lemma release_failure_is_not_reported :
  let granted :=
    VTpmContextWrite (MockPlatform acknowledging_host) 4 0x5000
      VMM_SPDM_TIMEOUT (mock_world acknowledging_host payload_DEADBEEF) in
  let refused :=
    VTpmContextWrite (MockPlatform stubborn_host) 4 0x5000
      VMM_SPDM_TIMEOUT (mock_world stubborn_host payload_DEADBEEF) in
  refused_releases (events granted) = []
  /\ refused_releases (events refused)
     = [(0x100000, EFI_ABORTED); (0x200000, EFI_ABORTED)]
  /\ acquired (events refused) = [0x100000; 0x200000]
  /\ freed (events refused) = []
  /\ ms_live (plat (world refused)) = [0x200000; 0x100000]
  /\ value refused = EFI_SUCCESS
  /\ value refused = value granted
  /\ mem (world refused) = mem (world granted)
  /\ ~ (exists report : Z -> Mem -> bool,
          report (value granted) (mem (world granted)) = false
          /\ report (value refused) (mem (world refused)) = true).
Proof.
  intros granted refused.
  pose (Seen := Write_frames payload_DEADBEEF 0x100000 0x200000 4 0x5000).
  assert (Hv : value refused = value granted) by reflexivity.
  assert (Hg : mem (world granted) = mock_Left acknowledging_host Seen 0x200000)
    by reflexivity.
  assert (Hr : mem (world refused) = mock_Left acknowledging_host Seen 0x200000)
    by reflexivity.
  assert (Hm : mem (world refused) = mem (world granted))
    by (rewrite Hg; exact Hr).
  split; [reflexivity|]. split; [reflexivity|]. split; [reflexivity|].
  split; [reflexivity|]. split; [reflexivity|]. split; [reflexivity|].
  split; [exact Hv|]. split; [exact Hm|].
  intros (report & Hok & Hko). rewrite Hv, Hm, Hok in Hko. discriminate Hko.
Qed.

(** ** What a read leaves in memory *)

(** X20. The only store [VTpmContextRead] makes outside the pages it
    allocated is the copy of the payload: on every path, an address that
    stays the caller's holds on return what it held at entry, unless the
    call succeeded and the address is one of the [*ResponseSize] bytes at
    [Response]. In particular a read that fails for any reason, capacity
    included, leaves the caller's memory as it was. *)
Theorem Read_stores_only_the_payload {P} (pf : Platform P)
  (ResponseSize Response Timeout : Z) (w : World P) (a : Z) :
  let r := VTpmContextRead pf ResponseSize Response Timeout w in
  caller_owned (events r) a ->
  (fst (value r) = EFI_SUCCESS ->
   a < Response \/ Response + snd (value r) <= a) ->
  mem (world r) a = mem w a.
Proof.
  intros r; subst r.
  explore_run (VTpmContextRead pf ResponseSize Response Timeout w).
  all: intros [Hpages Hhost] Hcopy; try reflexivity.
  all: try (rewrite CopyMem_outside by (apply Hcopy; reflexivity)).
  all: try (erewrite Hhost by in_log).
  all: match goal with
       | |- context [CopyBytes (mem _) (?c + _) _] =>
           assert (Hc : outside_buffer a c) by (eapply Hpages; in_log)
       end.
  all: match goal with
       | |- context [WriteUint32 _ (?c + _) (UINT32 (EFI_PAGES_TO_SIZE _))] =>
           assert (Hr : outside_buffer a c) by (eapply Hpages; in_log)
       end.
  all: clear Hpages Hhost Hcopy.
  all: peel_frames; reflexivity.
Qed.

(** ** The dumps *)

Lemma for_Index_snd (Body : Z -> list DebugCall) (n : nat) :
  forall Index, snd (for_Index n Index Body) = Index + Z.of_nat n.
Proof.
  induction n as [|n IH]; intros Index; cbn [for_Index snd]; [lia|].
  rewrite IH. lia.
Qed.

Lemma flat_map_seq_shift {A} (f : nat -> list A) (n : nat) :
  forall s, flat_map f (seq (S s) n) = flat_map (fun k => f (S k)) (seq s n).
Proof.
  induction n as [|n IH]; intros s; [reflexivity|].
  cbn [seq flat_map]. now rewrite IH.
Qed.

Lemma for_Index_flat_map {A} (f : DebugCall -> list A)
  (Body : Z -> list DebugCall) (n : nat) :
  forall Index,
    flat_map f (fst (for_Index n Index Body))
    = flat_map (fun k => flat_map f (Body (Index + Z.of_nat k))) (seq 0 n).
Proof.
  induction n as [|n IH]; intros Index; [reflexivity|].
  cbn [for_Index fst seq flat_map]. rewrite flat_map_app, IH, Z.add_0_r.
  f_equal. rewrite flat_map_seq_shift.
  apply flat_map_ext. intros k. do 2 f_equal. lia.
Qed.

Lemma ReadBytes_flat_map (m : Mem) (n : nat) :
  forall a, ReadBytes m a n
            = flat_map (fun k => [ReadUint8 m (a + Z.of_nat k)]) (seq 0 n).
Proof.
  induction n as [|n IH]; intros a; [reflexivity|].
  cbn [ReadBytes seq flat_map app]. rewrite Z.add_0_r. f_equal.
  rewrite IH, flat_map_seq_shift.
  apply flat_map_ext. intros k. do 2 f_equal. lia.
Qed.

Lemma InternalDumpData_bytes (m : Mem) (Data Size : Z) :
  dumped_bytes (InternalDumpData m Data Size)
  = ReadBytes m Data (Z.to_nat Size).
Proof.
  unfold InternalDumpData, dumped_bytes.
  rewrite for_Index_flat_map, ReadBytes_flat_map.
  apply flat_map_ext. intros k. rewrite Z.add_0_l.
  cbn [flat_map app fst snd String.eqb Ascii.eqb Bool.eqb].
  destruct (Z.of_nat k =? 15); reflexivity.
Qed.


Lemma dumped_bytes_app (a b : list DebugCall) :
  dumped_bytes (a ++ b) = dumped_bytes a ++ dumped_bytes b.
Proof. apply flat_map_app. Qed.

Lemma dumped_bytes_row (label : list Z) (body : list DebugCall) :
  dumped_bytes ([("%04x: "%string, label)] ++ body ++ [(LF, [])])
  = dumped_bytes body.
Proof.
  rewrite !dumped_bytes_app.
  change (dumped_bytes [("%04x: "%string, label)]) with (@nil Z).
  change (dumped_bytes [(LF, [])]) with (@nil Z).
  now rewrite app_nil_r.
Qed.

Lemma DumpHex_rows_bytes (m : Mem) (Data : Z) (n : nat) :
  forall Index,
    dumped_bytes
      (fst (for_Index n Index
              (fun Index =>
                 [("%04x: "%string, [Index * COLUME_SIZE])]
                 ++ InternalDumpData m (Data + Index * COLUME_SIZE) COLUME_SIZE
                 ++ [(LF, [])])))
    = ReadBytes m (Data + Index * COLUME_SIZE) (n * 32).
Proof.
  induction n as [|n IH]; intros Index; [reflexivity|].
  cbn [for_Index fst].
  rewrite dumped_bytes_app, dumped_bytes_row, IH, InternalDumpData_bytes.
  change (S n * 32)%nat with (32 + n * 32)%nat. rewrite ReadBytes_app.
  f_equal. f_equal. unfold COLUME_SIZE. lia.
Qed.

(** X16. [VmmSpdmVTpmDumpHex] shows the [Size] bytes at [Data], each once and
    in address order, and no byte beyond them. *)
Theorem DumpHex_shows_every_byte (m : Mem) (Data Size : Z) :
  0 <= Size ->
  dumped_bytes (VmmSpdmVTpmDumpHex m Data Size)
  = ReadBytes m Data (Z.to_nat Size).
Proof.
  intros HSize. unfold VmmSpdmVTpmDumpHex. cbv zeta.
  rewrite for_Index_snd, Z.add_0_l, dumped_bytes_app, DumpHex_rows_bytes.
  pose proof (Z.div_mod Size COLUME_SIZE) as Hdm.
  pose proof (Z.mod_pos_bound Size COLUME_SIZE) as Hmod.
  pose proof (Z.div_pos Size COLUME_SIZE) as Hdiv.
  remember (Size / COLUME_SIZE) as Count eqn:ECount.
  remember (Size mod COLUME_SIZE) as Left eqn:ELeft.
  unfold COLUME_SIZE in Hdm, Hmod, Hdiv.
  replace (Z.to_nat Size) with (Z.to_nat Count * 32 + Z.to_nat Left)%nat by lia.
  rewrite ReadBytes_app. f_equal; [f_equal; lia|].
  replace (Data + Z.of_nat (Z.to_nat Count * 32))
    with (Data + Z.of_nat (Z.to_nat Count) * COLUME_SIZE)
    by (unfold COLUME_SIZE; lia).
  destruct (Z.eqb_spec Left 0) as [E | E]; cbn [negb].
  - rewrite E. reflexivity.
  - rewrite dumped_bytes_row. apply InternalDumpData_bytes.
Qed.

Lemma row_labels_app (a b : list DebugCall) :
  row_labels (a ++ b) = row_labels a ++ row_labels b.
Proof. apply flat_map_app. Qed.

Lemma count_format_app (f : string) (a b : list DebugCall) :
  count_format f (a ++ b) = (count_format f a + count_format f b)%nat.
Proof. unfold count_format. now rewrite filter_app, length_app. Qed.

Lemma InternalDumpData_no_label (m : Mem) (Data Size : Z) :
  row_labels (InternalDumpData m Data Size) = [].
Proof.
  unfold InternalDumpData, row_labels. rewrite for_Index_flat_map.
  induction (seq 0 (Z.to_nat Size)) as [|k l IH]; [reflexivity|].
  cbn [flat_map]. rewrite IH, app_nil_r.
  destruct (0 + Z.of_nat k =? 15); reflexivity.
Qed.

Lemma InternalDumpData_count (f : string) (m : Mem) (Data : Z) (n : nat) :
  forall Index,
    count_format f
      (fst (for_Index n Index
              (fun Index =>
                 [("%02x "%string, [ReadUint8 m (Data + Index)])]
                 ++ (if Index =? 15 then [("|"%string, [])] else []))))
    = ((if String.eqb "%02x " f then n else 0)
       + (if String.eqb "|" f
          then if ((Index <=? 15) && (15 <? Index + Z.of_nat n))%Z then 1 else 0
          else 0))%nat.
Proof.
  induction n as [|n IH]; intros Index.
  - cbn [for_Index fst]. unfold count_format. cbn [filter length].
    replace ((Index <=? 15) && (15 <? Index + Z.of_nat 0)) with false
      by (destruct (Z.leb_spec Index 15), (Z.ltb_spec 15 (Index + Z.of_nat 0));
          cbn [andb]; try reflexivity; lia).
    destruct (String.eqb "%02x " f), (String.eqb "|" f); reflexivity.
  - cbn [for_Index fst]. rewrite !count_format_app, IH.
    unfold count_format at 1 2.
    destruct (Z.eqb_spec Index 15) as [E | E];
      cbn [filter fst length];
      rewrite (String.eqb_sym _ f);
      try rewrite (String.eqb_sym "|" f);
      destruct (String.eqb f "%02x "), (String.eqb f "|");
      cbn [length Nat.add];
      destruct (Z.leb_spec Index 15), (Z.ltb_spec 15 (Index + Z.of_nat (S n))),
        (Z.leb_spec (Index + 1) 15),
        (Z.ltb_spec 15 (Index + 1 + Z.of_nat n));
      cbn [andb]; lia.
Qed.

Lemma InternalDumpData_no_LF (m : Mem) (Data Size : Z) :
  count_format LF (InternalDumpData m Data Size) = 0%nat.
Proof. unfold InternalDumpData. rewrite InternalDumpData_count. reflexivity. Qed.

Lemma InternalDumpData_separator (m : Mem) (Data Size : Z) :
  count_format "|" (InternalDumpData m Data Size)
  = if 16 <=? Size then 1%nat else 0%nat.
Proof.
  unfold InternalDumpData. rewrite InternalDumpData_count.
  change (String.eqb "%02x " "|") with false.
  change (String.eqb "|" "|") with true.
  cbn [Nat.add Z.leb Z.compare].
  destruct (Z.ltb_spec 15 (0 + Z.of_nat (Z.to_nat Size))), (Z.leb_spec 16 Size);
    try reflexivity; lia.
Qed.

Lemma row_labels_row (label : Z) (body : list DebugCall) :
  row_labels ([("%04x: "%string, [label])] ++ body ++ [(LF, [])])
  = label :: row_labels body.
Proof.
  rewrite !row_labels_app.
  change (row_labels [("%04x: "%string, [label])]) with [label].
  change (row_labels [(LF, [])]) with (@nil Z).
  now rewrite app_nil_r.
Qed.

Lemma count_LF_row (label : list Z) (body : list DebugCall) :
  count_format LF ([("%04x: "%string, label)] ++ body ++ [(LF, [])])
  = S (count_format LF body).
Proof.
  rewrite !count_format_app.
  change (count_format LF [("%04x: "%string, label)]) with 0%nat.
  change (count_format LF [(LF, [])]) with 1%nat.
  lia.
Qed.

Lemma count_separator_row (label : list Z) (body : list DebugCall) :
  count_format "|" ([("%04x: "%string, label)] ++ body ++ [(LF, [])])
  = count_format "|" body.
Proof.
  rewrite !count_format_app.
  change (count_format "|" [("%04x: "%string, label)]) with 0%nat.
  change (count_format "|" [(LF, [])]) with 0%nat.
  lia.
Qed.

Lemma DumpHex_rows_layout (m : Mem) (Data : Z) (n : nat) :
  forall Index,
    let out :=
      fst (for_Index n Index
             (fun Index =>
                [("%04x: "%string, [Index * COLUME_SIZE])]
                ++ InternalDumpData m (Data + Index * COLUME_SIZE) COLUME_SIZE
                ++ [(LF, [])])) in
    row_labels out
    = map (fun k => (Index + Z.of_nat k) * COLUME_SIZE) (seq 0 n)
    /\ count_format LF out = n
    /\ count_format "|" out = n.
Proof.
  cbv zeta. induction n as [|n IH]; intros Index.
  - repeat split.
  - cbn [for_Index fst]. destruct (IH (Index + 1)) as (IH1 & IH2 & IH3).
    split; [|split].
    + rewrite row_labels_app, row_labels_row, IH1, InternalDumpData_no_label.
      cbn [seq map app]. rewrite Z.add_0_r, <- seq_shift, map_map.
      f_equal. apply map_ext. intros k. f_equal. lia.
    + rewrite count_format_app, count_LF_row, IH2, InternalDumpData_no_LF.
      reflexivity.
    + rewrite count_format_app, count_separator_row, IH3,
        InternalDumpData_separator.
      reflexivity.
Qed.

Lemma for_Index_fst (Body : Z -> list DebugCall) (n : nat) :
  forall Index,
    fst (for_Index n Index Body)
    = flat_map (fun k => Body (Index + Z.of_nat k)) (seq 0 n).
Proof.
  induction n as [|n IH]; intros Index; [reflexivity|].
  cbn [for_Index fst seq flat_map]. rewrite IH, Z.add_0_r, flat_map_seq_shift.
  f_equal. apply flat_map_ext. intros k. f_equal. lia.
Qed.

Lemma flat_map_seq_from {A} (f : nat -> list A) (a b : nat) :
  flat_map f (seq a b) = flat_map (fun k => f (a + k)%nat) (seq 0 b).
Proof.
  revert f. induction a as [|a IH]; intros f; [reflexivity|].
  rewrite flat_map_seq_shift, IH. reflexivity.
Qed.

Lemma flat_map_ext_seq {A} (f g : nat -> list A) (n : nat) :
  (forall k, (k < n)%nat -> f k = g k) ->
  flat_map f (seq 0 n) = flat_map g (seq 0 n).
Proof.
  intros H. rewrite !flat_map_concat_map. f_equal.
  apply map_ext_in. intros k Hk. apply in_seq in Hk. apply H. lia.
Qed.

(** The iterations of [InternalDumpData] that do not meet index 15 print
    bytes only. *)
Lemma InternalDumpData_plain (m : Mem) (Data : Z) (n : nat) :
  forall Index,
    (forall k, (k < n)%nat -> Index + Z.of_nat k <> 15) ->
    @flat_map nat DebugCall
      (fun k =>
         [("%02x "%string, [ReadUint8 m (Data + (Index + Z.of_nat k))])]
         ++ (if Index + Z.of_nat k =? 15 then [("|"%string, [])] else []))
      (seq 0 n)
    = map (fun b => ("%02x "%string, [b])) (ReadBytes m (Data + Index) n).
Proof.
  induction n as [|n IH]; intros Index H; [reflexivity|].
  cbn [seq flat_map ReadBytes map]. rewrite flat_map_seq_shift.
  destruct (Z.eqb_spec (Index + Z.of_nat 0) 15) as [E | _];
    [elim (H 0%nat (Nat.lt_0_succ n) E)|].
  cbn [app]. f_equal; [do 3 f_equal; lia|].
  replace (Data + Index + 1) with (Data + (Index + 1)) by lia.
  rewrite <- IH by (intros k Hk; specialize (H (S k)); lia).
  apply flat_map_ext. intros k.
  replace (Index + Z.of_nat (S k)) with (Index + 1 + Z.of_nat k) by lia.
  reflexivity.
Qed.

(** X17. A dump of [Size] bytes is the sequence of its rows, one for
    every started group of 32 bytes, in order. Row [k] is one label call
    with the offset 32 [k] of its first byte, then the dump by
    [InternalDumpData] of the min(32, [Size] - 32 [k]) bytes at that
    offset, then one newline call; and [InternalDumpData] prints neither
    a label nor a newline. So every row begins with its label and ends
    with its only newline, and nothing is printed for an empty buffer. *)
Theorem DumpHex_row_layout (m : Mem) (Data Size : Z) :
  0 <= Size ->
  let rows := Z.to_nat ((Size + (COLUME_SIZE - 1)) / COLUME_SIZE) in
  VmmSpdmVTpmDumpHex m Data Size
  = flat_map
      (fun k =>
         let offset := Z.of_nat k * COLUME_SIZE in
         [("%04x: "%string, [offset])]
         ++ InternalDumpData m (Data + offset)
              (Z.min COLUME_SIZE (Size - offset))
         ++ [(LF, [])])
      (seq 0 rows)
  /\ (forall D S,
        row_labels (InternalDumpData m D S) = []
        /\ count_format LF (InternalDumpData m D S) = 0%nat)
  /\ (Size = 0 -> VmmSpdmVTpmDumpHex m Data Size = []).
Proof.
  intros HSize rows; subst rows.
  assert (Hrows :
    VmmSpdmVTpmDumpHex m Data Size
    = flat_map
        (fun k =>
           let offset := Z.of_nat k * COLUME_SIZE in
           [("%04x: "%string, [offset])]
           ++ InternalDumpData m (Data + offset)
                (Z.min COLUME_SIZE (Size - offset))
           ++ [(LF, [])])
        (seq 0 (Z.to_nat ((Size + (COLUME_SIZE - 1)) / COLUME_SIZE)))).
  { unfold VmmSpdmVTpmDumpHex. cbv zeta.
    rewrite for_Index_snd, for_Index_fst, Z.add_0_l.
    pose proof (Z.div_mod Size COLUME_SIZE) as Hdm.
    pose proof (Z.mod_pos_bound Size COLUME_SIZE) as Hmod.
    pose proof (Z.div_pos Size COLUME_SIZE) as Hdiv.
    remember (Size / COLUME_SIZE) as Count eqn:ECount.
    remember (Size mod COLUME_SIZE) as Left eqn:ELeft.
    unfold COLUME_SIZE in Hdm, Hmod, Hdiv.
    assert (Hfull :
      @flat_map nat DebugCall
        (fun k =>
           [("%04x: "%string, [(0 + Z.of_nat k) * COLUME_SIZE])]
           ++ InternalDumpData m (Data + (0 + Z.of_nat k) * COLUME_SIZE)
                COLUME_SIZE
           ++ [(LF, [])])
        (seq 0 (Z.to_nat Count))
      = flat_map
          (fun k =>
             [("%04x: "%string, [Z.of_nat k * COLUME_SIZE])]
             ++ InternalDumpData m (Data + Z.of_nat k * COLUME_SIZE)
                  (Z.min COLUME_SIZE (Size - Z.of_nat k * COLUME_SIZE))
             ++ [(LF, [])])
          (seq 0 (Z.to_nat Count))).
    { apply flat_map_ext_seq. intros k Hk.
      replace (Z.min COLUME_SIZE (Size - Z.of_nat k * COLUME_SIZE))
        with COLUME_SIZE by (unfold COLUME_SIZE; lia).
      reflexivity. }
    rewrite Hfull.
    destruct (Z.eqb_spec Left 0) as [E | E]; cbn [negb].
    - replace ((Size + (COLUME_SIZE - 1)) / COLUME_SIZE) with Count
        by (unfold COLUME_SIZE; apply (Z.div_unique _ _ _ 31); lia).
      apply app_nil_r.
    - replace ((Size + (COLUME_SIZE - 1)) / COLUME_SIZE) with (Count + 1)
        by (unfold COLUME_SIZE; apply (Z.div_unique _ _ _ (Left - 1)); lia).
      replace (Z.to_nat (Count + 1)) with (Z.to_nat Count + 1)%nat by lia.
      rewrite seq_app, flat_map_app. f_equal.
      cbn [seq flat_map Nat.add]. rewrite app_nil_r.
      replace (Z.of_nat (Z.to_nat Count)) with Count by lia.
      replace (Z.min COLUME_SIZE (Size - Count * COLUME_SIZE)) with Left
        by (unfold COLUME_SIZE; lia).
      reflexivity. }
  split; [exact Hrows|].
  split; [intros D S; split;
          [apply InternalDumpData_no_label | apply InternalDumpData_no_LF]|].
  intros ->. rewrite Hrows. reflexivity.
Qed.

(** X18. [InternalDumpData] prints the bytes in order and the separator
    ["|"] at one place only: directly after the byte of index 15, when it
    is given at least 16 bytes. Its output is the first min([Size], 16)
    bytes, then the separator if [Size] >= 16, then the bytes from index
    16 on. A dump of [Size] bytes so prints [Size] / 32 separators, and
    one more when [Size] mod 32 >= 16. *)
Theorem dump_separators (m : Mem) (Data Size : Z) :
  let byte := fun b : Z => ("%02x "%string, [b]) in
  InternalDumpData m Data Size
  = map byte (ReadBytes m Data (Z.to_nat (Z.min Size 16)))
    ++ (if 16 <=? Size then [("|"%string, [])] else [])
    ++ map byte (ReadBytes m (Data + 16) (Z.to_nat (Size - 16)))
  /\ (0 <= Size ->
      count_format "|" (VmmSpdmVTpmDumpHex m Data Size)
      = Z.to_nat (Size / COLUME_SIZE
                  + (if 16 <=? Size mod COLUME_SIZE then 1 else 0))).
Proof.
  intros byte; subst byte. split.
  - unfold InternalDumpData. rewrite for_Index_fst. cbv beta.
    destruct (Z.leb_spec 16 Size) as [Hge | Hlt].
    + replace (Z.to_nat Size) with (15 + (1 + Z.to_nat (Size - 16)))%nat by lia.
      replace (Z.to_nat (Z.min Size 16)) with (15 + 1)%nat by lia.
      rewrite !seq_app, !flat_map_app, ReadBytes_app, map_app, <- !app_assoc.
      f_equal.
      { rewrite (InternalDumpData_plain m Data 15 0) by (intros k Hk; lia).
        do 2 f_equal. lia. }
      rewrite (app_assoc (map _ (ReadBytes m _ 1))).
      f_equal.
      rewrite flat_map_seq_from.
      rewrite <- (InternalDumpData_plain m Data _ 16) by (intros k Hk; lia).
      apply flat_map_ext. intros k.
      replace (0 + Z.of_nat (0 + 15 + 1 + k)) with (16 + Z.of_nat k) by lia.
      reflexivity.
    + replace (Z.to_nat (Z.min Size 16)) with (Z.to_nat Size) by lia.
      replace (Z.to_nat (Size - 16)) with 0%nat by lia.
      cbn [ReadBytes map app]. rewrite app_nil_r.
      rewrite (InternalDumpData_plain m Data _ 0) by (intros k Hk; lia).
      do 2 f_equal. lia.
  - intros HSize. unfold VmmSpdmVTpmDumpHex. cbv zeta.
    rewrite for_Index_snd, Z.add_0_l.
    destruct (DumpHex_rows_layout m Data (Z.to_nat (Size / COLUME_SIZE)) 0)
      as (_ & _ & Hsep).
    rewrite count_format_app, Hsep.
    pose proof (Z.mod_pos_bound Size COLUME_SIZE) as Hmod.
    pose proof (Z.div_pos Size COLUME_SIZE) as Hdiv.
    remember (Size / COLUME_SIZE) as Count eqn:ECount.
    remember (Size mod COLUME_SIZE) as Left eqn:ELeft.
    unfold COLUME_SIZE in Hmod, Hdiv.
    destruct (Z.eqb_spec Left 0) as [E | E]; cbn [negb].
    + rewrite E. change (16 <=? 0) with false.
      change (count_format "|" []) with 0%nat. lia.
    + rewrite count_separator_row, InternalDumpData_separator.
      destruct (16 <=? Left); lia.
Qed.

(** ** Logs of the mock platform *)

Lemma mock_log_begins_with_call (c : MockConfig) (Seen : Mem) :
  begins_with_call (mock_log c Seen) 0x100000 0x200000 Seen
    (mc_ret_code c) (mc_ret_value c) (mock_Left c Seen 0x200000).
Proof. unfold begins_with_call, mock_log. do 9 eexists. reflexivity. Qed.

Lemma mock_log_caller_owned (c : MockConfig) (Seen : Mem) (a : Z) :
  outside_buffer a 0x100000 -> outside_buffer a 0x200000 ->
  mock_Left c Seen 0x200000 a = Seen a ->
  caller_owned (mock_log c Seen) a.
Proof.
  intros H1 H2 Hhost. split.
  - intros Pages Buffer HIn. cbn [In app mock_log mock_release] in HIn.
    repeat (destruct HIn as [HIn | HIn]; try discriminate HIn);
      try contradiction.
    + injection HIn as _ <-. exact H1.
    + injection HIn as _ <-. exact H2.
  - intros Leaf A1 A2 A3 A4 S RC RV L HIn.
    cbn [In app mock_log mock_release] in HIn.
    repeat (destruct HIn as [HIn | HIn]; try discriminate HIn);
      try contradiction.
    apply EvTdVmCall_inv in HIn.
    destruct HIn as (_ & _ & _ & _ & _ & <- & _ & _ & <-).
    exact Hhost.
Qed.

Lemma mock_log_clears_granted (c : MockConfig) (Seen : Mem) :
  clears_granted (mock_log c Seen).
Proof.
  intros Address Pages Status HIn. cbn [In app mock_log mock_release] in HIn.
  repeat (destruct HIn as [HIn | HIn]; try discriminate HIn);
    try contradiction.
  all: injection HIn as _ _ <-; reflexivity.
Qed.

Lemma mock_log_call (c : MockConfig) (Seen : Mem) :
  In (EvTdVmCall 0x10005 (Z.lor 0x100000 (mc_mask c))
        (Z.lor 0x200000 (mc_mask c)) 0 VMM_SPDM_TIMEOUT Seen
        (mc_ret_code c) (mc_ret_value c) (mock_Left c Seen 0x200000))
     (mock_log c Seen).
Proof. unfold mock_log. in_log. Qed.

Lemma mock_buffers_disjoint : buffers_disjoint 0x100000 0x200000.
Proof. split; [left; reflexivity | right; lazy; discriminate]. Qed.

(** ** The further statements at work on the mock platform *)

(** An acquisition that succeeds, and one whose marking is refused. *)
Lemma AllocateSharedBuffer_all_or_nothing_witness :
  let g :=
    AllocateSharedBuffer (MockPlatform acknowledging_host) 1
      (mock_world acknowledging_host zero_mem) in
  let r :=
    AllocateSharedBuffer (MockPlatform refusing_host) 1
      (mock_world refusing_host zero_mem) in
  value g <> NULL
  /\ (exists Status,
        EFI_ERROR Status = false
        /\ events g = [EvAllocatePages 1 (value g);
                       EvSetPageSharedBit MARK_SHARED (value g) 1 Status])
  /\ value r = NULL
  /\ freed (events r) = allocated (events r)
  /\ allocated (events r) = [0x100000].
Proof.
  intros g r.
  pose proof (AllocateSharedBuffer_all_or_nothing
                (MockPlatform acknowledging_host) 1
                (mock_world acknowledging_host zero_mem)) as Cg.
  pose proof (AllocateSharedBuffer_all_or_nothing
                (MockPlatform refusing_host) 1
                (mock_world refusing_host zero_mem)) as Cr.
  assert (Hg : value g <> NULL) by discriminate.
  assert (Hr : value r = NULL) by reflexivity.
  assert (Ha : allocated (events r) = [0x100000]) by reflexivity.
  exact (conj Hg
           (conj (proj1 (proj2 Cg) Hg)
              (conj Hr (conj (proj1 (proj2 (proj2 Cr) Hr)) Ha)))).
Defined.

(** An acknowledged write and read on the mock: both pages come back. *)
Lemma no_page_leaked_witness :
  let wr :=
    VTpmContextWrite (MockPlatform acknowledging_host) 4 0x5000
       VMM_SPDM_TIMEOUT
       (mock_world acknowledging_host payload_DEADBEEF) in
  let rd :=
    VTpmContextRead (MockPlatform acknowledging_host) 16 0x6000
       VMM_SPDM_TIMEOUT
       (mock_world acknowledging_host payload_DEADBEEF) in
  clears_granted (events wr)
  /\ clears_granted (events rd)
  /\ Permutation (freed (events wr)) (allocated (events wr))
  /\ Permutation (freed (events rd)) (allocated (events rd))
  /\ allocated (events wr) = [0x100000; 0x200000].
Proof.
  intros wr rd.
  pose proof (no_page_leaked (MockPlatform acknowledging_host)
                4 0x5000 16 0x6000 VMM_SPDM_TIMEOUT
                (mock_world acknowledging_host payload_DEADBEEF)) as C.
  assert (Hw : clears_granted (events wr))
    by (exact (mock_log_clears_granted acknowledging_host
                 (Write_frames payload_DEADBEEF 0x100000 0x200000 4 0x5000))).
  assert (Hr : clears_granted (events rd))
    by (exact (mock_log_clears_granted acknowledging_host
                 (Read_frames payload_DEADBEEF 0x100000 0x200000))).
  assert (Ha : allocated (events wr) = [0x100000; 0x200000]) by reflexivity.
  exact (conj Hw (conj Hr (conj (proj1 C Hw) (conj (proj2 C Hr) Ha)))).
Defined.

(** The hypercall of an acknowledged write. *)
Lemma one_tagged_hypercall_witness :
  let wr :=
    VTpmContextWrite (MockPlatform acknowledging_host) 4 0x5000
       VMM_SPDM_TIMEOUT
       (mock_world acknowledging_host payload_DEADBEEF) in
  let Seen := Write_frames payload_DEADBEEF 0x100000 0x200000 4 0x5000 in
  let Left := mock_Left acknowledging_host Seen 0x200000 in
  In (EvTdVmCall 0x10005 (0x100000 + 2 ^ 47) (0x200000 + 2 ^ 47) 0 2000
        Seen 0 0 Left)
     (events wr)
  /\ exists CmdBuffer RspBuffer Mask s1 s2 rest,
       events wr
       = [EvAllocatePages 1 CmdBuffer;
          EvSetPageSharedBit MARK_SHARED CmdBuffer 1 s1;
          EvAllocatePages 1 RspBuffer;
          EvSetPageSharedBit MARK_SHARED RspBuffer 1 s2;
          EvTdSharedPageMask Mask;
          EvTdVmCall 0x10005 (0x100000 + 2 ^ 47) (0x200000 + 2 ^ 47) 0 2000
            Seen 0 0 Left] ++ rest
       /\ forallb is_release rest = true
       /\ CmdBuffer <> NULL /\ RspBuffer <> NULL
       /\ EFI_ERROR s1 = false /\ EFI_ERROR s2 = false
       /\ Mask <> 0
       /\ 0x10005 = TDVMCALL_SERVICE (MockPlatform acknowledging_host)
       /\ 0x100000 + 2 ^ 47 = Z.lor CmdBuffer Mask
       /\ 0x200000 + 2 ^ 47 = Z.lor RspBuffer Mask
       /\ 0 = 0
       /\ 2000 = VMM_SPDM_TIMEOUT.
Proof.
  intros wr Seen Left.
  pose proof (one_tagged_hypercall (MockPlatform acknowledging_host)
                4 0x5000 16 0x6000 VMM_SPDM_TIMEOUT
                (mock_world acknowledging_host payload_DEADBEEF)) as C.
  assert (HIn : In (EvTdVmCall 0x10005 (0x100000 + 2 ^ 47) (0x200000 + 2 ^ 47)
                      0 2000 Seen 0 0 Left)
                   (events wr))
    by (exact (mock_log_call acknowledging_host Seen)).
  exact (conj HIn (proj1 C _ _ _ _ _ _ _ _ _ HIn)).
Defined.

(** A platform with a single free page. *)
Lemma allocation_failure_is_unsupported_witness :
  let wr :=
    VTpmContextWrite (MockPlatform exhausted_host) 4 0x5000
       VMM_SPDM_TIMEOUT (mock_world exhausted_host payload_DEADBEEF) in
  let rd :=
    VTpmContextRead (MockPlatform exhausted_host) 16 0x6000
       VMM_SPDM_TIMEOUT (mock_world exhausted_host payload_DEADBEEF) in
  (length (acquired (events wr)) < 2)%nat
  /\ value wr = EFI_UNSUPPORTED
  /\ existsb is_exchange (events wr) = false
  /\ mem (world wr) = payload_DEADBEEF
  /\ (length (acquired (events rd)) < 2)%nat
  /\ fst (value rd) = EFI_UNSUPPORTED
  /\ existsb is_exchange (events rd) = false.
Proof.
  intros wr rd.
  pose proof (allocation_failure_is_unsupported (MockPlatform exhausted_host)
                4 0x5000 16 0x6000 VMM_SPDM_TIMEOUT
                (mock_world exhausted_host payload_DEADBEEF))
    as (CW & CWm & CR & CRm).
  assert (Hw : (length (acquired (events wr)) < 2)%nat)
    by (apply Nat.lt_succ_diag_r).
  assert (Hr : (length (acquired (events rd)) < 2)%nat)
    by (apply Nat.lt_succ_diag_r).
  exact (conj Hw
           (conj (proj2 CW Hw)
              (conj (proj1 (CWm (proj2 CW Hw)))
                 (conj (proj2 (CWm (proj2 CW Hw)))
                    (conj Hr
                       (conj (proj2 CR Hr)
                          (proj1 (CRm (proj2 CR Hr))))))))).
Defined.

(** A host that answers with outer status 1. *)
Lemma failed_exchange_aborts_witness :
  let wr :=
    VTpmContextWrite (MockPlatform rejecting_host) 4 0x5000
       VMM_SPDM_TIMEOUT (mock_world rejecting_host payload_DEADBEEF) in
  let rd :=
    VTpmContextRead (MockPlatform rejecting_host) 16 0x5000
       VMM_SPDM_TIMEOUT (mock_world rejecting_host payload_DEADBEEF) in
  let SeenW := Write_frames payload_DEADBEEF 0x100000 0x200000 4 0x5000 in
  let SeenR := Read_frames payload_DEADBEEF 0x100000 0x200000 in
  let LeftW := mock_Left rejecting_host SeenW 0x200000 in
  let LeftR := mock_Left rejecting_host SeenR 0x200000 in
  (0 <> 0 \/ 0 <> 0 \/ ~ both_statuses_zero LeftW 0x200000)
  /\ (0 <> 0 \/ 0 <> 0 \/ ~ both_statuses_zero LeftR 0x200000)
  /\ begins_with_call (events wr) 0x100000 0x200000 SeenW 0 0 LeftW
  /\ begins_with_call (events rd) 0x100000 0x200000 SeenR 0 0 LeftR
  /\ value wr = EFI_ABORTED
  /\ value rd = (EFI_ABORTED, 16).
Proof.
  intros wr rd SeenW SeenR LeftW LeftR.
  assert (HbW : 0 <> 0 \/ 0 <> 0 \/ ~ both_statuses_zero LeftW 0x200000).
  { right; right. intros [H _]. discriminate H. }
  assert (HbR : 0 <> 0 \/ 0 <> 0 \/ ~ both_statuses_zero LeftR 0x200000).
  { right; right. intros [H _]. discriminate H. }
  assert (HW : begins_with_call (events wr) 0x100000 0x200000 SeenW 0 0 LeftW)
    by (exact (mock_log_begins_with_call rejecting_host SeenW)).
  assert (HR : begins_with_call (events rd) 0x100000 0x200000 SeenR 0 0 LeftR)
    by (exact (mock_log_begins_with_call rejecting_host SeenR)).
  pose proof (failed_exchange_aborts (MockPlatform rejecting_host)
                4 0x5000 16 0x5000 VMM_SPDM_TIMEOUT
                (mock_world rejecting_host payload_DEADBEEF)
                0x100000 0x200000 SeenW 0 0 LeftW HbW) as CW.
  pose proof (failed_exchange_aborts (MockPlatform rejecting_host)
                4 0x5000 16 0x5000 VMM_SPDM_TIMEOUT
                (mock_world rejecting_host payload_DEADBEEF)
                0x100000 0x200000 SeenR 0 0 LeftR HbR) as CR.
  exact (conj HbW
           (conj HbR
              (conj HW
                 (conj HR
                    (conj (proj1 (proj1 CW HW)) (proj1 (proj2 CR HR))))))).
Defined.

(** An acknowledged write on the mock. *)
Lemma Write_succeeds_iff_witness :
  let wr :=
    VTpmContextWrite (MockPlatform acknowledging_host) 4 0x5000
       VMM_SPDM_TIMEOUT
       (mock_world acknowledging_host payload_DEADBEEF) in
  let Seen := Write_frames payload_DEADBEEF 0x100000 0x200000 4 0x5000 in
  let Left := mock_Left acknowledging_host Seen 0x200000 in
  exchange_accepted (events wr) 0x200000 Left
  /\ value wr = EFI_SUCCESS.
Proof.
  intros wr Seen Left.
  assert (Hacc : exchange_accepted (events wr) 0x200000 Left).
  { exists 0x100000, Seen. split.
    - exact (mock_log_begins_with_call acknowledging_host Seen).
    - split; reflexivity. }
  pose proof (Write_succeeds_iff (MockPlatform acknowledging_host) 4 0x5000
                VMM_SPDM_TIMEOUT
                (mock_world acknowledging_host payload_DEADBEEF)) as C.
  exact (conj Hacc
           (proj2 C (ex_intro _ 0x200000 (ex_intro _ Left Hacc)))).
Defined.

(** A 4-byte reply read with capacity 16 and with capacity 2. *)
Lemma Read_status_meaning_witness :
  let fits :=
    VTpmContextRead (MockPlatform replying_host) 16 0x5000
         VMM_SPDM_TIMEOUT (mock_world replying_host zero_mem) in
  let small :=
    VTpmContextRead (MockPlatform replying_host) 2 0x5000
          VMM_SPDM_TIMEOUT (mock_world replying_host zero_mem) in
  let Seen := Read_frames zero_mem 0x100000 0x200000 in
  let Left := mock_Left replying_host Seen 0x200000 in
  let R := payload_length (ReadUint32 Left (0x200000 + 16)) in
  exchange_accepted (events fits) 0x200000 Left
  /\ exchange_accepted (events small) 0x200000 Left
  /\ R <= 16 /\ 2 < R
  /\ fst (value fits) = EFI_SUCCESS
  /\ fst (value small) = EFI_BUFFER_TOO_SMALL.
Proof.
  intros fits small Seen Left R.
  assert (Hfit : exchange_accepted (events fits) 0x200000 Left).
  { exists 0x100000, Seen. split.
    - exact (mock_log_begins_with_call replying_host Seen).
    - split; reflexivity. }
  assert (Hsmall : exchange_accepted (events small) 0x200000 Left).
  { exists 0x100000, Seen. split.
    - exact (mock_log_begins_with_call replying_host Seen).
    - split; reflexivity. }
  assert (Hle : R <= 16) by (lazy; discriminate).
  assert (Hlt : 2 < R) by reflexivity.
  pose proof (Read_status_meaning (MockPlatform replying_host) 16 0x5000
                VMM_SPDM_TIMEOUT (mock_world replying_host zero_mem)) as C16.
  pose proof (Read_status_meaning (MockPlatform replying_host) 2 0x5000
                VMM_SPDM_TIMEOUT (mock_world replying_host zero_mem)) as C2.
  exact (conj Hfit
           (conj Hsmall
              (conj Hle
                 (conj Hlt
                    (conj
                       (proj2 (proj1 C16)
                          (ex_intro _ 0x200000
                             (ex_intro _ Left (conj Hfit Hle))))
                       (proj2 (proj2 C2)
                          (ex_intro _ 0x200000
                             (ex_intro _ Left (conj Hsmall Hlt))))))))).
Defined.

(** The request of an acknowledged write is left as it was. *)
Lemma Write_keeps_caller_memory_witness :
  let wr :=
    VTpmContextWrite (MockPlatform acknowledging_host) 4 0x5000
       VMM_SPDM_TIMEOUT
       (mock_world acknowledging_host payload_DEADBEEF) in
  4 <= VTPM_DEFAULT_MAX_BUFFER_SIZE - 28
  /\ caller_owned (events wr) 0x5000
  /\ mem (world wr) 0x5000 = 0xDE.
Proof.
  intros wr.
  assert (Hfit : 4 <= VTPM_DEFAULT_MAX_BUFFER_SIZE - 28) by discriminate.
  assert (Hown : caller_owned (events wr) 0x5000)
    by (exact (mock_log_caller_owned acknowledging_host
                 (Write_frames payload_DEADBEEF 0x100000 0x200000 4 0x5000)
                 0x5000 (or_introl eq_refl) (or_introl eq_refl) eq_refl)).
  pose proof (Write_keeps_caller_memory (MockPlatform acknowledging_host)
                4 0x5000 VMM_SPDM_TIMEOUT
                (mock_world acknowledging_host payload_DEADBEEF)
                Hfit 0x5000 Hown) as C.
  exact (conj Hfit (conj Hown C)).
Defined.

(** The command frame of a read on the mock. *)
Lemma Read_command_frame_witness :
  let rd :=
    VTpmContextRead (MockPlatform acknowledging_host) 16 0x6000
       VMM_SPDM_TIMEOUT
       (mock_world acknowledging_host payload_DEADBEEF) in
  let Seen := Read_frames payload_DEADBEEF 0x100000 0x200000 in
  let Left := mock_Left acknowledging_host Seen 0x200000 in
  begins_with_call (events rd) 0x100000 0x200000 Seen 0 0 Left
  /\ buffers_disjoint 0x100000 0x200000
  /\ ReadBytes Seen 0x100000 28
     = [0x93; 0x07; 0x59; 0x64; 0x52; 0x78; 0x52; 0x4e;
        0xbe; 0x45; 0xcd; 0xbb; 0x11; 0x6f; 0x20; 0xf3;
        28; 0; 0; 0;  0; 0; 0; 0;  0; 2; 0; 0]
  /\ ReadUint32 Seen (0x100000 + 16) = 24 + 4.
Proof.
  intros rd Seen Left.
  assert (Hrun : begins_with_call (events rd) 0x100000 0x200000 Seen 0 0 Left)
    by (exact (mock_log_begins_with_call acknowledging_host Seen)).
  pose proof (Read_command_frame (MockPlatform acknowledging_host) 16 0x6000
                VMM_SPDM_TIMEOUT
                (mock_world acknowledging_host payload_DEADBEEF)
                0x100000 0x200000 Seen 0 0 Left Hrun mock_buffers_disjoint)
    as C.
  exact (conj Hrun (conj mock_buffers_disjoint C)).
Defined.

(** The skeletons of a write and of a read on the mock. *)
Lemma response_skeleton_bytes_witness :
  let wr :=
    VTpmContextWrite (MockPlatform acknowledging_host) 4 0x5000
       VMM_SPDM_TIMEOUT
       (mock_world acknowledging_host payload_DEADBEEF) in
  let rd :=
    VTpmContextRead (MockPlatform acknowledging_host) 16 0x6000
       VMM_SPDM_TIMEOUT
       (mock_world acknowledging_host payload_DEADBEEF) in
  let SeenW := Write_frames payload_DEADBEEF 0x100000 0x200000 4 0x5000 in
  let SeenR := Read_frames payload_DEADBEEF 0x100000 0x200000 in
  begins_with_call (events wr) 0x100000 0x200000 SeenW 0 0
    (mock_Left acknowledging_host SeenW 0x200000)
  /\ begins_with_call (events rd) 0x100000 0x200000 SeenR 0 0
       (mock_Left acknowledging_host SeenR 0x200000)
  /\ ReadBytes SeenW 0x200000 28
     = [0x93; 0x07; 0x59; 0x64; 0x52; 0x78; 0x52; 0x4e;
        0xbe; 0x45; 0xcd; 0xbb; 0x11; 0x6f; 0x20; 0xf3;
        28; 0; 0; 0;  0; 0; 0; 0;  0; 1; 0; 0]
  /\ ReadBytes SeenR 0x200000 28
     = [0x93; 0x07; 0x59; 0x64; 0x52; 0x78; 0x52; 0x4e;
        0xbe; 0x45; 0xcd; 0xbb; 0x11; 0x6f; 0x20; 0xf3;
        0; 16; 0; 0;  0; 0; 0; 0;  0; 2; 0; 0].
Proof.
  intros wr rd SeenW SeenR.
  assert (HW : begins_with_call (events wr) 0x100000 0x200000
                 SeenW 0 0 (mock_Left acknowledging_host SeenW 0x200000))
    by (exact (mock_log_begins_with_call acknowledging_host SeenW)).
  assert (HR : begins_with_call (events rd) 0x100000 0x200000
                 SeenR 0 0 (mock_Left acknowledging_host SeenR 0x200000))
    by (exact (mock_log_begins_with_call acknowledging_host SeenR)).
  pose proof (response_skeleton_bytes (MockPlatform acknowledging_host)
                4 0x5000 16 0x6000 VMM_SPDM_TIMEOUT
                (mock_world acknowledging_host payload_DEADBEEF)
                0x100000 0x200000 SeenW 0 0
                (mock_Left acknowledging_host SeenW 0x200000)) as CW.
  pose proof (response_skeleton_bytes (MockPlatform acknowledging_host)
                4 0x5000 16 0x6000 VMM_SPDM_TIMEOUT
                (mock_world acknowledging_host payload_DEADBEEF)
                0x100000 0x200000 SeenR 0 0
                (mock_Left acknowledging_host SeenR 0x200000)) as CR.
  exact (conj HW (conj HR (conj (proj1 CW HW) (proj2 CR HR)))).
Defined.

(** A request of 4069 bytes: its last byte lands beyond the page. *)
Lemma Write_copies_without_bound_witness :
  let wr :=
    VTpmContextWrite (MockPlatform acknowledging_host) 4069 0x5000
       VMM_SPDM_TIMEOUT (mock_world acknowledging_host long_request) in
  let Seen := Write_frames long_request 0x100000 0x200000 4069 0x5000 in
  let Left := mock_Left acknowledging_host Seen 0x200000 in
  begins_with_call (events wr) 0x100000 0x200000 Seen 0 0 Left
  /\ buffers_disjoint 0x100000 0x200000
  /\ VTPM_DEFAULT_MAX_BUFFER_SIZE - 28 < 4069
  /\ outside_buffer (0x100000 + 4096) 0x100000
  /\ Seen (0x100000 + 4096) = 0xAA
  /\ ReadUint32 Seen (0x100000 + 16) = 4097.
Proof.
  intros wr Seen Left.
  assert (Hrun : begins_with_call (events wr) 0x100000 0x200000 Seen 0 0 Left)
    by (exact (mock_log_begins_with_call acknowledging_host Seen)).
  assert (Hbig : VTPM_DEFAULT_MAX_BUFFER_SIZE - 28 < 4069) by reflexivity.
  assert (Hsrc : outside_buffer (0x5000 + (VTPM_DEFAULT_MAX_BUFFER_SIZE - 28))
                   0x100000) by (left; reflexivity).
  assert (Hdst : 0x100000 + EFI_PAGES_TO_SIZE VTPM_DEFAULT_ALLOCATION_PAGE
                 < 0x200000
                 \/ 0x200000 + 28
                    <= 0x100000 + EFI_PAGES_TO_SIZE VTPM_DEFAULT_ALLOCATION_PAGE)
    by (left; reflexivity).
  pose proof (Write_copies_without_bound (MockPlatform acknowledging_host)
                4069 0x5000 VMM_SPDM_TIMEOUT
                (mock_world acknowledging_host long_request)
                0x100000 0x200000 Seen 0 0 Left Hrun mock_buffers_disjoint)
    as (CLen & _ & Cpast).
  exact (conj Hrun
           (conj mock_buffers_disjoint
              (conj Hbig
                 (conj (proj1 (Cpast Hbig Hsrc Hdst))
                    (conj (proj2 (Cpast Hbig Hsrc Hdst)) CLen))))).
Defined.

(** A response that reports 4097 bytes: the byte after the page is
    copied. *)
Lemma Read_copies_past_the_buffer_witness :
  let rd :=
    VTpmContextRead (MockPlatform long_length_host) 8192 0x10000000
       VMM_SPDM_TIMEOUT (mock_world long_length_host marked_mem) in
  let Seen := Read_frames marked_mem 0x100000 0x200000 in
  let Left := mock_Left long_length_host Seen 0x200000 in
  begins_with_call (events rd) 0x100000 0x200000 Seen 0 0 Left
  /\ both_statuses_zero Left 0x200000
  /\ EFI_PAGES_TO_SIZE VTPM_DEFAULT_ALLOCATION_PAGE
     < ReadUint32 Left (0x200000 + 16)
  /\ ReadUint32 Left (0x200000 + 16) - 28 <= 8192
  /\ value rd = (EFI_SUCCESS, 4069)
  /\ outside_buffer (0x200000 + 4096) 0x200000
  /\ mem (world rd) (0x10000000 + 4068) = 0xAA.
Proof.
  intros rd Seen Left.
  assert (Hrun : begins_with_call (events rd) 0x100000 0x200000 Seen 0 0 Left)
    by (exact (mock_log_begins_with_call long_length_host Seen)).
  assert (Hst : both_statuses_zero Left 0x200000) by (split; reflexivity).
  assert (Hlong : EFI_PAGES_TO_SIZE VTPM_DEFAULT_ALLOCATION_PAGE
                  < ReadUint32 Left (0x200000 + 16)) by reflexivity.
  assert (Hcap : ReadUint32 Left (0x200000 + 16) - 28 <= 8192)
    by (lazy; discriminate).
  pose proof (Read_copies_past_the_buffer (MockPlatform long_length_host)
                8192 0x10000000 VMM_SPDM_TIMEOUT
                (mock_world long_length_host marked_mem)
                0x100000 0x200000 Seen Left Hrun Hst Hlong Hcap) as [Cv Cm].
  assert (Hi : EFI_PAGES_TO_SIZE VTPM_DEFAULT_ALLOCATION_PAGE - 28 <= 4068
               < ReadUint32 Left (0x200000 + 16) - 28)
    by (split; [lazy; discriminate | reflexivity]).
  assert (Hbyte : Left (0x200000 + 28 + 4068) = 0xAA) by reflexivity.
  exact (conj Hrun
           (conj Hst
              (conj Hlong
                 (conj Hcap
                    (conj Cv
                       (conj (proj1 (Cm 4068 Hi))
                          (eq_trans (proj2 (Cm 4068 Hi)) Hbyte))))))).
Defined.

(** A write and a read of {0xDE, 0xAD, 0xBE, 0xEF} against the host that
    hands back what it was sent. *)
Lemma Write_then_Read_round_trip_witness :
  let wr :=
    VTpmContextWrite LoopbackPlatform 4 0x5000 VMM_SPDM_TIMEOUT
       (loopback_world payload_DEADBEEF) in
  let rd :=
    VTpmContextRead LoopbackPlatform 16 0x6000 VMM_SPDM_TIMEOUT
       (world wr) in
  let SeenW := Write_frames payload_DEADBEEF 0x100000 0x200000 4 0x5000 in
  let LeftW :=
    CopyBytes SeenW 0x200000 (mock_frame 28 0 SERVICE_VTPM_SEND_MESSAGE 0 []) in
  let SeenR := Read_frames LeftW 0x100000 0x200000 in
  let LeftR :=
    CopyBytes SeenR 0x200000
      (mock_frame 32 0 SERVICE_VTPM_RECEIVE_MESSAGE 0
         [0xDE; 0xAD; 0xBE; 0xEF]) in
  begins_with_call (events wr) 0x100000 0x200000 SeenW 0 0 LeftW
  /\ both_statuses_zero LeftW 0x200000
  /\ begins_with_call (events rd) 0x100000 0x200000 SeenR 0 0 LeftR
  /\ both_statuses_zero LeftR 0x200000
  /\ ReadUint32 LeftR (0x200000 + 16) = ReadUint32 SeenW (0x100000 + 16)
  /\ ReadBytes LeftR (0x200000 + 28) 4 = ReadBytes SeenW (0x100000 + 28) 4
  /\ value wr = EFI_SUCCESS
  /\ value rd = (EFI_SUCCESS, 4)
  /\ ReadBytes (mem (world rd)) 0x6000 4 = [0xDE; 0xAD; 0xBE; 0xEF].
Proof.
  intros wr rd SeenW LeftW SeenR LeftR.
  assert (HW : begins_with_call (events wr) 0x100000 0x200000
                 SeenW 0 0 LeftW).
  { unfold begins_with_call.
    exists EFI_SUCCESS, EFI_SUCCESS, loopback_mask, 0x10005,
      (Z.lor 0x100000 loopback_mask), (Z.lor 0x200000 loopback_mask), 0,
      VMM_SPDM_TIMEOUT, mock_release.
    reflexivity. }
  assert (HWst : both_statuses_zero LeftW 0x200000) by (split; reflexivity).
  assert (HR : begins_with_call (events rd) 0x100000 0x200000
                 SeenR 0 0 LeftR).
  { unfold begins_with_call.
    exists EFI_SUCCESS, EFI_SUCCESS, loopback_mask, 0x10005,
      (Z.lor 0x100000 loopback_mask), (Z.lor 0x200000 loopback_mask), 0,
      VMM_SPDM_TIMEOUT, mock_release.
    reflexivity. }
  assert (HRst : both_statuses_zero LeftR 0x200000) by (split; reflexivity).
  assert (Hsize : 0 <= 4 <= VTPM_DEFAULT_MAX_BUFFER_SIZE - 28)
    by (split; discriminate).
  assert (Hsrc : forall i, 0 <= i < 4 -> outside_buffer (0x5000 + i) 0x100000)
    by (intros i Hi; left; lia).
  assert (HLen : ReadUint32 LeftR (0x200000 + 16)
                 = ReadUint32 SeenW (0x100000 + 16)) by reflexivity.
  assert (Hbytes : ReadBytes LeftR (0x200000 + 28) 4
                   = ReadBytes SeenW (0x100000 + 28) 4) by reflexivity.
  assert (Hpay : forall i, 0 <= i < 4 ->
                   LeftR (0x200000 + 28 + i) = SeenW (0x100000 + 28 + i)).
  { intros i Hi.
    assert (Hc : i = 0 \/ i = 1 \/ i = 2 \/ i = 3) by lia.
    destruct Hc as [-> | [-> | [-> | ->]]]; reflexivity. }
  assert (Hcap : 4 <= 16) by discriminate.
  pose proof (Write_then_Read_round_trip LoopbackPlatform 4 0x5000 16 0x6000
                VMM_SPDM_TIMEOUT (loopback_world payload_DEADBEEF)
                0x100000 0x200000 SeenW LeftW 0x100000 0x200000 SeenR LeftR
                HW HWst HR HRst mock_buffers_disjoint Hsize Hsrc
                HLen Hpay Hcap) as (CW & CR & Cmem).
  assert (Hout : ReadBytes (mem (world rd)) 0x6000 4
                 = [0xDE; 0xAD; 0xBE; 0xEF]) by reflexivity.
  exact (conj HW
           (conj HWst
              (conj HR
                 (conj HRst
                    (conj HLen
                       (conj Hbytes (conj CW (conj CR Hout)))))))).
Defined.

(** A dump of 40 bytes around the payload. *)
Lemma DumpHex_shows_every_byte_witness :
  0 <= 40
  /\ dumped_bytes (VmmSpdmVTpmDumpHex payload_DEADBEEF 0x4FF0 40)
     = ReadBytes payload_DEADBEEF 0x4FF0 40
  /\ ReadBytes payload_DEADBEEF 0x4FF0 40
     = [0; 0; 0; 0; 0; 0; 0; 0; 0; 0; 0; 0; 0; 0; 0; 0;
        0xDE; 0xAD; 0xBE; 0xEF; 0; 0; 0; 0; 0; 0; 0; 0; 0; 0; 0; 0;
        0; 0; 0; 0; 0; 0; 0; 0].
Proof.
  assert (H : 0 <= 40) by discriminate.
  exact (conj H
           (conj (DumpHex_shows_every_byte payload_DEADBEEF 0x4FF0 40 H)
              eq_refl)).
Defined.

(** A dump of 70 bytes: two full rows and one of 6 bytes. *)
Lemma DumpHex_row_layout_witness :
  let m := payload_DEADBEEF in
  0 <= 70
  /\ VmmSpdmVTpmDumpHex m 0x4FF0 70
     = [("%04x: "%string, [0])] ++ InternalDumpData m 0x4FF0 32 ++ [(LF, [])]
       ++ [("%04x: "%string, [32])] ++ InternalDumpData m (0x4FF0 + 32) 32
       ++ [(LF, [])]
       ++ [("%04x: "%string, [64])] ++ InternalDumpData m (0x4FF0 + 64) 6
       ++ [(LF, [])].
Proof.
  intros m.
  assert (H : 0 <= 70) by discriminate.
  exact (conj H (proj1 (DumpHex_row_layout m 0x4FF0 70 H))).
Defined.

(** Seventeen bytes, the payload starting at index 15: the separator
    comes between the bytes 0xDE and 0xAD. *)
Lemma dump_separators_witness :
  let m := payload_DEADBEEF in
  0 <= 80
  /\ InternalDumpData m 0x4FF1 17
     = map (fun b => ("%02x "%string, [b]))
         [0; 0; 0; 0; 0; 0; 0; 0; 0; 0; 0; 0; 0; 0; 0; 0xDE]
       ++ [("|"%string, [])] ++ [("%02x "%string, [0xAD])]
  /\ count_format "|" (VmmSpdmVTpmDumpHex m 0x4FF0 80) = 3%nat.
Proof.
  intros m.
  assert (H : 0 <= 80) by discriminate.
  exact (conj H
           (conj (proj1 (dump_separators m 0x4FF1 17))
              (proj2 (dump_separators m 0x4FF0 80) H))).
Defined.

(** A read that succeeds and one that lacks capacity: the byte next to
    the four copied ones, and the destination itself, are as at entry. *)
Lemma Read_stores_only_the_payload_witness :
  let m := CopyBytes zero_mem 0x5000 [0x11; 0x22; 0x33; 0x44; 0x55] in
  let fits :=
    VTpmContextRead (MockPlatform replying_host) 16 0x5000
      VMM_SPDM_TIMEOUT (mock_world replying_host m) in
  let small :=
    VTpmContextRead (MockPlatform replying_host) 2 0x5000
      VMM_SPDM_TIMEOUT (mock_world replying_host m) in
  caller_owned (events fits) (0x5000 + 4)
  /\ caller_owned (events small) 0x5000
  /\ value fits = (EFI_SUCCESS, 4)
  /\ value small = (EFI_BUFFER_TOO_SMALL, 4)
  /\ mem (world fits) (0x5000 + 4) = 0x55
  /\ mem (world small) 0x5000 = 0x11.
Proof.
  intros m fits small.
  assert (Hf : caller_owned (events fits) (0x5000 + 4))
    by (exact (mock_log_caller_owned replying_host
                 (Read_frames m 0x100000 0x200000)
                 (0x5000 + 4) (or_introl eq_refl) (or_introl eq_refl) eq_refl)).
  assert (Hs : caller_owned (events small) 0x5000)
    by (exact (mock_log_caller_owned replying_host
                 (Read_frames m 0x100000 0x200000)
                 0x5000 (or_introl eq_refl) (or_introl eq_refl) eq_refl)).
  assert (Hvf : value fits = (EFI_SUCCESS, 4)) by reflexivity.
  assert (Hvs : value small = (EFI_BUFFER_TOO_SMALL, 4)) by reflexivity.
  assert (Hout : fst (value fits) = EFI_SUCCESS ->
                 0x5000 + 4 < 0x5000 \/ 0x5000 + snd (value fits) <= 0x5000 + 4).
  { intros _. right. rewrite Hvf. discriminate. }
  assert (Hno : fst (value small) = EFI_SUCCESS ->
                0x5000 < 0x5000 \/ 0x5000 + snd (value small) <= 0x5000).
  { intros H. rewrite Hvs in H. discriminate H. }
  pose proof (Read_stores_only_the_payload (MockPlatform replying_host)
                16 0x5000 VMM_SPDM_TIMEOUT (mock_world replying_host m)
                (0x5000 + 4) Hf Hout) as Cf.
  pose proof (Read_stores_only_the_payload (MockPlatform replying_host)
                2 0x5000 VMM_SPDM_TIMEOUT (mock_world replying_host m)
                0x5000 Hs Hno) as Cs.
  exact (conj Hf (conj Hs (conj Hvf (conj Hvs (conj Cf Cs))))).
Defined.
